(** * FireHydrant: the validate / transform / persist pipeline

    A shallow embedding of the Cincinnati fire-hydrant ETL
    ([validation.py], [transform.py], [storage.py], [alerts.py],
    [ingestion.py], [run_hydrant_pipeline.py]) and the properties its
    specification states about it.

    - Numbers are IEEE binary64 values (the kernel's primitive floats): a
      pandas float64 column is a list of floats whose missing cells are NaN.
    - A raw record is a finite map from field names to JSON values.
    - A DataFrame is kept column by column, as pandas does; "row i" is
      index [i] of every column.
    - Files, the clock, the HTTP answer and the log live in an explicit
      [world] that the stages thread through an error monad.

    Part I holds the definitions, Part II the properties. *)

From Stdlib Require Import ZArith Lia Bool List Ascii String.
From Stdlib Require Import Floats.
From stdpp Require Import base option list gmap strings.

Local Open Scope Z_scope.

(** * Part I: the program *)

(** ** Binary64 cells *)

Module F64.

Definition lt (x y : float) : bool := PrimFloat.ltb x y.
Definition le (x y : float) : bool := PrimFloat.leb x y.
(** [x >= y] as numpy evaluates it. *)
Definition ge (x y : float) : bool := PrimFloat.leb y x.
(** [pd.isna] on a float cell. *)
Definition isna (x : float) : bool := PrimFloat.is_nan x.
Definition notna (x : float) : bool := negb (isna x).

(** The float nearest to an integer (round to nearest even). *)
Definition of_Z (z : Z) : float := SF2Prim (binary_normalize prec emax z 0 false).

(** [2^52]: from there on every binary64 value is an integer. *)
Definition two52 : float := Eval vm_compute in of_Z (2 ^ 52).

(** Sign bit, also of a zero. *)
Definition signbit (x : float) : bool := PrimFloat.get_sign x.

(** C's [rint] in the default rounding mode: nearest integer, ties to
    even, sign kept; NaN, infinities and large values pass through. *)
Definition rint (x : float) : float :=
  let a := PrimFloat.abs x in
  if PrimFloat.ltb a two52
  then let r := PrimFloat.sub (PrimFloat.add a two52) two52 in
       if signbit x then PrimFloat.opp r else r
  else x.

(** [numpy.round(x, decimals)] for [decimals >= 0]: scale, [rint],
    unscale. *)
Definition round_decimals (decimals : nat) (x : float) : float :=
  let f := of_Z (10 ^ Z.of_nat decimals) in
  PrimFloat.div (rint (PrimFloat.mul x f)) f.

(** [Series.fillna(value)], cell by cell. *)
Definition fillna (value x : float) : float := if isna x then value else x.

(** The integer a float is equal to, if it is one. *)
Definition to_Z_exact (x : float) : option Z :=
  match Prim2SF x with
  | S754_zero _ => Some 0
  | S754_finite s m e =>
      if 0 <=? e then Some (cond_Zopp s (Z.pos m * 2 ^ e))
      else let d := 2 ^ (- e) in
           if Z.pos m mod d =? 0 then Some (cond_Zopp s (Z.pos m / d)) else None
  | _ => None
  end.

(** The outcome of comparing two cells: none when one of them is NaN. *)
Definition cmp (x y : float) : option comparison := SFcompare (Prim2SF x) (Prim2SF y).

(** [Lt] or [Eq]. *)
Definition below (c : comparison) : bool := match c with Gt => false | _ => true end.

End F64.

(** ** Python text

    Strings are byte strings; the case mappings and the white space of
    [str.strip] are those of the ASCII range, other bytes are kept. On
    ASCII text these are Python's methods; the properties that lean on
    them are stated for ASCII text. *)

Module PyStr.

Definition code (c : ascii) : nat := nat_of_ascii c.

(** [str.isspace] on ASCII: TAB..CR, FS..US and the blank. *)
Definition is_space (c : ascii) : bool :=
  let n := code c in
  ((9 <=? n)%nat && (n <=? 13)%nat) || ((28 <=? n)%nat && (n <=? 32)%nat).

Definition is_upper (c : ascii) : bool := let n := code c in (65 <=? n)%nat && (n <=? 90)%nat.
Definition is_lower (c : ascii) : bool := let n := code c in (97 <=? n)%nat && (n <=? 122)%nat.
Definition is_cased (c : ascii) : bool := is_upper c || is_lower c.

Definition to_upper (c : ascii) : ascii :=
  if is_lower c then ascii_of_nat (code c - 32) else c.
Definition to_lower (c : ascii) : ascii :=
  if is_upper c then ascii_of_nat (code c + 32) else c.

Fixpoint lstrip_chars (l : list ascii) : list ascii :=
  match l with
  | c :: r => if is_space c then lstrip_chars r else l
  | [] => []
  end.

Definition strip_chars (l : list ascii) : list ascii :=
  rev (lstrip_chars (rev (lstrip_chars l))).

(** [str.title]: a cased character is upper-cased when the previous
    character is not cased, lower-cased otherwise. *)
Fixpoint title_chars (previous_is_cased : bool) (l : list ascii) : list ascii :=
  match l with
  | [] => []
  | c :: r =>
      (if previous_is_cased then to_lower c else to_upper c)
        :: title_chars (is_cased c) r
  end.

Definition lift (f : list ascii -> list ascii) (s : string) : string :=
  string_of_list_ascii (f (list_ascii_of_string s)).

Definition strip : string -> string := lift strip_chars.
Definition upper : string -> string := lift (map to_upper).
Definition title : string -> string := lift (title_chars false).

Definition digit (n : nat) : ascii := ascii_of_nat (48 + n).

(** Decimal digits of a natural number, most significant first. *)
Fixpoint digits_fuel (fuel n : nat) (acc : list ascii) : list ascii :=
  match fuel with
  | O => acc
  | S fuel' =>
      let acc' := digit (n mod 10) :: acc in
      if (n <? 10)%nat then acc' else digits_fuel fuel' (n / 10) acc'
  end.

Definition of_nat (n : nat) : string := string_of_list_ascii (digits_fuel (S n) n []).

(** [str(int)]. *)
Definition of_Z (z : Z) : string :=
  if z <? 0 then String "-" (of_nat (Z.to_nat (- z))) else of_nat (Z.to_nat z).

(** [%0<width>d] of a natural number. *)
Definition zero_pad (width n : nat) : string :=
  let s := of_nat n in
  string_of_list_ascii (replicate (width - String.length s) (digit 0)) +:+ s.

Definition starts_with_char (c : ascii) (s : string) : bool :=
  match s with
  | String c' _ => bool_decide (c = c')
  | EmptyString => false
  end.

Fixpoint ends_with_char (c : ascii) (s : string) : bool :=
  match s with
  | EmptyString => false
  | String c' EmptyString => bool_decide (c = c')
  | String _ r => ends_with_char c r
  end.

End PyStr.

(** ** Raw records *)

(** What [json.load] puts in a record: [None], a boolean, an integer, a
    float or a string (the source API delivers strings). Arrays and
    objects as field values are not modelled. *)
Inductive pyval : Type :=
| PNone
| PBool (b : bool)
| PInt (z : Z)
| PFloat (f : float)
| PStr (s : string).

(** A JSON object with string keys. *)
Abbreviation record := (gmap string pyval).

(** ** validation.py *)

Definition REQUIRED_COLS : list string :=
  [ "objectid"; "assetid"; "lifecyclestatus"; "servicearea";
    "staticpressure"; "latitude"; "longitude"; "neighborhood" ].

(** [col in record]. *)
Definition has_key (col : string) (r : record) : bool :=
  match r !! col with Some _ => true | None => false end.

(** The [for col in REQUIRED_COLS] loop of [validate]: the first missing
    column returns [False]. *)
Fixpoint validate_cols (cols : list string) (r : record) : bool :=
  match cols with
  | [] => true
  | col :: rest => if negb (has_key col r) then false else validate_cols rest r
  end.

Definition validate (r : record) : bool := validate_cols REQUIRED_COLS r.

(** The [for record in data] loop of [validate_data], with its two
    accumulators. *)
Fixpoint validate_loop (data : list record) (valid_records : list record)
    (invalid_count : nat) : list record * nat :=
  match data with
  | [] => (valid_records, invalid_count)
  | r :: rest =>
      if validate r
      then validate_loop rest (valid_records ++ [r]) invalid_count
      else validate_loop rest valid_records (invalid_count + 1)
  end.

(** [validate_data] once the file is parsed. *)
Definition validate_records (data : list record) : list record * nat :=
  validate_loop data [] 0%nat.

(** The completeness of a record in the specification's words: every
    required field name is a key, whatever it maps to. *)
Definition complete (r : record) : Prop :=
  is_Some (r !! "objectid") ∧ is_Some (r !! "assetid") ∧
  is_Some (r !! "lifecyclestatus") ∧ is_Some (r !! "servicearea") ∧
  is_Some (r !! "staticpressure") ∧ is_Some (r !! "latitude") ∧
  is_Some (r !! "longitude") ∧ is_Some (r !! "neighborhood").

#[global] Instance complete_dec (r : record) : Decision (complete r).
Proof. unfold complete. apply _. Defined.

(** ** Exceptions *)

Inductive exn_class : Type :=
| ValueError | KeyError | TypeError | IndexError | JSONDecodeError
| FileNotFoundError | NotADirectoryError | IsADirectoryError | FileExistsError
| HTTPError | Timeout | RequestException.

(** An exception: its class and [str(e)]. *)
Record exn : Type := Exn { exn_class_of : exn_class; exn_str : string }.

Inductive result (A : Type) : Type :=
| Ok (a : A)
| Raise (e : exn).
Arguments Ok {A} a.
Arguments Raise {A} e.

#[global] Instance result_ret : MRet result := fun _ a => Ok a.
#[global] Instance result_bind : MBind result := fun _ _ k r =>
  match r with
  | Ok a => k a
  | Raise e => Raise e
  end.

(** ** The pandas runtime

    Three library routines are taken as given: the text-to-float64 parser
    of [pd.to_numeric], the decimal text of a finite float, and
    [pd.util.hash_pandas_object] on an (objectid, latitude, longitude)
    row, as text. *)

Class PandasRuntime : Type := {
  str_to_float : string -> float;
  float_repr : float -> string;
  hash_row : option Z -> float -> float -> string
}.

(** ** Time stamps *)

Record datetime : Type := {
  year : nat; month : nat; day : nat;
  hour : nat; minute : nat; second : nat; microsecond : nat
}.

(** [pd.to_datetime(t.date())]: the same day at midnight. *)
Definition to_date (t : datetime) : datetime :=
  {| year := year t; month := month t; day := day t;
     hour := 0; minute := 0; second := 0; microsecond := 0 |}.

(** [strftime("%Y-%m-%d")], for the four-digit years of a time stamp. *)
Definition strftime_Ymd (t : datetime) : string :=
  PyStr.zero_pad 4 (year t) +:+ "-" +:+ PyStr.zero_pad 2 (month t)
    +:+ "-" +:+ PyStr.zero_pad 2 (day t).

(** [strftime("%Y%m%dT%H%M%SZ")]. *)
Definition strftime_compact (t : datetime) : string :=
  PyStr.zero_pad 4 (year t) +:+ PyStr.zero_pad 2 (month t) +:+ PyStr.zero_pad 2 (day t)
    +:+ "T" +:+ PyStr.zero_pad 2 (hour t) +:+ PyStr.zero_pad 2 (minute t)
    +:+ PyStr.zero_pad 2 (second t) +:+ "Z".

(** ** Data frames *)

Inductive category : Type := INSUFFICIENT | MARGINAL | ADEQUATE | EXCELLENT.

(** The sixteen columns of the transformed frame, in [column_order].
    Text columns are object columns: a cell is any Python value, a
    missing one is the float NaN. [objectid] is a nullable Int64. *)
Record frame : Type := {
  objectid : list (option Z);
  assetid : list float;
  record_hash : list string;
  latitude : list float;
  longitude : list float;
  geo_cluster : list string;
  neighborhood : list pyval;
  servicearea : list pyval;
  lifecyclestatus : list pyval;
  is_active : list Z;
  staticpressure : list float;
  pressure_category : list (option category);
  pressure_risk_score : list float;
  service_quality : list string;
  load_date : list datetime;
  load_timestamp : list datetime
}.

(** What [transform_data] hands back: the frame it built from the
    records, untouched, when that frame is empty, and the feature frame
    otherwise. *)
Inductive dataframe : Type :=
| RawFrame (recs : list record)
| FeatureFrame (f : frame).

(** [len(df.columns) == 0] for [pd.DataFrame(recs)]. *)
Definition no_columns (recs : list record) : bool :=
  forallb (fun r : record => bool_decide (r = ∅)) recs.

(** [df.empty]: no row or no column. *)
Definition df_empty (df : dataframe) : bool :=
  match df with
  | RawFrame recs => match recs with [] => true | _ => no_columns recs end
  | FeatureFrame f => match load_date f with [] => true | _ => false end
  end.

(** ** transform.py

    The frame is read cell by cell. A column built from the records
    holds their values as they are (an object column), [astype(str)]
    applies Python's [str] to every cell, [None] included, and the
    [.str] methods act on the cells that are strings. The dtype pandas
    infers for a column is not modelled, nor are columns other than the
    sixteen the source names: a text column is read as an object
    column, which it is as soon as one record holds a text in it, and a
    numeric column as a float64 column, also where pandas keeps an
    all-integer column as int64. *)

Section Transform.
Context `{PandasRuntime}.

(** [df[col]] for [df = pd.DataFrame(recs)]: the column exists when some
    record has the key; a record without it gets a NaN cell. *)
Definition column (recs : list record) (col : string) : result (list pyval) :=
  if existsb (has_key col) recs
  then Ok (map (fun r : record => default (PFloat nan) (r !! col)) recs)
  else Raise (Exn KeyError ("'" +:+ col +:+ "'")).

(** [pd.to_numeric(..., errors='coerce')] on one cell, as a float64
    cell. *)
Definition to_numeric (v : pyval) : float :=
  match v with
  | PNone => nan
  | PBool b => if b then 1%float else 0%float
  | PInt z => F64.of_Z z
  | PFloat f => f
  | PStr s => str_to_float s
  end.

(** [.astype('Int64')] on one float cell: NaN becomes <NA>, an integer
    value of the int64 range is kept, anything else is refused. The
    class and the text of the error pandas raises for a refused value
    vary with the value; the model has this one. *)
Definition astype_Int64 (x : float) : result (option Z) :=
  if F64.isna x then Ok None
  else match F64.to_Z_exact x with
       | Some z =>
           if (- 2 ^ 63 <=? z) && (z <? 2 ^ 63) then Ok (Some z)
           else Raise (Exn TypeError "cannot safely cast non-equivalent float64 to int64")
       | None => Raise (Exn TypeError "cannot safely cast non-equivalent float64 to int64")
       end.

(** [str(x)] of a float. *)
Definition float_str (x : float) : string :=
  if F64.isna x then "nan"
  else if PrimFloat.eqb x infinity then "inf"
  else if PrimFloat.eqb x neg_infinity then "-inf"
  else float_repr x.

(** Python's [str] on a record value. *)
Definition py_str (v : pyval) : string :=
  match v with
  | PNone => "None"
  | PBool b => if b then "True" else "False"
  | PInt z => PyStr.of_Z z
  | PFloat f => float_str f
  | PStr s => s
  end.

(** [.astype(str)] on one cell of an object column. *)
Definition astype_str (v : pyval) : pyval := PStr (py_str v).


(** A [.str] method on one cell of an object column: applied to a
    string, NaN for anything else. *)
Definition str_method (f : string -> string) (v : pyval) : pyval :=
  match v with
  | PStr s => PStr (f s)
  | _ => PFloat nan
  end.

(** [Series.isin(values)] on one cell. *)
Definition isin (values : list string) (v : pyval) : bool :=
  match v with
  | PStr s => bool_decide (s ∈ values)
  | _ => false
  end.

(** [bins.searchsorted(x, side='left')] on sorted bins: how many bins lie
    strictly below [x]. *)
Fixpoint searchsorted_left (bins : list float) (x : float) : nat :=
  match bins with
  | [] => O
  | b :: rest => if F64.lt b x then S (searchsorted_left rest x) else O
  end.

(** [pd.cut(x, bins, labels)] with the default [right=True] on one cell:
    the cell is missing when it is NaN or falls outside the bins. *)
Definition cut (bins : list float) (labels : list category) (x : float) : option category :=
  let ids := searchsorted_left bins x in
  if F64.isna x || (ids =? length bins)%nat || (ids =? 0)%nat then None
  else labels !! (ids - 1)%nat.

Definition pressure_bins : list float := [neg_infinity; 20%float; 40%float; 60%float; infinity].
Definition pressure_labels : list category := [INSUFFICIENT; MARGINAL; ADEQUATE; EXCELLENT].

(** [np.where(isin(AB, ABANDONED), 2, np.where(isin(ACTIVE, AC), 1, 0))]. *)
Definition activity_flag (status : pyval) : Z :=
  if isin ["AB"; "ABANDONED"] status then 2
  else if isin ["ACTIVE"; "AC"] status then 1 else 0.

(** One step of the running maximum: NaN cells are skipped. *)
Definition max_step (acc x : float) : float :=
  if F64.isna x then acc
  else if F64.isna acc then x
  else if F64.lt acc x then x else acc.

(** [Series.max()]: the largest cell that is not NaN, NaN if there is
    none. *)
Definition series_max (xs : list float) : float := fold_left max_step xs nan.

(** Line 115, one cell. *)
Definition raw_risk_score (max_pressure p : float) : float :=
  (100 - (p / max_pressure * 100))%float.

(** Lines 114-116. *)
Definition risk_scores (pressures : list float) : list float :=
  let max_pressure := series_max pressures in
  let score := map (raw_risk_score max_pressure) pressures in
  map (F64.round_decimals 2) (map (F64.fillna 100%float) score).

(** [Series.between(left, right)], both ends included. *)
Definition between (left right x : float) : bool := F64.le left x && F64.le x right.

(** [df.loc[mask, col] = value]. *)
Definition loc_assign {A : Type} (mask : list bool) (value : A) (col : list A) : list A :=
  zip_with (fun (m : bool) (old : A) => if m then value else old) mask col.

(** Lines 135-139: four masked assignments over a column of UNKNOWN,
    each overwriting the ones before it. *)
Definition service_quality_column (active : list Z) (pressures : list float) : list string :=
  let is1 := map (Z.eqb 1) active in
  let sq := replicate (length active) "UNKNOWN" in
  let sq := loc_assign (zip_with andb is1 (map (fun p => F64.ge p 40%float) pressures)) "HIGH" sq in
  let sq := loc_assign (zip_with andb is1 (map (between 20%float 40%float) pressures)) "MEDIUM" sq in
  let sq := loc_assign (zip_with andb is1 (map (fun p => F64.lt p 20%float) pressures)) "LOW" sq in
  loc_assign (map (Z.eqb 0) active) "INACTIVE" sq.

Fixpoint insert_sorted (x : float) (l : list float) : list float :=
  match l with
  | [] => [x]
  | y :: r => if F64.le x y then x :: l else y :: insert_sorted x r
  end.

Definition sort_floats (l : list float) : list float := foldr insert_sorted [] l.

(** [Series.median()]: the middle of the sorted cells that are not NaN
    (the mean of the two middle ones for an even count), NaN if there
    is none. *)
Definition median (xs : list float) : float :=
  let v := sort_floats (List.filter F64.notna xs) in
  let n := length v in
  if (n =? 0)%nat then nan
  else if Nat.even n
       then ((nth (n / 2 - 1) v nan + nth (n / 2) v nan) / 2)%float
       else nth (n / 2) v nan.

(** Lines 122-125, one row of float64 coordinates. *)
Definition geo_cluster_key (lat lon : float) : string :=
  float_str (F64.round_decimals 3 lat) +:+ "_" +:+ float_str (F64.round_decimals 3 lon).

(** The coerced [staticpressure] column (line 66), before imputation. *)
Definition coerced_pressure (recs : list record) : result (list float) :=
  c ← column recs "staticpressure"; mret (map to_numeric c).

(** [transform_data(valid_records)]; [now1] and [now2] are the two
    readings of [datetime.utcnow()] (lines 78 and 79). Line 83 lower-cases
    and trims the column names; the keys of the records are taken to be
    lower-case and trimmed already, as the API delivers them, so that
    the line changes no name. *)
Definition transform_data (now1 now2 : datetime) (valid_records : list record)
  : result dataframe :=
  let df := RawFrame valid_records in
  if df_empty df then Ok df
  else
    let n := length valid_records in
    c ← column valid_records "objectid";
    objectid0 ← mapM astype_Int64 (map to_numeric c);
    c ← column valid_records "assetid";
    let assetid0 := map to_numeric c in
    c ← column valid_records "staticpressure";
    let staticpressure0 := map to_numeric c in
    c ← column valid_records "latitude";
    let latitude0 := map to_numeric c in
    c ← column valid_records "longitude";
    let longitude0 := map to_numeric c in
    c ← column valid_records "lifecyclestatus";
    let lifecyclestatus0 := map astype_str c in
    c ← column valid_records "servicearea";
    let servicearea0 := map astype_str c in
    c ← column valid_records "neighborhood";
    let neighborhood0 := map astype_str c in
    let load_date0 := replicate n (to_date now1) in
    let load_timestamp0 := replicate n now2 in
    let lifecyclestatus1 :=
      map (str_method PyStr.upper) (map (str_method PyStr.strip) lifecyclestatus0) in
    let servicearea1 :=
      map (str_method PyStr.title) (map (str_method PyStr.strip) servicearea0) in
    let neighborhood1 :=
      map (str_method PyStr.title) (map (str_method PyStr.strip) neighborhood0) in
    let pressure_category0 := map (cut pressure_bins pressure_labels) staticpressure0 in
    let is_active0 := map activity_flag lifecyclestatus1 in
    let pressure_risk_score0 := risk_scores staticpressure0 in
    let geo_cluster0 := zip_with geo_cluster_key latitude0 longitude0 in
    let service_quality0 := service_quality_column is_active0 staticpressure0 in
    let staticpressure1 := map (F64.fillna (median staticpressure0)) staticpressure0 in
    let record_hash0 :=
      zip_with (fun (oid : option Z) (ll : float * float) => hash_row oid ll.1 ll.2)
               objectid0 (zip latitude0 longitude0) in
    Ok (FeatureFrame
          {| objectid := objectid0; assetid := assetid0; record_hash := record_hash0;
             latitude := latitude0; longitude := longitude0; geo_cluster := geo_cluster0;
             neighborhood := neighborhood1; servicearea := servicearea1;
             lifecyclestatus := lifecyclestatus1; is_active := is_active0;
             staticpressure := staticpressure1;
             pressure_category := pressure_category0;
             pressure_risk_score := pressure_risk_score0;
             service_quality := service_quality0;
             load_date := load_date0; load_timestamp := load_timestamp0 |}).

(** Lines 135-139 read for one row: the last assignment whose mask holds
    wins. *)
Definition service_quality_cell (a : Z) (p : float) : string :=
  if 0 =? a then "INACTIVE"
  else if (1 =? a) && F64.lt p 20%float then "LOW"
  else if (1 =? a) && between 20%float 40%float p then "MEDIUM"
  else if (1 =? a) && F64.ge p 40%float then "HIGH"
  else "UNKNOWN".

(** [lifecyclestatus] as lines 71 and 87 leave a cell. *)
Definition normalized_status (v : pyval) : pyval :=
  str_method PyStr.upper (str_method PyStr.strip (astype_str v)).

(** [servicearea] and [neighborhood] as lines 72-73 and 88-89 leave a
    cell. *)
Definition normalized_title (v : pyval) : pyval :=
  str_method PyStr.title (str_method PyStr.strip (astype_str v)).

End Transform.

(** ** Text normalization, in the specification's words

    The specification speaks of text that is trimmed, upper-cased and
    title-cased. These readings are stated on the characters, one by
    one, without [str.strip], [str.upper] or [str.title]. They are
    readings of ASCII text, on which Python's methods act byte by
    byte. *)

Module TextSpec.

Definition chars (s : string) : list ascii := list_ascii_of_string s.

(** Every character is in the ASCII range. *)
Definition is_ascii (s : string) : bool :=
  forallb (fun c => (nat_of_ascii c <? 128)%nat) (chars s).

(** The ASCII white space: TAB, LF, VT, FF, CR, FS, GS, RS, US and the
    blank. *)
Definition blank (c : ascii) : bool :=
  existsb (Nat.eqb (nat_of_ascii c)) [9; 10; 11; 12; 13; 28; 29; 30; 31; 32]%nat.

(** The letters a to z, and A to Z. *)
Definition small (c : ascii) : bool :=
  let n := nat_of_ascii c in (97 <=? n)%nat && (n <=? 122)%nat.

(** [d] is [c] in upper case: the capital of a small letter, [c] itself
    when [c] is no small letter. *)
Definition upper_of (c d : ascii) : Prop :=
  if small c then nat_of_ascii c = (nat_of_ascii d + 32)%nat else d = c.


(** [w] is [s] without the white space at its two ends. *)
Definition trimmed (s w : list ascii) : Prop :=
  exists l r : list ascii,
    s = l ++ w ++ r /\
    Forall (fun c => blank c = true) l /\
    Forall (fun c => blank c = true) r /\
    (forall c, head w = Some c -> blank c = false) /\
    (forall c, last w = Some c -> blank c = false).

(** [t] is [w] with every letter in upper case. *)
Definition upper_cased (w t : list ascii) : Prop := Forall2 upper_of w t.



(** [s] is [text] trimmed and upper-cased. *)
Definition trimmed_upper (text s : string) : Prop :=
  exists w : list ascii, trimmed (chars text) w /\ upper_cased w (chars s).


(** A character of the decimal text of an integer: a digit or the
    minus sign. *)
Definition numeral (c : ascii) : bool :=
  let n := nat_of_ascii c in ((48 <=? n)%nat && (n <=? 57)%nat) || (n =? 45)%nat.

End TextSpec.


(** A coerced column that pandas holds as float64 for certain: one of its
    cells is missing or is not an integer. *)
Definition float_column (c : list float) : Prop :=
  exists x : float, x ∈ c /\ (F64.isna x = true \/ F64.to_Z_exact x = None).

(** ** The risk score, in the specification's words *)

(** [k] hundredths is a hundredth nearest to [100 - 100 * p / maxP],
    for integers [p] and [maxP > 0]: the two differ by half a hundredth
    at most. *)
Definition nearest_hundredth (p maxP k : Z) : Prop :=
  2 * Z.abs (k * maxP - 10000 * (maxP - p)) <= maxP.

(** The score lines 115 and 116 give a row at [p] when the largest
    pressure is [maxP], with the hundredths it holds when it holds a
    nearest one. *)
Definition score_hundredths (p maxP : Z) : option Z :=
  let raw := raw_risk_score (F64.of_Z maxP) (F64.of_Z p) in
  let s := F64.round_decimals 2 (F64.fillna 100%float raw) in
  match F64.to_Z_exact (F64.rint (raw * 100)%float) with
  | Some k =>
      if PrimFloat.Leibniz.eqb s (F64.of_Z k / 100)%float
         && (2 * Z.abs (k * maxP - 10000 * (maxP - p)) <=? maxP)
      then Some k else None
  | None => None
  end.

(** ** The world: files, clock, network, log *)

(** A text is modelled by what [json.load] makes of it: an array of
    objects, or a text it rejects. Other JSON documents are not
    modelled. *)
Inductive payload : Type :=
| JsonArray (data : list record)
| NotJson.

Inductive file_data : Type :=
| TextFile (p : payload)
| ParquetFile (f : frame).

(** A directory tree. The model has no permissions, quotas, links or
    [..]: a path is the list of its names, taken literally. *)
#[warnings="-register-all"]
Inductive node : Type :=
| File (d : file_data)
| Dir (entries : gmap string node).

(** What [requests.get] meets: an answer with its status, the text of the
    [HTTPError] that [raise_for_status] would raise for it and its body,
    or a failure of the request itself. *)
Inductive http_outcome : Type :=
| HttpResponse (status : nat) (error_text : string) (body : payload)
| HttpTimeout (text : string)
| HttpFailure (text : string).

Inductive level : Type := INFO | WARNING | ERROR.

(** A piece of a log message: literal text, or the [repr] of a list of
    records. *)
Inductive fragment : Type :=
| Lit (s : string)
| ReprRecords (l : list record).

(** One line handed to a logger. The log keeps the lines of the
    orchestrator and of the notifier; the progress lines of the other
    stages are not recorded. *)
Record event : Type := Event {
  ev_logger : string;
  ev_level : level;
  ev_message : list fragment
}.

Record world : Type := World {
  root : node;
  cwd : list string;
  clock : nat -> datetime;
  ticks : nat;
  http : http_outcome;
  log : list event
}.

Definition set_root (n : node) (w : world) : world :=
  {| root := n; cwd := cwd w; clock := clock w; ticks := ticks w; http := http w; log := log w |}.

(** Computations that read and change the world and may raise. *)
Definition io (A : Type) : Type := world -> result A * world.

#[global] Instance io_ret : MRet io := fun _ a w => (Ok a, w).
#[global] Instance io_bind : MBind io := fun _ _ k m w =>
  match m w with
  | (Ok a, w') => k a w'
  | (Raise e, w') => (Raise e, w')
  end.

Definition raise {A : Type} (e : exn) : io A := fun w => (Raise e, w).

(** [try: body  except Exception as e: handler(e)]. *)
Definition try_except {A : Type} (body : io A) (handler : exn -> io A) : io A := fun w =>
  match body w with
  | (Ok a, w') => (Ok a, w')
  | (Raise e, w') => handler e w'
  end.

Definition lift_result {A : Type} (r : result A) : io A := fun w => (r, w).

(** [datetime.utcnow()]. *)
Definition utcnow : io datetime := fun w =>
  (Ok (clock w (ticks w)),
   {| root := root w; cwd := cwd w; clock := clock w; ticks := S (ticks w);
      http := http w; log := log w |}).

(** [logging.getLogger(name).log(level, message)]. *)
Definition log_line (name : string) (lv : level) (message : list fragment) : io unit := fun w =>
  (Ok tt,
   {| root := root w; cwd := cwd w; clock := clock w; ticks := ticks w;
      http := http w; log := log w ++ [Event name lv message] |}).

(** *** Paths *)

(** [os.path.join(a, b)] (POSIX). *)
Definition path_join (a b : string) : string :=
  if PyStr.starts_with_char "/" b then b
  else if bool_decide (a = "") || PyStr.ends_with_char "/" a then a +:+ b
  else a +:+ "/" +:+ b.

Fixpoint split_slash (s : string) : list string :=
  match s with
  | EmptyString => [EmptyString]
  | String c r =>
      if bool_decide (c = "/"%char) then EmptyString :: split_slash r
      else match split_slash r with
           | h :: t => String c h :: t
           | [] => [String c EmptyString]
           end
  end.

Definition is_name (x : string) : bool :=
  negb (bool_decide (x = "") || bool_decide (x = ".")).

(** The names a path goes through. *)
Definition components (s : string) : list string := List.filter is_name (split_slash s).

(** The names from the root to the file or directory a path denotes. *)
Definition resolve (w : world) (s : string) : list string :=
  (if PyStr.starts_with_char "/" s then [] else cwd w) ++ components s.

(** *** Tree operations *)

Fixpoint lookup_node (p : list string) (n : node) : option node :=
  match p with
  | [] => Some n
  | c :: rest =>
      match n with
      | Dir entries => match entries !! c with
                       | Some child => lookup_node rest child
                       | None => None
                       end
      | File _ => None
      end
  end.

(** [os.makedirs(path, exist_ok=True)] on the tree: missing directories
    are created along the path, existing ones are kept; a file in the
    way is an error. *)
Fixpoint makedirs_node (p : list string) (n : node) : result node :=
  match p with
  | [] => match n with
          | Dir _ => Ok n
          | File _ => Raise (Exn FileExistsError "File exists")
          end
  | c :: rest =>
      match n with
      | Dir entries =>
          child ← makedirs_node rest (default (Dir ∅) (entries !! c));
          Ok (Dir (<[c := child]> entries))
      | File _ => Raise (Exn NotADirectoryError "Not a directory")
      end
  end.

(** Opening a path for writing and storing [d] there: the file is
    created or replaced; its directory must exist. A write that fails
    once the file is open is not modelled. *)
Fixpoint write_node (p : list string) (d : file_data) (n : node) : result node :=
  match p with
  | [] => match n with
          | Dir _ => Raise (Exn IsADirectoryError "Is a directory")
          | File _ => Ok (File d)
          end
  | c :: rest =>
      match n with
      | Dir entries =>
          match entries !! c with
          | Some child =>
              child' ← write_node rest d child;
              Ok (Dir (<[c := child']> entries))
          | None =>
              match rest with
              | [] => Ok (Dir (<[c := File d]> entries))
              | _ => Raise (Exn FileNotFoundError "No such file or directory")
              end
          end
      | File _ => Raise (Exn NotADirectoryError "Not a directory")
      end
  end.

Definition makedirs (path : string) : io unit := fun w =>
  match makedirs_node (resolve w path) (root w) with
  | Ok n => (Ok tt, set_root n w)
  | Raise e => (Raise e, w)
  end.

Definition write_file (path : string) (d : file_data) : io unit := fun w =>
  match write_node (resolve w path) d (root w) with
  | Ok n => (Ok tt, set_root n w)
  | Raise e => (Raise e, w)
  end.

(** [json.load(open(path))]. *)
Definition read_json (path : string) : io (list record) := fun w =>
  match lookup_node (resolve w path) (root w) with
  | None => (Raise (Exn FileNotFoundError "No such file or directory"), w)
  | Some (Dir _) => (Raise (Exn IsADirectoryError "Is a directory"), w)
  | Some (File (TextFile (JsonArray data))) => (Ok data, w)
  | Some (File (TextFile NotJson)) => (Raise (Exn JSONDecodeError "Expecting value"), w)
  | Some (File (ParquetFile _)) => (Raise (Exn ValueError "invalid start byte"), w)
  end.

(** The entries of the directory a path denotes. *)
Definition listdir (w : world) (path : string) : option (gmap string node) :=
  match lookup_node (resolve w path) (root w) with
  | Some (Dir entries) => Some entries
  | _ => None
  end.

(** ** config.py, ingestion.py *)

Definition DATA_DIR : string := "data/raw".
Definition PROCESSED_DIR : string := "data/processed".

(** Importing [config] creates the two data directories. *)
Definition import_config : io unit :=
  _ ← makedirs DATA_DIR; makedirs PROCESSED_DIR.

(** [fetch_data()]: the request, [raise_for_status], the time-stamped
    file name, the write. Its handlers log and re-raise. *)
Definition fetch_data : io string := fun w =>
  match http w with
  | HttpTimeout text => (Raise (Exn Timeout text), w)
  | HttpFailure text => (Raise (Exn RequestException text), w)
  | HttpResponse status error_text body =>
      if (400 <=? status)%nat && (status <? 600)%nat
      then (Raise (Exn HTTPError error_text), w)
      else (now ← utcnow;
            let ts := strftime_compact now in
            let filename := DATA_DIR +:+ "/firehydrants_" +:+ ts +:+ ".json" in
            _ ← write_file filename (TextFile body);
            mret filename) w
  end.

(** ** validation.py, on a file *)

Definition validate_data (file_path : string) : io (list record * nat) :=
  data ← read_json file_path; mret (validate_records data).

(** ** alerts.py *)

Definition send_alert (message : list fragment) : io unit :=
  log_line "firehydrant_pipeline.alerts" WARNING (Lit "ALERT: " :: message).

(** The line the notifier logs for a failure [e] of the pipeline. *)
Definition failure_alert (e : exn) : event :=
  Event "firehydrant_pipeline.alerts" WARNING
        [Lit "ALERT: "; Lit ("Hydrant pipeline failed: " +:+ exn_str e)].

(** ** storage.py *)

(** [df.to_parquet(path, index=False)]. *)
Definition to_parquet (f : frame) (path : string) : io unit :=
  write_file path (ParquetFile f).

(** [save_parquet(df, processed_dir)]: the partition key is the first
    row's [load_date]; an untransformed frame has no such column. *)
Definition save_parquet (df : dataframe) (processed_dir : string) : io unit :=
  match df with
  | RawFrame _ => raise (Exn KeyError "'load_date'")
  | FeatureFrame f =>
      match load_date f with
      | [] => raise (Exn IndexError "single positional indexer is out-of-bounds")
      | t :: _ =>
          let date := strftime_Ymd t in
          let path := path_join processed_dir ("load_date=" +:+ date) in
          _ ← makedirs path;
          to_parquet f (path_join path "firehydrants.parquet")
      end
  end.

(** No file stands where [os.makedirs] needs a directory. *)
Fixpoint clear_for_dirs (p : list string) (n : node) : Prop :=
  match n with
  | File _ => False
  | Dir entries =>
      match p with
      | [] => True
      | c :: rest => match entries !! c with
                     | Some child => clear_for_dirs rest child
                     | None => True
                     end
      end
  end.

(** The entries of the directory at [p]; none when there is no such
    directory. *)
Definition entries_at (p : list string) (n : node) : gmap string node :=
  match lookup_node p n with
  | Some (Dir entries) => entries
  | _ => ∅
  end.

(** What the writer needs of the tree: the partition directory exists
    or can be created, and no directory has the name of the data file. *)
Definition partition_ready (w : world) (dir : string) : Prop :=
  clear_for_dirs (resolve w dir) (root w) /\
  forall child : node,
    entries_at (resolve w dir) (root w) !! "firehydrants.parquet" = Some child ->
    exists d : file_data, child = File d.

(** ** run_hydrant_pipeline.py *)

Section Pipeline.
Context `{PandasRuntime}.

Definition logger (lv : level) (message : list fragment) : io unit :=
  log_line "hydrant_pipeline" lv message.

(** The transformation stage: [transform_data] with its two clock
    readings, which an empty frame returns before. *)
Definition transform_stage (valid : list record) : io dataframe :=
  if df_empty (RawFrame valid) then mret (RawFrame valid)
  else now1 ← utcnow; now2 ← utcnow; lift_result (transform_data now1 now2 valid).

Definition NO_VALID_DATA : string := "No valid data to process after validation.".
Definition EMPTY_TRANSFORM : string :=
  "transform_data returned empty DataFrame; aborting pipeline.".

(** The body of the [try] block. *)
Definition pipeline_body : io unit :=
  raw_file ← fetch_data;
  r ← validate_data raw_file;
  let valid := r.1 in
  let invalid_count := r.2 in
  _ ← logger INFO [Lit "Validation complete: "; ReprRecords valid;
                   Lit (" valid records, " +:+ PyStr.of_nat invalid_count
                          +:+ " invalid records.")];
  _ ← (match valid with
       | [] => _ ← logger WARNING [Lit NO_VALID_DATA];
               raise (Exn ValueError NO_VALID_DATA)
       | _ => mret tt
       end);
  df ← transform_stage valid;
  _ ← (if df_empty df
       then _ ← logger ERROR [Lit EMPTY_TRANSFORM];
            raise (Exn ValueError EMPTY_TRANSFORM)
       else mret tt);
  _ ← save_parquet df "data/processed";
  logger INFO [Lit "Data pipeline completed successfully."].

(** The [except Exception as e] block: log, alert, re-raise. *)
Definition pipeline_handler (e : exn) : io unit :=
  _ ← logger ERROR [Lit ("Hydrant pipeline failed: " +:+ exn_str e)];
  _ ← send_alert [Lit ("Hydrant pipeline failed: " +:+ exn_str e)];
  raise e.

Definition run_pipeline (run_id : string) : io unit :=
  _ ← logger INFO [Lit ("Starting hydrant pipeline with run ID: " +:+ run_id)];
  try_except pipeline_body pipeline_handler.

End Pipeline.

(** The three lines a successful run logs. *)

(** The start line of a run. *)
Definition start_line (run_id : string) : event :=
  Event "hydrant_pipeline" INFO [Lit ("Starting hydrant pipeline with run ID: " +:+ run_id)].

(** The line logged after validation. *)
Definition validation_line (valid : list record) (invalid_count : nat) : event :=
  Event "hydrant_pipeline" INFO
        [Lit "Validation complete: "; ReprRecords valid;
         Lit (" valid records, " +:+ PyStr.of_nat invalid_count +:+ " invalid records.")].

Definition success_line : event :=
  Event "hydrant_pipeline" INFO [Lit "Data pipeline completed successfully."].

(** ** A small runtime and sample batches

    Concrete inputs on which the properties below are exercised. The
    sample runtime reads plain decimal integers (an optional sign, then
    digits) and yields NaN for any other text. *)

Module Sample.

Definition digit_value (c : ascii) : option Z :=
  let n := PyStr.code c in
  if (48 <=? n)%nat && (n <=? 57)%nat then Some (Z.of_nat (n - 48)) else None.

Fixpoint parse_digits (acc : Z) (l : list ascii) : option Z :=
  match l with
  | [] => Some acc
  | c :: r => match digit_value c with
              | Some d => parse_digits (10 * acc + d) r
              | None => None
              end
  end.

Definition parse_int (s : string) : option Z :=
  match list_ascii_of_string (PyStr.strip s) with
  | [] => None
  | c :: r =>
      if bool_decide (c = "-"%char)
      then match r with [] => None | _ => Z.opp <$> parse_digits 0 r end
      else parse_digits 0 (c :: r)
  end.

Definition sample_repr (x : float) : string :=
  match F64.to_Z_exact x with
  | Some z => PyStr.of_Z z +:+ ".0"
  | None => "<float>"
  end.

#[export] Instance runtime : PandasRuntime := {|
  str_to_float s := match parse_int s with Some z => F64.of_Z z | None => nan end;
  float_repr := sample_repr;
  hash_row oid lat lon :=
    match oid with Some z => PyStr.of_Z z | None => "<NA>" end
      +:+ "@" +:+ sample_repr lat +:+ "," +:+ sample_repr lon
|}.

(** A complete record. *)
Definition hydrant (oid status area pressure nbhd : pyval) : record :=
  {[ "objectid" := oid; "assetid" := PStr "7001"; "lifecyclestatus" := status;
     "servicearea" := area; "staticpressure" := pressure;
     "latitude" := PStr "39"; "longitude" := PStr "-84"; "neighborhood" := nbhd ]}.

Definition noon : datetime :=
  {| year := 2025; month := 1; day := 12; hour := 12; minute := 0; second := 0;
     microsecond := 0 |}.

(** Five hydrants: the category boundaries 20, 40 and 60, the spellings
    of the life-cycle status, and a row of missing values. *)
Definition batch : list record :=
  [ hydrant (PStr "1") (PStr "ab") (PStr "north east") (PStr "20") (PStr "clifton");
    hydrant (PStr "2") (PStr "Abandoned") (PStr "north east") (PStr "40") (PStr "mt. airy");
    hydrant (PStr "3") (PStr "Active") (PStr "CENTRAL") (PStr "60") (PStr "o'bryonville");
    hydrant (PStr "4") (PStr " AC ") (PStr " central ") (PStr "30") (PStr "over-the-rhine");
    hydrant (PStr "5") (PStr "Retired") PNone PNone PNone ].

(** An active hydrant at exactly 40 PSI. *)
Definition at_forty : list record :=
  [ hydrant (PStr "6") (PStr "Active") (PStr "central") (PStr "40") (PStr "clifton") ].

(** A batch whose only pressure is zero. *)
Definition at_zero : list record :=
  [ hydrant (PStr "7") (PStr "Active") (PStr "central") (PStr "0") (PStr "clifton") ].

(** A batch in which no pressure parses as a number. *)
Definition unmeasured : list record :=
  [ hydrant (PStr "8") (PStr "Active") (PStr "central") (PStr "n/a") (PStr "clifton");
    hydrant (PStr "9") (PStr "AC") (PStr "central") PNone (PStr "clifton") ].

(** Three raw records, the second without its [longitude]. *)
Definition raw_three : list record :=
  [ hydrant (PStr "1") (PStr "Active") (PStr "central") (PStr "55") (PStr "clifton");
    delete "longitude" (hydrant (PStr "2") (PStr "Active") (PStr "central") (PStr "35") (PStr "clifton"));
    hydrant (PStr "3") (PStr "AB") (PStr "central") (PStr "") (PStr "") ].

Definition no_frame : frame :=
  {| objectid := []; assetid := []; record_hash := []; latitude := []; longitude := [];
     geo_cluster := []; neighborhood := []; servicearea := []; lifecyclestatus := [];
     is_active := []; staticpressure := []; pressure_category := [];
     pressure_risk_score := []; service_quality := []; load_date := [];
     load_timestamp := [] |}.

(** The feature frame of a batch transformed at noon. *)
Definition features (recs : list record) : frame :=
  match transform_data noon noon recs with
  | Ok (FeatureFrame f) => f
  | _ => no_frame
  end.

(** A working directory with nothing in it, the clock stopped at noon,
    and the API answering 200 with [body]. *)
Definition fresh (body : payload) : world :=
  {| root := Dir {[ "srv" := Dir {[ "hydrants" := Dir ∅ ]} ]};
     cwd := ["srv"; "hydrants"]; clock := fun _ => noon; ticks := 0;
     http := HttpResponse 200 "" body; log := [] |}.

(** The world the pipeline starts in: [fresh] after the imports. *)
Definition started (body : payload) : world := (import_config (fresh body)).2.

(** The world after ingestion. *)
Definition ingested (body : payload) : world := (fetch_data (started body)).2.

Definition raw_file : string := "data/raw/firehydrants_20250112T120000Z.json".

(** The started world, the API answering 503. *)
Definition unavailable : world :=
  {| root := root (started NotJson); cwd := cwd (started NotJson);
     clock := fun _ => noon; ticks := 0;
     http := HttpResponse 503 "503 Server Error: Service Unavailable" NotJson;
     log := [] |}.

(** Leading zeros dropped. *)
Fixpoint drop_zeros (l : list ascii) : list ascii :=
  match l with
  | c :: r => if bool_decide (c = "0"%char) then drop_zeros r else l
  | [] => []
  end.

(** The decimal text of a float that has at most three decimals, as
    Python prints it; any other float is not printed. *)
Definition decimal_repr (x : float) : string :=
  match F64.to_Z_exact (F64.rint (x * 1000)%float) with
  | Some k =>
      if PrimFloat.eqb x (F64.of_Z k / 1000)%float
      then let a := Z.abs k in
           let decimals :=
             match rev (drop_zeros (rev (list_ascii_of_string
                                            (PyStr.zero_pad 3 (Z.to_nat (a mod 1000)))))) with
             | [] => "0"
             | l => string_of_list_ascii l
             end in
           (if k <? 0 then "-" else "") +:+ PyStr.of_Z (a / 1000) +:+ "." +:+ decimals
      else "<float>"
  | None => "<float>"
  end.

(** The sample runtime with that printer. *)
Definition decimal_runtime : PandasRuntime := {|
  str_to_float := @str_to_float runtime;
  float_repr := decimal_repr;
  hash_row := @hash_row runtime
|}.

(** Two hydrants: one surveyed to five decimals, one without
    coordinates. *)
Definition surveyed : list record :=
  [ <["latitude" := PFloat (3910371 / 100000)%float]>
      (<["longitude" := PFloat (-8451264 / 100000)%float]>
         (hydrant (PStr "10") (PStr "Active") (PStr "central") (PStr "55") (PStr "clifton")));
    <["latitude" := PNone]>
      (<["longitude" := PStr ""]>
         (hydrant (PStr "11") (PStr "Active") (PStr "central") (PStr "45") (PStr "clifton"))) ].

Definition surveyed_features : frame :=
  match @transform_data decimal_runtime noon noon surveyed with
  | Ok (FeatureFrame f) => f
  | _ => no_frame
  end.

End Sample.

(** * Part II: properties *)

(** ** Order and NaN on binary64 cells

    The comparisons of the kernel's floats are specified by [SFcompare];
    on it, [<] and [<=] are proved to be a total preorder away from
    NaN. *)

Module F64Facts.

Lemma SFcompare_swap x y : SFcompare y x = option_map CompOpp (SFcompare x y).
Proof.
  destruct x as [ [] | [] | | [] m1 e1 ], y as [ [] | [] | | [] m2 e2 ]; simpl; try reflexivity;
  rewrite (Z.compare_antisym e1 e2); destruct (e1 ?= e2)%Z; simpl; try reflexivity;
  rewrite (Pos.compare_cont_antisym m1 m2 Eq); simpl; try reflexivity;
  now rewrite CompOpp_involutive.
Qed.

Lemma SFcompare_refl x : x <> S754_nan -> SFcompare x x = Some Eq.
Proof.
  destruct x as [ [] | [] | | [] m e ]; simpl; intros Hx; try congruence;
  rewrite Z.compare_refl; change (Pos.compare_cont Eq m m) with (Pos.compare m m);
  now rewrite Pos.compare_refl.
Qed.

Lemma SFcompare_None x y : SFcompare x y = None <-> x = S754_nan \/ y = S754_nan.
Proof.
  destruct x as [ [] | [] | | [] m1 e1 ], y as [ [] | [] | | [] m2 e2 ]; simpl;
  split; intros Hc; try discriminate; auto; destruct Hc; discriminate.
Qed.

Ltac cmp_cases :=
  repeat match goal with
  | Hc : context [Z.compare ?a ?b] |- _ => destruct (Z.compare_spec a b); simpl in Hc
  | |- context [Z.compare ?a ?b] => destruct (Z.compare_spec a b); simpl
  | Hc : context [Pos.compare ?a ?b] |- _ => destruct (Pos.compare_spec a b); simpl in Hc
  | |- context [Pos.compare ?a ?b] => destruct (Pos.compare_spec a b); simpl
  end.

Lemma SFcompare_trans x y z c1 c2 :
  SFcompare x y = Some c1 -> SFcompare y z = Some c2 ->
  F64.below c1 = true -> F64.below c2 = true ->
  SFcompare x z = Some (match c1, c2 with Eq, Eq => Eq | _, _ => Lt end).
Proof.
  destruct x as [ [] | [] | | [] m1 e1 ], y as [ [] | [] | | [] m2 e2 ], z as [ [] | [] | | [] m3 e3 ];
  simpl; intros H1 H2 L1 L2;
  try discriminate;
  injection H1 as <-; injection H2 as <-; try discriminate; try reflexivity;
  change (Pos.compare_cont Eq) with Pos.compare in *;
  cmp_cases; try discriminate; try reflexivity; try lia.
Qed.

Lemma lt_cmp x y : F64.lt x y = true <-> F64.cmp x y = Some Lt.
Proof.
  unfold F64.lt, F64.cmp. rewrite FloatAxioms.ltb_spec. unfold SFltb.
  destruct (SFcompare _ _) as [[]|]; split; congruence.
Qed.

Lemma le_cmp x y : F64.le x y = true <-> F64.cmp x y = Some Lt \/ F64.cmp x y = Some Eq.
Proof.
  unfold F64.le, F64.cmp. rewrite FloatAxioms.leb_spec. unfold SFleb.
  destruct (SFcompare _ _) as [[]|]; split; intros Hc; try tauto; try congruence;
  destruct Hc; congruence.
Qed.

Lemma isna_spec x : F64.isna x = true <-> Prim2SF x = S754_nan.
Proof.
  unfold F64.isna, is_nan. rewrite FloatAxioms.eqb_spec. unfold SFeqb. split.
  - intros Hn. destruct (Prim2SF x) as [s|s| |s m e] eqn:E; try reflexivity; exfalso.
    + now rewrite (SFcompare_refl (S754_zero s)) in Hn.
    + now rewrite (SFcompare_refl (S754_infinity s)) in Hn.
    + now rewrite (SFcompare_refl (S754_finite s m e)) in Hn.
  - intros ->. reflexivity.
Qed.

Lemma notna_spec x : F64.isna x = false <-> Prim2SF x <> S754_nan.
Proof.
  rewrite <- isna_spec. destruct (F64.isna x); split; congruence.
Qed.

Lemma cmp_swap x y : F64.cmp y x = option_map CompOpp (F64.cmp x y).
Proof. apply SFcompare_swap. Qed.

Lemma cmp_isna x y : F64.cmp x y = None <-> F64.isna x = true \/ F64.isna y = true.
Proof. unfold F64.cmp. rewrite SFcompare_None, !isna_spec. tauto. Qed.

Lemma lt_notna x y : F64.lt x y = true -> F64.isna x = false /\ F64.isna y = false.
Proof.
  rewrite lt_cmp. intros Hc.
  destruct (F64.isna x) eqn:Ex, (F64.isna y) eqn:Ey; auto;
  assert (F64.cmp x y = None) by (apply cmp_isna; auto); congruence.
Qed.

Lemma le_notna x y : F64.le x y = true -> F64.isna x = false /\ F64.isna y = false.
Proof.
  rewrite le_cmp. intros Hc.
  destruct (F64.isna x) eqn:Ex, (F64.isna y) eqn:Ey; auto;
  assert (F64.cmp x y = None) by (apply cmp_isna; auto); destruct Hc; congruence.
Qed.

Lemma lt_isna_l x y : F64.isna x = true -> F64.lt x y = false.
Proof.
  intros Hx. destruct (F64.lt x y) eqn:E; [|reflexivity].
  apply lt_notna in E. destruct E; congruence.
Qed.

Lemma lt_isna_r x y : F64.isna y = true -> F64.lt x y = false.
Proof.
  intros Hx. destruct (F64.lt x y) eqn:E; [|reflexivity].
  apply lt_notna in E. destruct E; congruence.
Qed.

Lemma le_isna_l x y : F64.isna x = true -> F64.le x y = false.
Proof.
  intros Hx. destruct (F64.le x y) eqn:E; [|reflexivity].
  apply le_notna in E. destruct E; congruence.
Qed.

Lemma le_isna_r x y : F64.isna y = true -> F64.le x y = false.
Proof.
  intros Hx. destruct (F64.le x y) eqn:E; [|reflexivity].
  apply le_notna in E. destruct E; congruence.
Qed.

(** [x < y] excludes [y <= x], and [x <= y] excludes [y < x]. *)
Lemma lt_not_ge x y : F64.lt x y = true -> F64.le y x = false.
Proof.
  rewrite lt_cmp. intros Hc. destruct (F64.le y x) eqn:E; [|reflexivity].
  apply le_cmp in E. rewrite (cmp_swap x y), Hc in E. simpl in E. destruct E; discriminate.
Qed.

Lemma le_not_gt x y : F64.le x y = true -> F64.lt y x = false.
Proof.
  intros Hle. destruct (F64.lt y x) eqn:E; [|reflexivity].
  apply lt_not_ge in E. congruence.
Qed.

(** Two cells that are not NaN are comparable. *)
Lemma not_lt_ge x y :
  F64.isna x = false -> F64.isna y = false -> F64.lt x y = false -> F64.le y x = true.
Proof.
  intros Hx Hy Hlt. apply le_cmp. rewrite (cmp_swap x y).
  destruct (F64.cmp x y) as [[]|] eqn:E; simpl; auto.
  - apply lt_cmp in E. congruence.
  - apply cmp_isna in E. destruct E; congruence.
Qed.

Lemma lt_le x y : F64.lt x y = true -> F64.le x y = true.
Proof. rewrite lt_cmp, le_cmp. auto. Qed.

Lemma le_refl x : F64.isna x = false -> F64.le x x = true.
Proof.
  intros Hx. apply le_cmp. right. apply SFcompare_refl. now apply notna_spec.
Qed.

Lemma lt_trans x y z : F64.lt x y = true -> F64.lt y z = true -> F64.lt x z = true.
Proof.
  rewrite !lt_cmp. unfold F64.cmp. intros H1 H2.
  now rewrite (SFcompare_trans _ _ _ _ _ H1 H2).
Qed.

Lemma le_lt_trans x y z : F64.le x y = true -> F64.lt y z = true -> F64.lt x z = true.
Proof.
  rewrite le_cmp, !lt_cmp. unfold F64.cmp. intros [H1|H1] H2;
  now rewrite (SFcompare_trans _ _ _ _ _ H1 H2).
Qed.

Lemma lt_le_trans x y z : F64.lt x y = true -> F64.le y z = true -> F64.lt x z = true.
Proof.
  rewrite le_cmp, !lt_cmp. unfold F64.cmp. intros H1 [H2|H2];
  now rewrite (SFcompare_trans _ _ _ _ _ H1 H2).
Qed.

Lemma le_trans x y z : F64.le x y = true -> F64.le y z = true -> F64.le x z = true.
Proof.
  rewrite !le_cmp. unfold F64.cmp. intros [H1|H1] [H2|H2];
  rewrite (SFcompare_trans _ _ _ _ _ H1 H2); auto.
Qed.

(** NaN is contagious in the risk-score formula. *)
Lemma div_isna_l x y : F64.isna x = true -> F64.isna (x / y)%float = true.
Proof.
  rewrite !isna_spec, div_spec. intros ->. unfold SF64div. now destruct (Prim2SF y).
Qed.

Lemma div_isna_r x y : F64.isna y = true -> F64.isna (x / y)%float = true.
Proof.
  rewrite !isna_spec, div_spec. intros ->. unfold SF64div. now destruct (Prim2SF x).
Qed.

Lemma mul_isna_l x y : F64.isna x = true -> F64.isna (x * y)%float = true.
Proof.
  rewrite !isna_spec, mul_spec. intros ->. unfold SF64mul. now destruct (Prim2SF y).
Qed.

Lemma sub_isna_r x y : F64.isna y = true -> F64.isna (x - y)%float = true.
Proof.
  rewrite !isna_spec, sub_spec. intros ->. unfold SF64sub. now destruct (Prim2SF x).
Qed.

Lemma fillna_notna v x : F64.isna x = false -> F64.fillna v x = x.
Proof. unfold F64.fillna. now intros ->. Qed.

Lemma fillna_isna v x : F64.isna x = true -> F64.fillna v x = v.
Proof. unfold F64.fillna. now intros ->. Qed.

End F64Facts.

(** ** Validation *)

Section Validation.

Lemma has_key_is_Some (col : string) (r : record) : has_key col r = true <-> is_Some (r !! col).
Proof.
  unfold has_key. destruct (r !! col) eqn:E; split; intros Hk; eauto; try discriminate.
  now destruct Hk.
Qed.

Lemma validate_complete (r : record) : validate r = true <-> complete r.
Proof.
  unfold validate, complete, REQUIRED_COLS. simpl.
  rewrite <- !has_key_is_Some.
  repeat (destruct (has_key _ r); simpl; [|intuition discriminate]).
  intuition.
Qed.

Lemma validate_loop_filter (data acc : list record) (n : nat) :
  validate_loop data acc n
  = (acc ++ filter complete data, (n + length (filter (λ r, ¬ complete r) data))%nat).
Proof.
  revert acc n. induction data as [|r data IH]; intros acc n; simpl.
  - rewrite app_nil_r. f_equal. lia.
  - destruct (validate r) eqn:E.
    + apply validate_complete in E. rewrite IH.
      rewrite (filter_cons_True complete) by done.
      rewrite (filter_cons_False (λ r, ¬ complete r)) by tauto.
      now rewrite <- app_assoc.
    + assert (¬ complete r) as Hn by (rewrite <- validate_complete; congruence).
      rewrite IH. rewrite (filter_cons_False complete) by done.
      rewrite (filter_cons_True (λ r, ¬ complete r)) by done.
      f_equal. simpl. lia.
Qed.

Lemma filter_complement_length (data : list record) :
  (length (filter complete data) + length (filter (λ r, ¬ complete r) data))%nat = length data.
Proof.
  rewrite <- length_app. apply Permutation_length, filter_app_complement.
Qed.

Lemma validate_records_spec (data : list record) :
  validate_records data
  = (filter complete data, length (filter (λ r, ¬ complete r) data)).
Proof. unfold validate_records. now rewrite validate_loop_filter. Qed.

(** C2: [validate_data] on a file holding the records [data] returns
    the records that have all eight required keys, whatever their
    values, in their input order, and the number of the other records;
    the two counts add up to the number of input records. *)
Theorem validate_data_partition (file_path : string) (data : list record) (w : world) :
  lookup_node (resolve w file_path) (root w) = Some (File (TextFile (JsonArray data))) ->
  exists (valid_records : list record) (invalid_count : nat),
    validate_data file_path w = (Ok (valid_records, invalid_count), w) /\
    valid_records = filter complete data /\
    valid_records `sublist_of` data /\
    invalid_count = length (filter (λ r, ¬ complete r) data) /\
    (length valid_records + invalid_count)%nat = length data.
Proof.
  intros Hfile. exists (filter complete data), (length (filter (λ r, ¬ complete r) data)).
  split; [|split; [reflexivity|split; [apply sublist_filter|split; [reflexivity|]]]].
  - unfold validate_data, read_json, mbind, io_bind, mret, io_ret. rewrite Hfile.
    now rewrite validate_records_spec.
  - apply filter_complement_length.
Qed.

End Validation.

(** ** Transformation, column by column *)

Section TransformFacts.
Context `{PandasRuntime}.

Lemma rbind_Ok {A B : Type} (r : result A) (k : A -> result B) (b : B) :
  r ≫= k = Ok b -> exists a, r = Ok a /\ k a = Ok b.
Proof. destruct r as [a|e]; simpl; intros Hb; [eauto|discriminate]. Qed.

Lemma column_length (recs : list record) (col : string) (c : list pyval) :
  column recs col = Ok c -> length c = length recs.
Proof.
  unfold column. destruct (existsb _ _); [|discriminate].
  intros [= <-]. apply length_map.
Qed.

(** What a successful, non-empty transformation returns, column by
    column, in terms of the raw columns of the input frame. *)
Lemma transform_data_columns (now1 now2 : datetime) (recs : list record) (f : frame) :
  transform_data now1 now2 recs = Ok (FeatureFrame f) ->
  exists (pressures : list float) (status area nbhd : list pyval),
    coerced_pressure recs = Ok pressures /\
    column recs "lifecyclestatus" = Ok status /\
    column recs "servicearea" = Ok area /\
    column recs "neighborhood" = Ok nbhd /\
    length pressures = length recs /\
    lifecyclestatus f = map normalized_status status /\
    servicearea f = map normalized_title area /\
    neighborhood f = map normalized_title nbhd /\
    is_active f = map activity_flag (map normalized_status status) /\
    pressure_category f = map (cut pressure_bins pressure_labels) pressures /\
    pressure_risk_score f = risk_scores pressures /\
    service_quality f
      = service_quality_column (map activity_flag (map normalized_status status)) pressures /\
    staticpressure f = map (F64.fillna (median pressures)) pressures /\
    load_date f = replicate (length recs) (to_date now1) /\
    load_timestamp f = replicate (length recs) now2.
Proof.
  unfold transform_data. destruct (df_empty (RawFrame recs)); [discriminate|].
  intros Ht.
  repeat (apply rbind_Ok in Ht; destruct Ht as (? & ? & Ht)).
  injection Ht as <-. cbn [lifecyclestatus servicearea neighborhood is_active
    pressure_category pressure_risk_score service_quality staticpressure
    load_date load_timestamp].
  match goal with Hc : column recs "staticpressure" = Ok ?c |- _ =>
    exists (map to_numeric c); pose proof (column_length _ _ _ Hc) end.
  match goal with Hc : column recs "lifecyclestatus" = Ok ?c |- _ => exists c end.
  match goal with Hc : column recs "servicearea" = Ok ?c |- _ => exists c end.
  match goal with Hc : column recs "neighborhood" = Ok ?c |- _ => exists c end.
  unfold coerced_pressure.
  repeat match goal with Hc : column recs _ = Ok _ |- _ => rewrite Hc; clear Hc end.
  rewrite !map_map, length_map.
  repeat (split; [first [reflexivity | assumption]|]). reflexivity.
Qed.

Lemma lookup_map {A B : Type} (g : A -> B) (l : list A) (i : nat) :
  map g l !! i = g <$> (l !! i).
Proof.
  revert i. induction l as [|a l IH]; intros [|i]; simpl; auto.
Qed.

Lemma lookup_map_Some {A B : Type} (g : A -> B) (l : list A) (i : nat) (a : A) :
  l !! i = Some a -> map g l !! i = Some (g a).
Proof. intros Hl. now rewrite lookup_map, Hl. Qed.

Lemma lookup_loc_assign {A : Type} (mask : list bool) (value : A) (col : list A)
    (i : nat) (m : bool) (old : A) :
  mask !! i = Some m -> col !! i = Some old ->
  loc_assign mask value col !! i = Some (if m then value else old).
Proof.
  intros Hm Hc. unfold loc_assign. now rewrite lookup_zip_with, Hm, Hc.
Qed.

Lemma lookup_mask (active : list Z) (pressures : list float) (g : float -> bool)
    (i : nat) (a : Z) (p : float) :
  active !! i = Some a -> pressures !! i = Some p ->
  zip_with andb (map (Z.eqb 1) active) (map g pressures) !! i = Some ((1 =? a) && g p).
Proof.
  intros Ha Hp.
  now rewrite lookup_zip_with, (lookup_map_Some _ _ _ _ Ha), (lookup_map_Some _ _ _ _ Hp).
Qed.

(** The column of lines 135-139, read at one row. *)
Lemma service_quality_lookup (active : list Z) (pressures : list float)
    (i : nat) (a : Z) (p : float) :
  active !! i = Some a -> pressures !! i = Some p ->
  service_quality_column active pressures !! i = Some (service_quality_cell a p).
Proof.
  intros Ha Hp. unfold service_quality_column, service_quality_cell.
  assert (replicate (length active) "UNKNOWN" !! i = Some "UNKNOWN") as H0.
  { apply lookup_replicate_2. apply lookup_lt_is_Some. eauto. }
  pose proof (lookup_loc_assign _ "HIGH" _ _ _ _
    (lookup_mask active pressures (fun p => F64.ge p 40%float) i a p Ha Hp) H0) as H1.
  pose proof (lookup_loc_assign _ "MEDIUM" _ _ _ _
    (lookup_mask active pressures (between 20%float 40%float) i a p Ha Hp) H1) as H2.
  pose proof (lookup_loc_assign _ "LOW" _ _ _ _
    (lookup_mask active pressures (fun p => F64.lt p 20%float) i a p Ha Hp) H2) as H3.
  pose proof (lookup_loc_assign _ "INACTIVE" _ _ _ _ (lookup_map_Some (Z.eqb 0) _ _ _ Ha) H3) as H4.
  exact H4.
Qed.

(** What the four assignments amount to. *)
Lemma service_quality_cell_rule (a : Z) (p : float) :
  (a = 0 -> service_quality_cell a p = "INACTIVE") /\
  (a = 1 -> F64.lt 40%float p = true -> service_quality_cell a p = "HIGH") /\
  (a = 1 -> F64.le 20%float p = true -> F64.le p 40%float = true ->
     service_quality_cell a p = "MEDIUM") /\
  (a = 1 -> F64.lt p 20%float = true -> service_quality_cell a p = "LOW") /\
  (a = 1 -> F64.isna p = true -> service_quality_cell a p = "UNKNOWN") /\
  (a <> 0 -> a <> 1 -> service_quality_cell a p = "UNKNOWN").
Proof.
  unfold service_quality_cell, between.
  change (F64.ge p 40%float) with (F64.le 40%float p).
  repeat split.
  - now intros ->.
  - intros -> Hp. change (0 =? 1) with false. change (1 =? 1) with true. cbn [andb].
    assert (F64.lt 20%float p = true) as H20
      by (eapply F64Facts.lt_trans; [|exact Hp]; reflexivity).
    rewrite (F64Facts.le_not_gt _ _ (F64Facts.lt_le _ _ H20)).
    rewrite (F64Facts.lt_not_ge _ _ Hp), andb_false_r.
    now rewrite (F64Facts.lt_le _ _ Hp).
  - intros -> H20 H40. change (0 =? 1) with false. change (1 =? 1) with true. cbn [andb].
    now rewrite (F64Facts.le_not_gt _ _ H20), H20, H40.
  - intros -> Hp. change (0 =? 1) with false. change (1 =? 1) with true. cbn [andb].
    now rewrite Hp.
  - intros -> Hp. change (0 =? 1) with false. change (1 =? 1) with true. cbn [andb].
    rewrite (F64Facts.lt_isna_l _ _ Hp), (F64Facts.le_isna_r 20%float _ Hp),
      (F64Facts.le_isna_r 40%float _ Hp).
    reflexivity.
  - intros H0 H1.
    destruct (Z.eqb_spec 0 a); [congruence|]. destruct (Z.eqb_spec 1 a); [congruence|].
    reflexivity.
Qed.

(** [pd.cut] on the pressure bins, by interval. *)
Lemma cut_pressure_rule (p : float) :
  (F64.isna p = true -> cut pressure_bins pressure_labels p = None) /\
  (F64.lt neg_infinity p = true -> F64.le p 20%float = true ->
     cut pressure_bins pressure_labels p = Some INSUFFICIENT) /\
  (F64.lt 20%float p = true -> F64.le p 40%float = true ->
     cut pressure_bins pressure_labels p = Some MARGINAL) /\
  (F64.lt 40%float p = true -> F64.le p 60%float = true ->
     cut pressure_bins pressure_labels p = Some ADEQUATE) /\
  (F64.lt 60%float p = true -> F64.lt p infinity = true ->
     cut pressure_bins pressure_labels p = Some EXCELLENT).
Proof.
  unfold cut, pressure_bins, pressure_labels. cbn [searchsorted_left length].
  repeat split.
  - now intros ->.
  - intros Hlo Hhi.
    destruct (F64Facts.lt_notna _ _ Hlo) as [_ ->].
    now rewrite Hlo, (F64Facts.le_not_gt _ _ Hhi).
  - intros Hlo Hhi. destruct (F64Facts.lt_notna _ _ Hlo) as [_ ->].
    assert (F64.lt neg_infinity p = true) as ->
      by (eapply F64Facts.lt_trans; [|exact Hlo]; reflexivity).
    now rewrite Hlo, (F64Facts.le_not_gt _ _ Hhi).
  - intros Hlo Hhi. destruct (F64Facts.lt_notna _ _ Hlo) as [_ ->].
    assert (F64.lt 20%float p = true) as H20
      by (eapply F64Facts.lt_trans; [|exact Hlo]; reflexivity).
    assert (F64.lt neg_infinity p = true) as ->
      by (eapply F64Facts.lt_trans; [|exact H20]; reflexivity).
    now rewrite H20, Hlo, (F64Facts.le_not_gt _ _ Hhi).
  - intros Hlo Hhi. destruct (F64Facts.lt_notna _ _ Hlo) as [_ ->].
    assert (F64.lt 40%float p = true) as H40
      by (eapply F64Facts.lt_trans; [|exact Hlo]; reflexivity).
    assert (F64.lt 20%float p = true) as H20
      by (eapply F64Facts.lt_trans; [|exact H40]; reflexivity).
    assert (F64.lt neg_infinity p = true) as ->
      by (eapply F64Facts.lt_trans; [|exact H20]; reflexivity).
    now rewrite H20, H40, Hlo, (F64Facts.le_not_gt _ _ (F64Facts.lt_le _ _ Hhi)).
Qed.

Lemma max_step_nan (acc x : float) : F64.isna x = true -> max_step acc x = acc.
Proof. unfold max_step. now intros ->. Qed.

Lemma max_step_first (acc x : float) :
  F64.isna x = false -> F64.isna acc = true -> max_step acc x = x.
Proof. unfold max_step. now intros -> ->. Qed.

Lemma max_step_lt (acc x : float) :
  F64.isna x = false -> F64.isna acc = false -> F64.lt acc x = true -> max_step acc x = x.
Proof. unfold max_step. now intros -> -> ->. Qed.

Lemma max_step_ge (acc x : float) :
  F64.isna x = false -> F64.isna acc = false -> F64.lt acc x = false -> max_step acc x = acc.
Proof. unfold max_step. now intros -> -> ->. Qed.

Lemma series_max_all_nan (xs : list float) (acc : float) :
  F64.isna acc = true -> Forall (fun x => F64.isna x = true) xs ->
  F64.isna (fold_left max_step xs acc) = true.
Proof.
  intros Hacc Hxs. revert acc Hacc.
  induction Hxs as [|x xs Hx _ IH]; intros acc Hacc; simpl; [exact Hacc|].
  apply IH. now rewrite max_step_nan.
Qed.

Lemma series_max_from (xs : list float) (acc : float) :
  F64.isna acc = false ->
  let m := fold_left max_step xs acc in
  F64.isna m = false /\ (m = acc \/ m ∈ xs) /\ F64.le acc m = true /\
  (forall x, x ∈ xs -> F64.isna x = false -> F64.le x m = true).
Proof.
  revert acc. induction xs as [|x xs IH]; intros acc Hacc; simpl.
  - repeat split; auto using F64Facts.le_refl. intros x Hx. inversion Hx.
  - destruct (F64.isna x) eqn:Ex.
    + rewrite (max_step_nan _ _ Ex).
      destruct (IH acc Hacc) as (Hm & Hin & Hle & Hub).
      split; [exact Hm|]. split; [|split; [exact Hle|]].
      * rewrite elem_of_cons. tauto.
      * intros y Hy Hny. apply elem_of_cons in Hy as [->|Hy]; [congruence|auto].
    + destruct (F64.lt acc x) eqn:Elt.
      * rewrite (max_step_lt _ _ Ex Hacc Elt).
        destruct (IH x Ex) as (Hm & Hin & Hle & Hub).
        split; [exact Hm|]. split; [|split].
        -- rewrite elem_of_cons. tauto.
        -- eapply F64Facts.le_trans; [apply F64Facts.lt_le; exact Elt|exact Hle].
        -- intros y Hy Hny. apply elem_of_cons in Hy as [->|Hy]; auto.
      * rewrite (max_step_ge _ _ Ex Hacc Elt).
        destruct (IH acc Hacc) as (Hm & Hin & Hle & Hub).
        split; [exact Hm|]. split; [|split; [exact Hle|]].
        -- rewrite elem_of_cons. tauto.
        -- intros y Hy Hny. apply elem_of_cons in Hy as [->|Hy]; auto.
           eapply F64Facts.le_trans; [|exact Hle]. now apply F64Facts.not_lt_ge.
Qed.

(** With a cell that is not NaN in it, a column's maximum is one of its
    cells, is not NaN, and bounds every cell that is not NaN. *)
Lemma series_max_spec (xs : list float) :
  (exists q, q ∈ xs /\ F64.isna q = false) ->
  series_max xs ∈ xs /\ F64.isna (series_max xs) = false /\
  (forall x, x ∈ xs -> F64.isna x = false -> F64.le x (series_max xs) = true).
Proof.
  unfold series_max.
  generalize (eq_refl : F64.isna nan = true). generalize nan as acc.
  induction xs as [|x xs IH]; intros acc Hacc (q & Hq & Hnq).
  - inversion Hq.
  - simpl. destruct (F64.isna x) eqn:Ex.
    + rewrite (max_step_nan _ _ Ex).
      apply elem_of_cons in Hq as [->|Hq]; [congruence|].
      destruct (IH acc Hacc) as (Hin & Hm & Hub); [eauto|].
      split; [rewrite elem_of_cons; tauto|]. split; [exact Hm|].
      intros y Hy Hny. apply elem_of_cons in Hy as [->|Hy]; [congruence|auto].
    + rewrite (max_step_first _ _ Ex Hacc).
      destruct (series_max_from xs x Ex) as (Hm & Hin & Hle & Hub).
      split; [|split; [exact Hm|]].
      * rewrite elem_of_cons. destruct Hin as [->|Hin]; auto.
      * intros y Hy Hny. apply elem_of_cons in Hy as [->|Hy]; auto.
Qed.

Lemma series_max_nan (xs : list float) :
  Forall (fun x => F64.isna x = true) xs -> F64.isna (series_max xs) = true.
Proof. intros Hxs. now apply (series_max_all_nan xs nan). Qed.

Lemma column_lookup (recs : list record) (col : string) (c : list pyval)
    (i : nat) (r : record) (v : pyval) :
  column recs col = Ok c -> recs !! i = Some r -> r !! col = Some v -> c !! i = Some v.
Proof.
  unfold column. destruct (existsb _ _); [|discriminate].
  intros [= <-] Hr Hv. now rewrite (lookup_map_Some _ _ _ _ Hr), Hv.
Qed.

Lemma coerced_pressure_lookup (recs : list record) (pressures : list float)
    (i : nat) (r : record) (v : pyval) :
  coerced_pressure recs = Ok pressures -> recs !! i = Some r ->
  r !! "staticpressure" = Some v -> pressures !! i = Some (to_numeric v).
Proof.
  unfold coerced_pressure. intros Hc Hr Hv.
  apply rbind_Ok in Hc as (c & Hc & [= <-]).
  apply lookup_map_Some. eapply column_lookup; eauto.
Qed.

Lemma raw_risk_score_isna (max_pressure p : float) :
  F64.isna p = true -> F64.isna (raw_risk_score max_pressure p) = true.
Proof.
  intros Hp. unfold raw_risk_score.
  now apply F64Facts.sub_isna_r, F64Facts.mul_isna_l, F64Facts.div_isna_l.
Qed.

Lemma raw_risk_score_isna_max (max_pressure p : float) :
  F64.isna max_pressure = true -> F64.isna (raw_risk_score max_pressure p) = true.
Proof.
  intros Hp. unfold raw_risk_score.
  now apply F64Facts.sub_isna_r, F64Facts.mul_isna_l, F64Facts.div_isna_r.
Qed.

Lemma round_hundred : F64.round_decimals 2 100%float = 100%float.
Proof. reflexivity. Qed.

(** Lines 114-116 read at one row. *)
Lemma risk_scores_lookup (pressures : list float) (i : nat) (p : float) :
  pressures !! i = Some p ->
  risk_scores pressures !! i
  = Some (F64.round_decimals 2
            (F64.fillna 100%float (raw_risk_score (series_max pressures) p))).
Proof.
  intros Hp. unfold risk_scores.
  now do 3 apply lookup_map_Some.
Qed.

Lemma map_constant {A B : Type} (g : A -> B) (b : B) (l : list A) :
  Forall (fun a => g a = b) l -> map g l = replicate (length l) b.
Proof. induction 1 as [|a l Ha _ IH]; simpl; congruence. Qed.

Lemma Forall_map {A B : Type} (g : A -> B) (P : A -> Prop) (Q : B -> Prop) (l : list A) :
  (forall a, P a -> Q (g a)) -> Forall P l -> Forall Q (map g l).
Proof. intros Hg. induction 1; simpl; constructor; auto. Qed.

Lemma median_all_nan (xs : list float) :
  Forall (fun x => F64.isna x = true) xs -> median xs = nan.
Proof.
  intros Hxs. unfold median.
  assert (List.filter F64.notna xs = []) as ->; [|reflexivity].
  induction Hxs as [|x xs Hx _ IH]; simpl; [reflexivity|].
  unfold F64.notna at 1. now rewrite Hx.
Qed.

End TransformFacts.

(** ** Text normalization against its specification *)

Section TextSpecFacts.
Import TextSpec.

Lemma blank_is_space (c : ascii) : blank c = PyStr.is_space c.
Proof. destruct c as [[] [] [] [] [] [] [] []]; reflexivity. Qed.

Lemma small_is_lower (c : ascii) : small c = PyStr.is_lower c.
Proof. reflexivity. Qed.



Lemma code_inj (c d : ascii) : nat_of_ascii c = nat_of_ascii d -> c = d.
Proof.
  intros Heq. rewrite <- (ascii_nat_embedding c), <- (ascii_nat_embedding d).
  now rewrite Heq.
Qed.

Lemma upper_of_to_upper (c : ascii) : upper_of c (PyStr.to_upper c).
Proof.
  unfold upper_of, PyStr.to_upper. rewrite small_is_lower.
  destruct (PyStr.is_lower c) eqn:El; [|reflexivity].
  unfold PyStr.is_lower, PyStr.code in El. cbv zeta in El.
  apply andb_true_iff in El as [Hlo Hhi].
  apply Nat.leb_le in Hlo, Hhi.
  unfold PyStr.code. rewrite nat_ascii_embedding by lia. lia.
Qed.

Lemma upper_of_unique (c d : ascii) : upper_of c d -> d = PyStr.to_upper c.
Proof.
  unfold upper_of, PyStr.to_upper. rewrite small_is_lower.
  destruct (PyStr.is_lower c); [|auto].
  intros Hc. apply code_inj. unfold PyStr.code.
  pose proof (nat_ascii_bounded c). rewrite nat_ascii_embedding by lia. lia.
Qed.


Lemma upper_cased_map (w : list ascii) : upper_cased w (map PyStr.to_upper w).
Proof.
  induction w as [|c w IH]; constructor; [apply upper_of_to_upper|exact IH].
Qed.

Lemma upper_cased_unique (w t : list ascii) : upper_cased w t -> t = map PyStr.to_upper w.
Proof.
  induction 1 as [|c d w t Hcd _ IH]; [reflexivity|].
  simpl. now rewrite (upper_of_unique _ _ Hcd), IH.
Qed.



Lemma lstrip_chars_split (x : list ascii) :
  exists l : list ascii,
    x = l ++ PyStr.lstrip_chars x /\
    Forall (fun c => blank c = true) l /\
    forall c, head (PyStr.lstrip_chars x) = Some c -> blank c = false.
Proof.
  induction x as [|c x (l & Hx & Hl & Hh)]; simpl.
  - exists []. split; [reflexivity|]. split; [constructor|]. intros c Hc. discriminate.
  - destruct (PyStr.is_space c) eqn:Ec.
    + exists (c :: l). split; [simpl; now rewrite <- Hx|].
      split; [constructor; [now rewrite blank_is_space|exact Hl]|exact Hh].
    + exists []. split; [reflexivity|]. split; [constructor|].
      intros c' [= <-]. now rewrite blank_is_space.
Qed.

Lemma lstrip_chars_blank (l x : list ascii) :
  Forall (fun c => blank c = true) l ->
  PyStr.lstrip_chars (l ++ x) = PyStr.lstrip_chars x.
Proof.
  induction 1 as [|c l Hc _ IH]; [reflexivity|]. simpl.
  rewrite blank_is_space in Hc. now rewrite Hc.
Qed.

Lemma lstrip_chars_id (x : list ascii) :
  (forall c, head x = Some c -> blank c = false) -> PyStr.lstrip_chars x = x.
Proof.
  destruct x as [|c x]; [reflexivity|]. intros Hh. simpl.
  now rewrite <- blank_is_space, (Hh c eq_refl).
Qed.

Lemma head_rev (x : list ascii) : head (rev x) = last x.
Proof.
  induction x as [|c x IH]; [reflexivity|]. simpl.
  rewrite head_app, IH, last_cons. now destruct (last x).
Qed.

Lemma last_rev (x : list ascii) : last (rev x) = head x.
Proof. rewrite <- (rev_involutive x) at 2. now rewrite head_rev. Qed.

Lemma strip_chars_trimmed (x : list ascii) : trimmed x (PyStr.strip_chars x).
Proof.
  unfold PyStr.strip_chars.
  destruct (lstrip_chars_split x) as (l & Hx & Hl & Hh).
  set (y := PyStr.lstrip_chars x) in *.
  destruct (lstrip_chars_split (rev y)) as (l2 & Hy & Hl2 & Hh2).
  set (z := PyStr.lstrip_chars (rev y)) in *.
  assert (y = rev z ++ rev l2) as Hy'.
  { rewrite <- (rev_involutive y), Hy, rev_app_distr. reflexivity. }
  exists l, (rev l2). split; [now rewrite <- Hy'|]. split; [exact Hl|].
  split; [now apply List.Forall_rev|].
  split.
  - intros c Hc. apply Hh. rewrite Hy'. destruct (rev z) as [|c' q]; [discriminate|exact Hc].
  - intros c Hc. apply Hh2. now rewrite <- last_rev.
Qed.

Lemma trimmed_strip_chars (x w : list ascii) : trimmed x w -> w = PyStr.strip_chars x.
Proof.
  intros (l & r & -> & Hl & Hr & Hh & Ht). unfold PyStr.strip_chars.
  rewrite (lstrip_chars_blank l _ Hl).
  assert (Forall (fun c => blank c = true) (rev r)) as Hr'.
  { now apply List.Forall_rev. }
  destruct w as [|c w].
  - simpl. rewrite <- (app_nil_r r), (lstrip_chars_blank r [] Hr). reflexivity.
  - rewrite (lstrip_chars_id ((c :: w) ++ r)) by (intros c' Hc'; apply Hh; exact Hc').
    rewrite rev_app_distr, (lstrip_chars_blank _ _ Hr').
    rewrite (lstrip_chars_id (rev (c :: w)))
      by (intros c' Hc'; apply Ht; now rewrite <- head_rev).
    now rewrite rev_involutive.
Qed.

Lemma chars_lift (g : list ascii -> list ascii) (s : string) :
  chars (PyStr.lift g s) = g (chars s).
Proof. unfold chars, PyStr.lift. apply list_ascii_of_string_of_list_ascii. Qed.

(** The trimmed, upper-cased reading of a text is what
    [.str.strip().str.upper()] computes, and nothing else. *)
Lemma trimmed_upper_iff (text s : string) :
  trimmed_upper text s <-> s = PyStr.upper (PyStr.strip text).
Proof.
  unfold trimmed_upper. split.
  - intros (w & Hw & Hu). apply trimmed_strip_chars in Hw. apply upper_cased_unique in Hu.
    rewrite <- (string_of_list_ascii_of_string s). fold (chars s). rewrite Hu, Hw.
    unfold PyStr.upper, PyStr.strip. unfold PyStr.lift at 1. f_equal.
    now rewrite <- chars_lift.
  - intros ->. exists (PyStr.strip_chars (chars text)). split; [apply strip_chars_trimmed|].
    unfold PyStr.upper, PyStr.strip. rewrite !chars_lift. apply upper_cased_map.
Qed.


Lemma numeral_digit (n : nat) : numeral (PyStr.digit (n mod 10)) = true.
Proof.
  unfold numeral, PyStr.digit. cbv zeta.
  pose proof (Nat.mod_upper_bound n 10 ltac:(lia)) as Hlt.
  rewrite nat_ascii_embedding by lia.
  apply orb_true_iff. left. apply andb_true_iff. split; apply Nat.leb_le; lia.
Qed.

Lemma digits_fuel_numeral (fuel n : nat) (acc : list ascii) :
  Forall (fun c => numeral c = true) acc ->
  Forall (fun c => numeral c = true) (PyStr.digits_fuel fuel n acc).
Proof.
  revert n acc. induction fuel as [|fuel IH]; intros n acc Hacc; simpl; [exact Hacc|].
  assert (Forall (fun c => numeral c = true) (PyStr.digit (n mod 10) :: acc)) as Hacc'
    by (constructor; [apply numeral_digit|exact Hacc]).
  destruct (n <? 10)%nat; [exact Hacc'|now apply IH].
Qed.

Lemma of_Z_numeral (z : Z) : Forall (fun c => numeral c = true) (chars (PyStr.of_Z z)).
Proof.
  unfold PyStr.of_Z, PyStr.of_nat, chars.
  destruct (z <? 0); cbn [list_ascii_of_string];
    rewrite list_ascii_of_string_of_list_ascii.
  - constructor; [reflexivity|]. apply digits_fuel_numeral. constructor.
  - apply digits_fuel_numeral. constructor.
Qed.

Lemma numeral_not_blank (c : ascii) : numeral c = true -> blank c = false.
Proof. destruct c as [[] [] [] [] [] [] [] []]; try reflexivity; discriminate. Qed.

Lemma numeral_to_upper (c : ascii) : numeral c = true -> PyStr.to_upper c = c.
Proof. destruct c as [[] [] [] [] [] [] [] []]; try reflexivity; discriminate. Qed.

Lemma head_Forall {A : Type} (P : A -> Prop) (l : list A) (x : A) :
  Forall P l -> head l = Some x -> P x.
Proof. destruct 1; [discriminate|]. now intros [= <-]. Qed.

Lemma last_Forall {A : Type} (P : A -> Prop) (l : list A) (x : A) :
  Forall P l -> last l = Some x -> P x.
Proof.
  intros Hall Hl. apply last_Some in Hl as (l' & ->).
  apply Forall_app in Hall as [_ Hx]. now apply Forall_cons in Hx as [Hx _].
Qed.

(** Trimming and upper-casing leave the text of an integer as it is. *)
Lemma numeral_text_normal (s : string) :
  Forall (fun c => numeral c = true) (chars s) ->
  PyStr.upper (PyStr.strip s) = s.
Proof.
  intros Hall. symmetry. apply trimmed_upper_iff. exists (chars s). split.
  - exists [], []. rewrite app_nil_r. split; [reflexivity|].
    split; [constructor|]. split; [constructor|].
    split; intros c Hc; apply numeral_not_blank.
    + exact (head_Forall _ _ _ Hall Hc).
    + exact (last_Forall _ _ _ Hall Hc).
  - unfold upper_cased. clear -Hall. induction Hall as [|c l Hc _ IH]; constructor; [|exact IH].
    rewrite <- (numeral_to_upper c Hc) at 2. apply upper_of_to_upper.
Qed.

Lemma numeral_text_no_name (s : string) (c : ascii) (name : string) :
  Forall (fun c => numeral c = true) (chars s) ->
  numeral c = false -> s <> String c name.
Proof.
  intros Hall Hc ->. unfold chars in Hall. simpl in Hall.
  apply Forall_cons in Hall as [Hc' _]. congruence.
Qed.

End TextSpecFacts.

(** ** The risk score against exact arithmetic *)

Section Grid.

(** Every integer pressure up to 150 PSI, against every integer
    maximum up to 150 PSI. *)
Lemma score_grid :
  Forall (fun maxP => Forall (fun p => is_Some (score_hundredths p maxP)) (seqZ 0 (maxP + 1)))
         (seqZ 1 150).
Proof. apply (bool_decide_unpack _). vm_compute. reflexivity. Qed.

Lemma score_hundredths_spec (p maxP k : Z) :
  score_hundredths p maxP = Some k ->
  F64.round_decimals 2 (F64.fillna 100%float (raw_risk_score (F64.of_Z maxP) (F64.of_Z p)))
  = (F64.of_Z k / 100)%float /\ nearest_hundredth p maxP k.
Proof.
  unfold score_hundredths. cbv zeta.
  destruct (F64.to_Z_exact _) as [k'|]; [|discriminate].
  destruct (PrimFloat.Leibniz.eqb _ _ && _) eqn:E; [|discriminate].
  intros [= ->]. apply andb_true_iff in E as [Heq Hn].
  apply Leibniz.eqb_spec in Heq. apply Z.leb_le in Hn. now split.
Qed.

Lemma score_on_grid (p maxP : Z) :
  0 <= p <= maxP -> 0 < maxP <= 150 ->
  exists k : Z,
    F64.round_decimals 2
      (F64.fillna 100%float (raw_risk_score (F64.of_Z maxP) (F64.of_Z p)))
    = (F64.of_Z k / 100)%float /\ nearest_hundredth p maxP k.
Proof.
  intros Hp Hm. pose proof score_grid as Hg.
  rewrite Forall_forall in Hg. specialize (Hg maxP).
  rewrite elem_of_seqZ in Hg. specialize (Hg ltac:(lia)).
  rewrite Forall_forall in Hg. specialize (Hg p).
  rewrite elem_of_seqZ in Hg. destruct (Hg ltac:(lia)) as [k Hk].
  exists k. now apply score_hundredths_spec.
Qed.

End Grid.

Section TransformClaims.
Context `{PandasRuntime}.

(** The tier of every row, as the code assigns it: INACTIVE for flag 0;
    for flag 1, LOW below 20, MEDIUM from 20 to 40 (both included),
    HIGH above 40, UNKNOWN for a missing pressure; UNKNOWN for any
    other flag. *)
Lemma service_quality_rule (now1 now2 : datetime) (recs : list record) (f : frame)
    (i : nat) (r : record) (v : pyval) (a : Z) :
  transform_data now1 now2 recs = Ok (FeatureFrame f) ->
  recs !! i = Some r ->
  r !! "staticpressure" = Some v ->
  is_active f !! i = Some a ->
  service_quality f !! i = Some (service_quality_cell a (to_numeric v)).
Proof.
  intros Ht Hr Hv Ha.
  destruct (transform_data_columns _ _ _ _ Ht)
    as (ps & st & ar & nb & Hps & _ & _ & _ & _ & _ & _ & _ & Hact & _ & _ & -> & _).
  rewrite Hact in Ha.
  exact (service_quality_lookup _ _ _ _ _ Ha (coerced_pressure_lookup _ _ _ _ _ Hps Hr Hv)).
Qed.

(** C7: [transform_data] applied to no record returns the empty frame
    it built and raises nothing; it returns before any coercion or
    derivation, and before the clock is read. *)
Theorem transform_data_empty (now1 now2 : datetime) :
  transform_data now1 now2 [] = Ok (RawFrame []) /\
  df_empty (RawFrame []) = true /\
  forall w : world, transform_stage [] w = (Ok (RawFrame []), w).
Proof. repeat split. Qed.

(** The flag of an integer is 0. *)
Lemma activity_flag_integer (z : Z) : activity_flag (normalized_status (PInt z)) = 0.
Proof.
  cbn [normalized_status astype_str py_str str_method].
  rewrite (numeral_text_normal _ (of_Z_numeral z)).
  unfold activity_flag, isin.
  pose proof (of_Z_numeral z) as Hall.
  rewrite !bool_decide_eq_false_2; [reflexivity| |];
    intros Hin;
    repeat (apply elem_of_cons in Hin as [Hin|Hin];
            [now apply (numeral_text_no_name _ _ _ Hall) in Hin|]);
    now apply elem_of_nil in Hin.
Qed.

(** C8: in every row of a transformed batch, [is_active] is 2 when the
    normalized [lifecyclestatus] of the row is AB or ABANDONED, else 1
    when it is ACTIVE or AC, else 0. For an ASCII input text the
    normalized status is that text trimmed and upper-cased, and nothing
    else; a text that reads AB or ABANDONED once trimmed and
    upper-cased is flagged 2, one that reads ACTIVE or AC is flagged 1,
    and anything else is flagged 0: an ASCII text that reads as none of
    the four, such as Retired, [None], a boolean, an integer. *)
Theorem is_active_rule (now1 now2 : datetime) (recs : list record) (f : frame)
    (i : nat) (r : record) (v : pyval) :
  transform_data now1 now2 recs = Ok (FeatureFrame f) ->
  recs !! i = Some r ->
  r !! "lifecyclestatus" = Some v ->
  exists (s : string) (a : Z),
    lifecyclestatus f !! i = Some (PStr s) /\
    is_active f !! i = Some a /\
    a = (if bool_decide (s ∈ ["AB"; "ABANDONED"]) then 2
         else if bool_decide (s ∈ ["ACTIVE"; "AC"]) then 1 else 0) /\
    (forall text : string,
       v = PStr text -> TextSpec.is_ascii text = true ->
       forall s' : string, TextSpec.trimmed_upper text s' <-> s' = s) /\
    (forall text : string,
       v = PStr text ->
       (TextSpec.trimmed_upper text "AB" \/ TextSpec.trimmed_upper text "ABANDONED" -> a = 2) /\
       (TextSpec.trimmed_upper text "ACTIVE" \/ TextSpec.trimmed_upper text "AC" -> a = 1)) /\
    (v ∈ [PStr "ab"; PStr "Abandoned"] -> a = 2) /\
    (v ∈ [PStr "Active"; PStr "AC"] -> a = 1) /\
    (v ∈ [PStr "Retired"; PNone; PBool true; PBool false] -> a = 0) /\
    (forall text : string,
       v = PStr text -> TextSpec.is_ascii text = true ->
       ~ TextSpec.trimmed_upper text "AB" -> ~ TextSpec.trimmed_upper text "ABANDONED" ->
       ~ TextSpec.trimmed_upper text "ACTIVE" -> ~ TextSpec.trimmed_upper text "AC" ->
       a = 0) /\
    (forall z : Z, v = PInt z -> a = 0).
Proof.
  intros Ht Hr Hv.
  destruct (transform_data_columns _ _ _ _ Ht)
    as (ps & st & ar & nb & _ & Hst & _ & _ & _ & -> & _ & _ & -> & _).
  pose proof (column_lookup _ _ _ _ _ _ Hst Hr Hv) as Hi.
  exists (PyStr.upper (PyStr.strip (py_str v))),
         (activity_flag (normalized_status v)).
  split; [now rewrite (lookup_map_Some _ _ _ _ Hi)|].
  split; [now rewrite (lookup_map_Some _ _ _ _ (lookup_map_Some normalized_status _ _ _ Hi))|].
  split; [reflexivity|].
  split; [intros text -> _ s'; apply trimmed_upper_iff|].
  split.
  - intros text ->. cbn [normalized_status astype_str py_str str_method].
    split; (intros [Hn|Hn]; apply trimmed_upper_iff in Hn; rewrite <- Hn; reflexivity).
  - split; [|split; [|split; [|split]]].
    1-3: intros Hin;
      repeat (apply elem_of_cons in Hin as [->|Hin]; [vm_compute; reflexivity|]);
      now apply elem_of_nil in Hin.
    + intros text -> _ H1 H2 H3 H4.
      cbn [normalized_status astype_str py_str str_method]. unfold activity_flag, isin.
      rewrite !bool_decide_eq_false_2; [reflexivity| |];
        intros Hin;
        repeat (apply elem_of_cons in Hin as [Hin|Hin];
                [exfalso; symmetry in Hin; apply trimmed_upper_iff in Hin; tauto|]);
        now apply elem_of_nil in Hin.
    + intros z ->. apply activity_flag_integer.
Qed.

(** C3: in every row of a transformed batch, [pressure_category] follows
    the coerced [staticpressure] by right-closed intervals: (-inf, 20]
    is INSUFFICIENT, (20, 40] MARGINAL, (40, 60] ADEQUATE, (60, inf)
    EXCELLENT, and a missing pressure gives a missing category. *)
Theorem pressure_category_intervals (now1 now2 : datetime) (recs : list record)
    (f : frame) (i : nat) (r : record) (v : pyval) :
  transform_data now1 now2 recs = Ok (FeatureFrame f) ->
  recs !! i = Some r ->
  r !! "staticpressure" = Some v ->
  let p := to_numeric v in
  exists c : option category,
    pressure_category f !! i = Some c /\
    (F64.isna p = true -> c = None) /\
    (F64.lt neg_infinity p = true -> F64.le p 20%float = true -> c = Some INSUFFICIENT) /\
    (F64.lt 20%float p = true -> F64.le p 40%float = true -> c = Some MARGINAL) /\
    (F64.lt 40%float p = true -> F64.le p 60%float = true -> c = Some ADEQUATE) /\
    (F64.lt 60%float p = true -> F64.lt p infinity = true -> c = Some EXCELLENT).
Proof.
  intros Ht Hr Hv p.
  destruct (transform_data_columns _ _ _ _ Ht)
    as (ps & st & ar & nb & Hps & _ & _ & _ & _ & _ & _ & _ & _ & -> & _).
  pose proof (coerced_pressure_lookup _ _ _ _ _ Hps Hr Hv) as Hi.
  exists (cut pressure_bins pressure_labels p). split.
  - now rewrite (lookup_map_Some _ _ _ _ Hi).
  - apply cut_pressure_rule.
Qed.

(** C5, as the code has it: with [maxP] the largest coerced pressure of
    the batch that is not missing, a row whose raw score
    [100 - (p / maxP * 100)] is a number gets it rounded to two
    decimals, and every other row gets 100: the rows with a missing
    pressure, and those where the quotient is 0/0 or inf/inf. With
    [maxP] at 60, a row at 30 scores 50.00, a row at 20 scores 66.67
    and a row at 40 scores 33.33; for integer pressures up to 150 PSI
    the score is a hundredth nearest to the exact value of
    [100 - 100 * p / maxP]. *)
Theorem pressure_risk_score_formula (now1 now2 : datetime) (recs : list record)
    (f : frame) (pressures : list float) (i : nat) (p : float) :
  transform_data now1 now2 recs = Ok (FeatureFrame f) ->
  coerced_pressure recs = Ok pressures ->
  (exists q, q ∈ pressures /\ F64.isna q = false) ->
  pressures !! i = Some p ->
  let maxP := series_max pressures in
  (maxP ∈ pressures /\ F64.isna maxP = false /\
   forall q, q ∈ pressures -> F64.isna q = false -> F64.le q maxP = true) /\
  exists s : float,
    pressure_risk_score f !! i = Some s /\
    (F64.isna (100 - (p / maxP * 100))%float = false ->
       s = F64.round_decimals 2 (100 - (p / maxP * 100))%float) /\
    (F64.isna (100 - (p / maxP * 100))%float = true -> s = 100%float) /\
    (F64.isna p = true -> s = 100%float) /\
    (maxP = 60%float -> p = 30%float -> s = 50%float) /\
    (maxP = 60%float -> p = 20%float -> s = (6667 / 100)%float) /\
    (maxP = 60%float -> p = 40%float -> s = (3333 / 100)%float) /\
    (forall zp zm : Z,
       0 <= zp <= zm -> 0 < zm <= 150 ->
       p = F64.of_Z zp -> maxP = F64.of_Z zm ->
       exists k : Z, s = (F64.of_Z k / 100)%float /\ nearest_hundredth zp zm k).
Proof.
  intros Ht Hps Hq Hi maxP.
  destruct (transform_data_columns _ _ _ _ Ht)
    as (ps & st & ar & nb & Hps' & _ & _ & _ & _ & _ & _ & _ & _ & _ & -> & _).
  rewrite Hps in Hps'. injection Hps' as <-.
  split; [now apply series_max_spec|].
  eexists. split; [exact (risk_scores_lookup _ _ _ Hi)|].
  fold maxP. change (100 - p / maxP * 100)%float with (raw_risk_score maxP p).
  split; [|split; [|split; [|split; [|split; [|split]]]]].
  - intros Hn. now rewrite F64Facts.fillna_notna.
  - intros Hn. now rewrite F64Facts.fillna_isna.
  - intros Hn. now rewrite F64Facts.fillna_isna by now apply raw_risk_score_isna.
  - intros -> ->. vm_compute. reflexivity.
  - intros -> ->. vm_compute. reflexivity.
  - intros -> ->. vm_compute. reflexivity.
  - intros zp zm Hzp Hzm -> ->. now apply score_on_grid.
Qed.

(** C9: when every coerced pressure of a batch is missing, the median is
    missing too and the imputation changes nothing: [staticpressure]
    stays missing in every row, while every row gets
    [pressure_risk_score] 100 and a missing [pressure_category]. *)
Theorem all_null_pressure_stays_null (now1 now2 : datetime) (recs : list record)
    (f : frame) (pressures : list float) :
  transform_data now1 now2 recs = Ok (FeatureFrame f) ->
  coerced_pressure recs = Ok pressures ->
  Forall (fun p => F64.isna p = true) pressures ->
  recs <> [] /\
  F64.isna (median pressures) = true /\
  length (staticpressure f) = length recs /\
  Forall (fun s => F64.isna s = true) (staticpressure f) /\
  pressure_risk_score f = replicate (length recs) 100%float /\
  pressure_category f = replicate (length recs) None.
Proof.
  intros Ht Hps Hnull.
  assert (recs <> []) as Hne.
  { intros ->. discriminate Ht. }
  destruct (transform_data_columns _ _ _ _ Ht)
    as (ps & st & ar & nb & Hps' & _ & _ & _ & Hlen & _ & _ & _ & _ & -> & -> & _ & -> & _).
  rewrite Hps in Hps'. injection Hps' as <-.
  rewrite (median_all_nan _ Hnull), <- Hlen.
  split; [exact Hne|]. split; [reflexivity|]. split; [apply length_map|].
  split; [|split].
  - eapply Forall_map; [|exact Hnull]. intros p Hp. cbv beta in Hp.
    unfold F64.fillna. now rewrite Hp.
  - unfold risk_scores. rewrite !map_map. apply map_constant.
    eapply Forall_impl; [exact Hnull|]. intros p Hp. cbv beta.
    rewrite F64Facts.fillna_isna by now apply raw_risk_score_isna.
    apply round_hundred.
  - apply map_constant. eapply Forall_impl; [exact Hnull|]. intros p Hp.
    now apply cut_pressure_rule.
Qed.


End TransformClaims.

(** ** Paths and the directory tree *)

Section Paths.

Lemma split_slash_nonempty (s : string) : split_slash s <> [].
Proof.
  destruct s as [|c r]; simpl; [discriminate|].
  destruct (bool_decide _); [discriminate|]. destruct (split_slash r); discriminate.
Qed.

Lemma split_slash_app (a b : string) :
  split_slash (a +:+ String "/" b) = split_slash a ++ split_slash b.
Proof.
  induction a as [|c a IH]; simpl; [reflexivity|].
  destruct (bool_decide (c = "/"%char)); simpl; [now rewrite IH|].
  rewrite IH. pose proof (split_slash_nonempty a).
  destruct (split_slash a); [congruence|reflexivity].
Qed.

Lemma ends_with_slash (a : string) :
  PyStr.ends_with_char "/" a = true -> exists a', a = a' +:+ "/".
Proof.
  induction a as [|c a IH]; simpl; [discriminate|].
  destruct a as [|c' a'].
  - intros Hc. apply bool_decide_eq_true in Hc as <-. now exists "".
  - intros Hc. destruct (IH Hc) as (a0 & ->). now exists (String c a0).
Qed.

Lemma string_app_assoc (a b c : string) : (a +:+ b) +:+ c = a +:+ (b +:+ c).
Proof.
  induction a as [|x a IH]; [reflexivity|].
  change (String x ((a +:+ b) +:+ c) = String x (a +:+ (b +:+ c))). now rewrite IH.
Qed.

Lemma components_app (a b : string) :
  components (a +:+ String "/" b) = components a ++ components b.
Proof. unfold components. now rewrite split_slash_app, List.filter_app. Qed.

Lemma starts_with_app (c : ascii) (a b : string) :
  a <> "" -> PyStr.starts_with_char c (a +:+ b) = PyStr.starts_with_char c a.
Proof. destruct a; [congruence|reflexivity]. Qed.

(** Joining a file name to a directory path appends one name to the
    names of the path. *)
Lemma resolve_join (w : world) (dir name : string) :
  dir <> "" -> PyStr.starts_with_char "/" name = false -> components name = [name] ->
  resolve w (path_join dir name) = resolve w dir ++ [name].
Proof.
  intros Hdir Hname Hcomp. unfold resolve, path_join. rewrite Hname.
  destruct (bool_decide_reflect (dir = "")) as [|_]; [congruence|]. simpl.
  destruct (PyStr.ends_with_char "/" dir) eqn:Eend.
  - destruct (ends_with_slash _ Eend) as (d & ->).
    rewrite string_app_assoc. change ("/" +:+ name) with (String "/" name).
    change (d +:+ "/") with (d +:+ String "/" "").
    rewrite !components_app, Hcomp. change (components "") with (@nil string).
    rewrite app_nil_r, app_assoc. f_equal. f_equal. now destruct d.
  - change ("/" +:+ name) with (String "/" name).
    rewrite starts_with_app by exact Hdir.
    now rewrite components_app, Hcomp, app_assoc.
Qed.

Lemma path_join_nonempty (a b : string) : b <> "" -> path_join a b <> "".
Proof.
  intros Hb. unfold path_join. destruct (PyStr.starts_with_char "/" b); [exact Hb|].
  destruct (_ || _); (destruct a as [|x a]; [first [exact Hb|discriminate]|]).
  - change (String x a +:+ b) with (String x (a +:+ b)). discriminate.
  - change (String x a +:+ "/" +:+ b) with (String x (a +:+ "/" +:+ b)). discriminate.
Qed.

End Paths.

Section Storage.

Lemma clear_for_dirs_empty (p : list string) : clear_for_dirs p (Dir ∅).
Proof. destruct p as [|c rest]; simpl; [exact I|]. now rewrite lookup_empty. Qed.

Lemma entries_at_empty (p : list string) : entries_at p (Dir ∅) = ∅.
Proof.
  unfold entries_at. destruct p as [|c rest]; simpl; [reflexivity|].
  now rewrite lookup_empty.
Qed.

Lemma lookup_dir_clear (p : list string) (n : node) (entries : gmap string node) :
  lookup_node p n = Some (Dir entries) -> clear_for_dirs p n.
Proof.
  revert n. induction p as [|c rest IH]; intros n; simpl.
  - now intros [= ->].
  - destruct n as [d|es]; [discriminate|]. simpl.
    destruct (es !! c) as [child|]; [apply IH|discriminate].
Qed.

(** [os.makedirs(..., exist_ok=True)] succeeds when no file is in the
    way, and leaves a directory with the entries it had, if any. *)
Lemma makedirs_node_ok (p : list string) (n : node) :
  clear_for_dirs p n ->
  exists n', makedirs_node p n = Ok n' /\
             lookup_node p n' = Some (Dir (entries_at p n)).
Proof.
  revert n. induction p as [|c rest IH]; intros [d|es] Hclear; try contradiction.
  - exists (Dir es). split; reflexivity.
  - simpl in Hclear. simpl makedirs_node.
    assert (clear_for_dirs rest (default (Dir ∅) (es !! c))) as Hchild.
    { destruct (es !! c); [exact Hclear|apply clear_for_dirs_empty]. }
    destruct (IH _ Hchild) as (child' & -> & Hlook).
    eexists. split; [reflexivity|].
    simpl. rewrite lookup_insert_eq, Hlook. f_equal. f_equal.
    unfold entries_at at 2. simpl.
    destruct (es !! c); [reflexivity|apply entries_at_empty].
Qed.

(** Writing a file into an existing directory creates or replaces that
    one entry. *)
Lemma write_node_ok (p : list string) (c : string) (d : file_data) (n : node)
    (entries : gmap string node) :
  lookup_node p n = Some (Dir entries) ->
  (forall child, entries !! c = Some child -> exists d0, child = File d0) ->
  exists n', write_node (p ++ [c]) d n = Ok n' /\
             lookup_node p n' = Some (Dir (<[c := File d]> entries)).
Proof.
  revert n. induction p as [|c0 rest IH]; intros n Hlook Hfile.
  - simpl in Hlook. injection Hlook as ->. simpl.
    destruct (entries !! c) as [child|] eqn:Ec.
    + destruct (Hfile child eq_refl) as (d0 & ->). simpl. eauto.
    + eauto.
  - destruct n as [d1|es]; [discriminate|]. simpl in Hlook. simpl.
    destruct (es !! c0) as [child|] eqn:Ec; [|discriminate].
    destruct (IH child Hlook Hfile) as (child' & -> & Hlook').
    eexists. split; [reflexivity|]. simpl. now rewrite lookup_insert_eq.
Qed.

Lemma parquet_name_components : components "firehydrants.parquet" = ["firehydrants.parquet"].
Proof. reflexivity. Qed.

(** One call of [save_parquet] on a ready tree. *)
Lemma save_parquet_writes (f : frame) (t : datetime) (processed_dir : string) (w : world) :
  head (load_date f) = Some t ->
  partition_ready w (path_join processed_dir ("load_date=" +:+ strftime_Ymd t)) ->
  exists w1 : world,
    save_parquet (FeatureFrame f) processed_dir w = (Ok tt, w1) /\
    cwd w1 = cwd w /\ log w1 = log w /\
    listdir w1 (path_join processed_dir ("load_date=" +:+ strftime_Ymd t))
    = Some (<["firehydrants.parquet" := File (ParquetFile f)]>
              (entries_at
                 (resolve w (path_join processed_dir ("load_date=" +:+ strftime_Ymd t)))
                 (root w))).
Proof.
  intros Hhead (Hclear & Hfile). unfold save_parquet.
  destruct (load_date f) as [|t0 rest]; [discriminate|]. injection Hhead as ->.
  set (dir := path_join processed_dir ("load_date=" +:+ strftime_Ymd t)) in *.
  destruct (makedirs_node_ok _ _ Hclear) as (n1 & Hmk & Hlook1).
  destruct (write_node_ok _ "firehydrants.parquet" (ParquetFile f) _ _ Hlook1 Hfile)
    as (n2 & Hwr & Hlook2).
  assert (dir <> "") as Hdir by (apply path_join_nonempty; discriminate).
  exists (set_root n2 w).
  unfold mbind, io_bind, makedirs, to_parquet, write_file. rewrite Hmk.
  change (resolve (set_root n1 w)) with (resolve w). change (root (set_root n1 w)) with n1.
  rewrite (resolve_join w dir "firehydrants.parquet" Hdir eq_refl parquet_name_components).
  rewrite Hwr. repeat split.
  unfold listdir. change (resolve (set_root n2 w)) with (resolve w).
  change (root (set_root n2 w)) with n2. now rewrite Hlook2.
Qed.

Lemma insert_only_entry (entries : gmap string node) (c : string) (n : node) :
  dom entries ⊆ ({[ c ]} : gset string) -> <[c := n]> entries = {[ c := n ]}.
Proof.
  intros Hdom. apply map_eq. intros k. destruct (decide (k = c)) as [->|Hne].
  - now rewrite lookup_insert_eq, lookup_singleton_eq.
  - rewrite lookup_insert_ne, lookup_singleton_ne by congruence.
    apply not_elem_of_dom. intros Hk. apply Hdom in Hk. set_solver.
Qed.

(** C6: [save_parquet] writes the frame as the one file
    [firehydrants.parquet] of the directory
    [{processed_dir}/load_date={YYYY-MM-DD}] named after the first row's
    [load_date], creating the directory or reusing it; a second write
    to the partition replaces the file, so that a partition that held
    at most this file holds exactly this file, with the last frame
    written. *)
Theorem save_parquet_overwrites (f f' : frame) (t : datetime) (processed_dir : string)
    (w : world) :
  head (load_date f) = Some t ->
  head (load_date f') = Some t ->
  partition_ready w (path_join processed_dir ("load_date=" +:+ strftime_Ymd t)) ->
  exists w1 w2 : world,
    save_parquet (FeatureFrame f) processed_dir w = (Ok tt, w1) /\
    listdir w1 (path_join processed_dir ("load_date=" +:+ strftime_Ymd t))
    = Some (<["firehydrants.parquet" := File (ParquetFile f)]>
              (entries_at
                 (resolve w (path_join processed_dir ("load_date=" +:+ strftime_Ymd t)))
                 (root w))) /\
    save_parquet (FeatureFrame f') processed_dir w1 = (Ok tt, w2) /\
    listdir w2 (path_join processed_dir ("load_date=" +:+ strftime_Ymd t))
    = Some (<["firehydrants.parquet" := File (ParquetFile f')]>
              (entries_at
                 (resolve w (path_join processed_dir ("load_date=" +:+ strftime_Ymd t)))
                 (root w))) /\
    (dom (entries_at
            (resolve w (path_join processed_dir ("load_date=" +:+ strftime_Ymd t)))
            (root w)) ⊆ ({[ "firehydrants.parquet" ]} : gset string) ->
     listdir w1 (path_join processed_dir ("load_date=" +:+ strftime_Ymd t))
     = Some {[ "firehydrants.parquet" := File (ParquetFile f) ]} /\
     listdir w2 (path_join processed_dir ("load_date=" +:+ strftime_Ymd t))
     = Some {[ "firehydrants.parquet" := File (ParquetFile f') ]}) /\
    (processed_dir <> "" -> PyStr.ends_with_char "/" processed_dir = false ->
     path_join processed_dir ("load_date=" +:+ strftime_Ymd t)
     = processed_dir +:+ "/load_date=" +:+ strftime_Ymd t).
Proof.
  intros Hf Hf' Hready.
  set (dir := path_join processed_dir ("load_date=" +:+ strftime_Ymd t)) in *.
  destruct (save_parquet_writes f t processed_dir w Hf Hready) as (w1 & Hs1 & Hcwd & _ & Hl1).
  fold dir in Hl1.
  assert (partition_ready w1 dir) as Hready1.
  { unfold listdir in Hl1.
    destruct (lookup_node (resolve w1 dir) (root w1)) as [[d|es]|] eqn:El; try discriminate.
    injection Hl1 as ->. split.
    - eapply lookup_dir_clear, El.
    - unfold entries_at. rewrite El, lookup_insert_eq. intros child [= <-]. eauto. }
  destruct (save_parquet_writes f' t processed_dir w1 Hf' Hready1) as (w2 & Hs2 & _ & _ & Hl2).
  fold dir in Hl2.
  assert (entries_at (resolve w1 dir) (root w1)
          = <["firehydrants.parquet" := File (ParquetFile f)]>
              (entries_at (resolve w dir) (root w))) as Hent.
  { unfold listdir in Hl1. unfold entries_at at 1.
    destruct (lookup_node (resolve w1 dir) (root w1)) as [[d|es]|]; try discriminate.
    now injection Hl1. }
  rewrite Hent, insert_insert_eq in Hl2.
  exists w1, w2. repeat split; try assumption.
  - now rewrite Hl1, (insert_only_entry _ _ _ H).
  - now rewrite Hl2, (insert_only_entry _ _ _ H).
  - intros Hne Hend. unfold dir, path_join.
    change (PyStr.starts_with_char "/" ("load_date=" +:+ strftime_Ymd t)) with false.
    rewrite Hend. destruct (bool_decide_reflect (processed_dir = "")); [congruence|].
    reflexivity.
Qed.

End Storage.

(** ** Orchestration *)

Section PipelineClaims.
Context `{PandasRuntime}.

(** A run that fails in the body: the handler logs, alerts and
    re-raises, and touches no file. *)
Lemma run_pipeline_failure (run_id : string) (w0 w1 : world) (e : exn) :
  pipeline_body (logger INFO [Lit ("Starting hydrant pipeline with run ID: " +:+ run_id)] w0).2
  = (Raise e, w1) ->
  exists w' : world,
    run_pipeline run_id w0 = (Raise e, w') /\
    root w' = root w1 /\ cwd w' = cwd w1 /\
    log w' = log w1
               ++ [Event "hydrant_pipeline" ERROR
                         [Lit ("Hydrant pipeline failed: " +:+ exn_str e)];
                   failure_alert e].
Proof.
  intros Hbody. eexists. split.
  - unfold run_pipeline, mbind, io_bind, try_except.
    cbn [logger log_line snd] in *. rewrite Hbody.
    unfold pipeline_handler, mbind, io_bind, send_alert, logger, log_line, raise.
    reflexivity.
  - cbn [root cwd log]. rewrite <- app_assoc. repeat split.
Qed.

(** C4: when validation yields no valid record, the run raises the
    "no valid data" error to its caller, after the notifier was handed
    a failure message; nothing is written after validation, so no
    partition is. *)
Theorem no_valid_data_fails (run_id raw_file : string) (invalid_count : nat)
    (w0 w1 w2 : world) :
  fetch_data (logger INFO [Lit ("Starting hydrant pipeline with run ID: " +:+ run_id)] w0).2
  = (Ok raw_file, w1) ->
  validate_data raw_file w1 = (Ok ([], invalid_count), w2) ->
  exists w' : world,
    run_pipeline run_id w0
    = (Raise (Exn ValueError "No valid data to process after validation."), w') /\
    last (log w')
    = Some (Event "firehydrant_pipeline.alerts" WARNING
                  [Lit "ALERT: ";
                   Lit "Hydrant pipeline failed: No valid data to process after validation."]) /\
    root w' = root w2 /\
    listdir w' "data/processed" = listdir w2 "data/processed".
Proof.
  intros Hfetch Hval.
  destruct (run_pipeline_failure run_id w0
              {| root := root w2; cwd := cwd w2; clock := clock w2; ticks := ticks w2;
                 http := http w2;
                 log := (log w2
                           ++ [Event "hydrant_pipeline" INFO
                                 [Lit "Validation complete: "; ReprRecords [];
                                  Lit (" valid records, " +:+ PyStr.of_nat invalid_count
                                         +:+ " invalid records.")]])
                          ++ [Event "hydrant_pipeline" WARNING [Lit NO_VALID_DATA]] |}
              (Exn ValueError NO_VALID_DATA)) as (w' & Hrun & Hroot & Hcwd & Hlog).
  - unfold pipeline_body, mbind, io_bind. rewrite Hfetch, Hval. reflexivity.
  - exists w'. split; [exact Hrun|]. split; [|split].
    + rewrite Hlog.
      change (failure_alert (Exn ValueError NO_VALID_DATA))
        with (Event "firehydrant_pipeline.alerts" WARNING
                [Lit "ALERT: ";
                 Lit "Hydrant pipeline failed: No valid data to process after validation."]).
      match goal with |- last (?l ++ [?a; ?b]) = _ =>
        change (l ++ [a; b]) with (l ++ [a] ++ [b]); rewrite (app_assoc l [a] [b]) end.
      apply last_snoc.
    + exact Hroot.
    + unfold listdir, resolve. now rewrite Hroot, Hcwd.
Qed.

End PipelineClaims.

(** ** Validation, record by record *)

Section ValidationMore.

(** [validate_cols] holds exactly when every listed column is a key. *)
Lemma validate_cols_Forall (cols : list string) (r : record) :
  validate_cols cols r = true <-> Forall (fun col => is_Some (r !! col)) cols.
Proof.
  induction cols as [|col cols IH]; simpl.
  - split; auto.
  - rewrite Forall_cons, <- IH, <- has_key_is_Some.
    destruct (has_key col r); simpl; intuition discriminate.
Qed.

(** X1: [validate] looks at the keys only: adding or overwriting a
    field never invalidates a valid record, whatever the value;
    removing a required column always invalidates; removing any other
    field changes nothing. *)
Theorem validate_insert_delete (r : record) (k : string) (v : pyval) :
  (validate r = true -> validate (<[k := v]> r) = true) /\
  (k ∈ REQUIRED_COLS -> validate (delete k r) = false) /\
  (k ∉ REQUIRED_COLS -> validate (delete k r) = validate r).
Proof.
  unfold validate. split; [|split].
  - rewrite !validate_cols_Forall. intros Hall. eapply Forall_impl; [exact Hall|].
    intros col Hcol. cbv beta in *.
    destruct (decide (k = col)) as [->|Hne].
    + rewrite lookup_insert_eq. eauto.
    + now rewrite lookup_insert_ne.
  - intros Hk. apply not_true_is_false. rewrite validate_cols_Forall, Forall_forall.
    intros Hall. specialize (Hall k Hk). rewrite lookup_delete_eq in Hall.
    now destruct Hall.
  - intros Hk. apply eq_true_iff_eq. rewrite !validate_cols_Forall, !Forall_forall.
    split; intros Hall col Hcol; specialize (Hall col Hcol);
    (rewrite lookup_delete_ne in * by (intros ->; contradiction)); exact Hall.
Qed.

(** Filtering the complete records twice is filtering once. *)
Lemma filter_complete_twice (data : list record) :
  filter complete (filter complete data) = filter complete data /\
  filter (λ r, ¬ complete r) (filter complete data) = [].
Proof.
  induction data as [|r data [IH1 IH2]]; [split; reflexivity|].
  destruct (decide (complete r)) as [Hc|Hc].
  - rewrite (filter_cons_True complete) by done.
    rewrite (filter_cons_True complete) by done.
    rewrite (filter_cons_False (λ r, ¬ complete r)) by tauto.
    now rewrite IH1, IH2.
  - now rewrite (filter_cons_False complete) by done.
Qed.

(** X2: validation is idempotent: validating the valid records again
    keeps them all, in the same order, and rejects none. *)
Theorem validate_records_idempotent (data : list record) :
  validate_records (validate_records data).1 = ((validate_records data).1, 0%nat).
Proof.
  rewrite !validate_records_spec. cbn [fst].
  destruct (filter_complete_twice data) as [-> ->]. reflexivity.
Qed.

(** X3: validation is record by record: a batch made of two batches
    validates to the two lists of valid records, one after the other,
    and the two counts of rejected records added. *)
Theorem validate_records_app (data1 data2 : list record) :
  validate_records (data1 ++ data2)
  = ((validate_records data1).1 ++ (validate_records data2).1,
     ((validate_records data1).2 + (validate_records data2).2)%nat).
Proof.
  rewrite !validate_records_spec. cbn [fst snd].
  now rewrite !filter_app, length_app.
Qed.

End ValidationMore.

(** ** The shape and the content of a feature frame *)

Section TransformMore.
Context `{PandasRuntime}.

Lemma mapM_Ok_length {A B : Type} (g : A -> result B) (l : list A) (l' : list B) :
  mapM g l = Ok l' -> length l' = length l.
Proof.
  revert l'. induction l as [|a l IH]; intros l' Hm; simpl in Hm.
  - now injection Hm as <-.
  - apply rbind_Ok in Hm as (b & _ & Hm). apply rbind_Ok in Hm as (bs & Hbs & Hm).
    injection Hm as <-. simpl. now rewrite (IH bs).
Qed.

Lemma mapM_Raise {A B : Type} (g : A -> result B) (l : list A) (e : exn) :
  mapM g l = Raise e -> exists (i : nat) (a : A), l !! i = Some a /\ g a = Raise e.
Proof.
  induction l as [|a l IH]; simpl; [discriminate|].
  destruct (g a) as [b|e'] eqn:Ea; simpl.
  - destruct (mapM g l) as [bs|e'']; simpl; [discriminate|].
    intros [= ->]. destruct (IH eq_refl) as (i & a' & Hi & Ha'). now exists (S i), a'.
  - intros [= ->]. now exists O, a.
Qed.

(** Every column of a returned feature frame, in terms of the columns
    of the input frame. *)
Lemma transform_data_frame (now1 now2 : datetime) (recs : list record) (f : frame) :
  transform_data now1 now2 recs = Ok (FeatureFrame f) ->
  df_empty (RawFrame recs) = false /\
  exists (oid aid ps lat lon st ar nb : list pyval) (ids : list (option Z)),
    column recs "objectid" = Ok oid /\
    mapM astype_Int64 (map to_numeric oid) = Ok ids /\
    column recs "assetid" = Ok aid /\
    column recs "staticpressure" = Ok ps /\
    column recs "latitude" = Ok lat /\
    column recs "longitude" = Ok lon /\
    column recs "lifecyclestatus" = Ok st /\
    column recs "servicearea" = Ok ar /\
    column recs "neighborhood" = Ok nb /\
    objectid f = ids /\
    assetid f = map to_numeric aid /\
    latitude f = map to_numeric lat /\
    longitude f = map to_numeric lon /\
    geo_cluster f = zip_with geo_cluster_key (map to_numeric lat) (map to_numeric lon) /\
    record_hash f
    = zip_with (fun (o : option Z) (ll : float * float) => hash_row o ll.1 ll.2)
               ids (zip (map to_numeric lat) (map to_numeric lon)).
Proof.
  unfold transform_data. destruct (df_empty (RawFrame recs)); [discriminate|].
  intros Ht. split; [reflexivity|].
  repeat (apply rbind_Ok in Ht; destruct Ht as (? & ? & Ht)).
  injection Ht as <-.
  cbn [objectid assetid latitude longitude geo_cluster record_hash].
  match goal with Hc : column recs "objectid" = Ok ?c |- _ => exists c end.
  match goal with Hc : column recs "assetid" = Ok ?c |- _ => exists c end.
  match goal with Hc : column recs "staticpressure" = Ok ?c |- _ => exists c end.
  match goal with Hc : column recs "latitude" = Ok ?c |- _ => exists c end.
  match goal with Hc : column recs "longitude" = Ok ?c |- _ => exists c end.
  match goal with Hc : column recs "lifecyclestatus" = Ok ?c |- _ => exists c end.
  match goal with Hc : column recs "servicearea" = Ok ?c |- _ => exists c end.
  match goal with Hc : column recs "neighborhood" = Ok ?c |- _ => exists c end.
  match goal with Hc : mapM astype_Int64 _ = Ok ?c |- _ => exists c end.
  repeat (split; [first [assumption|reflexivity]|]). reflexivity.
Qed.

Lemma length_loc_assign {A : Type} (mask : list bool) (value : A) (col : list A) :
  length mask = length col -> length (loc_assign mask value col) = length col.
Proof. intros Hl. unfold loc_assign. rewrite length_zip_with. lia. Qed.

Lemma length_service_quality_column (active : list Z) (pressures : list float) :
  length pressures = length active ->
  length (service_quality_column active pressures) = length active.
Proof.
  intros Hl. unfold service_quality_column.
  assert (forall g : float -> bool,
             length (zip_with andb (map (Z.eqb 1) active) (map g pressures)) = length active)
    as Hmask by (intros g; rewrite length_zip_with, !length_map; lia).
  rewrite length_loc_assign; rewrite ?length_map; [|symmetry].
  all: rewrite length_loc_assign; rewrite ?Hmask; [|symmetry].
  all: rewrite length_loc_assign; rewrite ?Hmask; [|symmetry].
  all: rewrite length_loc_assign; rewrite ?Hmask, ?length_replicate; reflexivity.
Qed.

Lemma length_risk_scores (pressures : list float) :
  length (risk_scores pressures) = length pressures.
Proof. unfold risk_scores. now rewrite !length_map. Qed.

(** X4: a returned feature frame has one cell per input record in each
    of its sixteen columns. *)
Theorem transform_data_shape (now1 now2 : datetime) (recs : list record) (f : frame) :
  transform_data now1 now2 recs = Ok (FeatureFrame f) ->
  let n := length recs in
  (0 < n)%nat /\
  length (objectid f) = n /\ length (assetid f) = n /\ length (record_hash f) = n /\
  length (latitude f) = n /\ length (longitude f) = n /\ length (geo_cluster f) = n /\
  length (neighborhood f) = n /\ length (servicearea f) = n /\
  length (lifecyclestatus f) = n /\ length (is_active f) = n /\
  length (staticpressure f) = n /\ length (pressure_category f) = n /\
  length (pressure_risk_score f) = n /\ length (service_quality f) = n /\
  length (load_date f) = n /\ length (load_timestamp f) = n.
Proof.
  intros Ht n.
  destruct (transform_data_columns _ _ _ _ Ht)
    as (ps & st & ar & nb & _ & Hst & Har & Hnb & Hps
        & -> & -> & -> & -> & -> & -> & -> & -> & -> & ->).
  destruct (transform_data_frame _ _ _ _ Ht)
    as (Hne & oid & aid & ps' & lat & lon & _ & _ & _ & ids
        & Hoid & Hids & Haid & _ & Hlat & Hlon & _ & _ & _ & -> & -> & -> & -> & -> & ->).
  apply column_length in Hst, Har, Hnb, Hoid, Haid, Hlat, Hlon.
  apply mapM_Ok_length in Hids. rewrite length_map in Hids.
  rewrite length_service_quality_column by (rewrite !length_map; congruence).
  rewrite length_risk_scores, !length_zip_with, !length_map, !length_replicate.
  fold n in Hst, Har, Hnb, Hoid, Haid, Hlat, Hlon, Hps |- *.
  assert (0 < n)%nat.
  { unfold n. destruct recs; [discriminate Hne|simpl; lia]. }
  repeat split; lia.
Qed.

(** X5: every row of a returned feature frame carries the same lineage:
    the date of the first clock reading as [load_date], which is
    therefore the first row's, and the second reading as
    [load_timestamp]. *)
Theorem transform_data_lineage (now1 now2 : datetime) (recs : list record) (f : frame) :
  transform_data now1 now2 recs = Ok (FeatureFrame f) ->
  Forall (fun t => t = to_date now1) (load_date f) /\
  Forall (fun t => t = now2) (load_timestamp f) /\
  head (load_date f) = Some (to_date now1) /\
  Forall (fun t => hour t = 0 /\ minute t = 0 /\ second t = 0 /\ microsecond t = 0)%nat
         (load_date f).
Proof.
  intros Ht.
  destruct (transform_data_columns _ _ _ _ Ht)
    as (ps & st & ar & nb & _ & _ & _ & _ & _ & _ & _ & _ & _ & _ & _ & _ & _ & -> & ->).
  destruct (transform_data_frame _ _ _ _ Ht) as (Hne & _).
  split; [now apply Forall_replicate|]. split; [now apply Forall_replicate|].
  split; [|now apply Forall_replicate].
  destruct recs; [discriminate Hne|reflexivity].
Qed.

Lemma column_Raise (recs : list record) (col : string) (e : exn) :
  column recs col = Raise e -> e = Exn KeyError ("'" +:+ col +:+ "'").
Proof. unfold column. destruct (existsb _ _); [discriminate|]. now intros [= <-]. Qed.

Lemma column_absent (recs : list record) (col : string) :
  Forall (fun r : record => r !! col = None) recs ->
  column recs col = Raise (Exn KeyError ("'" +:+ col +:+ "'")).
Proof.
  intros Hall. unfold column.
  assert (existsb (has_key col) recs = false) as ->; [|reflexivity].
  induction Hall as [|r recs Hr _ IH]; simpl; [reflexivity|].
  unfold has_key at 1. now rewrite Hr.
Qed.

Lemma astype_Int64_Raise (x : float) (e : exn) :
  astype_Int64 x = Raise e ->
  e = Exn TypeError "cannot safely cast non-equivalent float64 to int64".
Proof.
  unfold astype_Int64. destruct (F64.isna x); [discriminate|].
  destruct (F64.to_Z_exact x) as [z|]; [destruct (_ && _)|];
  first [discriminate|now intros [= <-]].
Qed.

(** X6: on a frame that is not empty, a required column that no record
    has makes [transform_data] raise: it never returns a frame; when
    the column is [objectid], the first one read, the error is its
    [KeyError]. *)
Theorem transform_data_missing_column (now1 now2 : datetime) (recs : list record)
    (col : string) :
  df_empty (RawFrame recs) = false ->
  col ∈ REQUIRED_COLS ->
  Forall (fun r : record => r !! col = None) recs ->
  exists e : exn,
    transform_data now1 now2 recs = Raise e /\
    (col = "objectid" -> e = Exn KeyError "'objectid'").
Proof.
  intros Hne Hcol Hall. pose proof (column_absent _ _ Hall) as Habs.
  unfold transform_data. rewrite Hne.
  destruct (column recs "objectid") as [c1|e1] eqn:E1.
  2:{ exists e1. split; [reflexivity|]. now rewrite (column_Raise _ _ _ E1). }
  assert (col <> "objectid") as Hnot by (intros ->; congruence).
  cbn [mbind result_bind].
  destruct (mapM astype_Int64 (map to_numeric c1)) as [ids|e] eqn:Em.
  2:{ exists e. split; [reflexivity|]. intros ->. congruence. }
  cbn [mbind result_bind].
  repeat match goal with
  | |- context [column recs ?c ≫= _] =>
      let E := fresh "E" in
      destruct (column recs c) as [?|?e] eqn:E;
      [cbn [mbind result_bind]
      |eexists; split; [reflexivity|intros ->; congruence]]
  end.
  exfalso. unfold REQUIRED_COLS in Hcol.
  repeat (apply elem_of_cons in Hcol as [->|Hcol]; [congruence|]).
  inversion Hcol.
Qed.

(** A validated batch that is not empty makes a frame that is not
    empty. *)
Lemma validated_frame_not_empty (recs : list record) :
  recs <> [] -> Forall (fun r => validate r = true) recs ->
  df_empty (RawFrame recs) = false.
Proof.
  intros Hne Hall. destruct recs as [|r0 rest]; [congruence|]. simpl.
  apply Forall_cons in Hall as [Hr0 _]. unfold validate in Hr0.
  apply validate_cols_Forall in Hr0. apply Forall_cons in Hr0 as [[v0 Hv0] _].
  destruct (bool_decide_reflect (r0 = ∅)) as [->|_]; [|reflexivity].
  now rewrite lookup_empty in Hv0.
Qed.

(** What [transform_data] returns for a frame that is not empty is not
    empty either. *)
Lemma transform_data_Ok_not_empty (now1 now2 : datetime) (recs : list record)
    (df : dataframe) :
  df_empty (RawFrame recs) = false ->
  transform_data now1 now2 recs = Ok df ->
  df_empty df = false.
Proof.
  intros Hne. unfold transform_data. rewrite Hne. intros Ht.
  repeat (apply rbind_Ok in Ht; destruct Ht as (? & ? & Ht)).
  injection Ht as <-. simpl. destruct recs; [discriminate Hne|reflexivity].
Qed.

(** The errors of [transform_data] are those of a column access and of
    the Int64 cast. *)
Lemma transform_data_Raise_class (now1 now2 : datetime) (recs : list record) (e : exn) :
  transform_data now1 now2 recs = Raise e ->
  exn_class_of e = KeyError \/ exn_class_of e = TypeError.
Proof.
  unfold transform_data. destruct (df_empty (RawFrame recs)); [discriminate|].
  destruct (column recs "objectid") as [c1|e1] eqn:E1.
  2:{ intros [= <-]. rewrite (column_Raise _ _ _ E1). now left. }
  cbn [mbind result_bind].
  destruct (mapM astype_Int64 (map to_numeric c1)) as [ids|e0] eqn:Em.
  2:{ intros [= <-]. apply mapM_Raise in Em as (i & a & _ & Ha).
      rewrite (astype_Int64_Raise _ _ Ha). now right. }
  cbn [mbind result_bind].
  repeat match goal with
  | |- context [column recs ?c ≫= _] =>
      let E := fresh "E" in
      destruct (column recs c) as [?|?e] eqn:E;
      [cbn [mbind result_bind]
      |intros [= <-]; rewrite (column_Raise _ _ _ E); now left]
  end.
  discriminate.
Qed.

Lemma insert_sorted_perm (x : float) (l : list float) : insert_sorted x l ≡ₚ x :: l.
Proof.
  induction l as [|y l IH]; simpl; [reflexivity|].
  destruct (F64.le x y); [reflexivity|]. rewrite IH. apply Permutation_swap.
Qed.

Lemma sort_floats_perm (l : list float) : sort_floats l ≡ₚ l.
Proof.
  induction l as [|x l IH]; simpl; [reflexivity|].
  now rewrite insert_sorted_perm, IH.
Qed.

(** With an odd number of measured cells, the median is one of them. *)
Lemma median_odd (xs : list float) :
  Nat.odd (length (List.filter F64.notna xs)) = true ->
  median xs ∈ xs /\ F64.isna (median xs) = false.
Proof.
  intros Hodd. unfold median.
  pose proof (sort_floats_perm (List.filter F64.notna xs)) as Hperm.
  set (v := sort_floats (List.filter F64.notna xs)) in *.
  assert (length v = length (List.filter F64.notna xs)) as Hlen
    by now apply Permutation_length.
  rewrite <- Hlen in Hodd. unfold Nat.odd in Hodd.
  destruct (Nat.even (length v)) eqn:Ev; [discriminate|].
  destruct (Nat.eqb_spec (length v) 0) as [E0|Hpos]; [now rewrite E0 in Ev|].
  assert (length v / 2 < length v)%nat as Hmid by (apply Nat.div_lt; lia).
  destruct (lookup_lt_is_Some_2 v _ Hmid) as [m Hm].
  rewrite (nth_lookup_Some _ _ _ _ Hm).
  assert (m ∈ List.filter F64.notna xs) as Hin.
  { rewrite <- Hperm. apply list_elem_of_lookup. eauto. }
  apply list_elem_of_In, filter_In in Hin as [Hin Hn].
  split; [now apply list_elem_of_In|].
  unfold F64.notna in Hn. now destruct (F64.isna m).
Qed.

(** X8: the imputation never alters a measured pressure: a row keeps its
    coerced [staticpressure] when it has one, and gets the batch median
    otherwise; no cell stays missing when that median is a number,
    which it is when the number of measured cells is odd. *)
Theorem imputation_keeps_measured (now1 now2 : datetime) (recs : list record)
    (f : frame) (pressures : list float) :
  transform_data now1 now2 recs = Ok (FeatureFrame f) ->
  coerced_pressure recs = Ok pressures ->
  (forall (i : nat) (p : float),
     pressures !! i = Some p ->
     staticpressure f !! i = Some (if F64.isna p then median pressures else p)) /\
  (F64.isna (median pressures) = false ->
   Forall (fun s => F64.isna s = false) (staticpressure f)) /\
  (Nat.odd (length (List.filter F64.notna pressures)) = true ->
   median pressures ∈ pressures /\ F64.isna (median pressures) = false).
Proof.
  intros Ht Hps.
  destruct (transform_data_columns _ _ _ _ Ht)
    as (ps & st & ar & nb & Hps' & _ & _ & _ & _ & _ & _ & _ & _ & _ & _ & _ & -> & _).
  rewrite Hps in Hps'. injection Hps' as <-.
  split; [|split].
  - intros i p Hi. now rewrite (lookup_map_Some _ _ _ _ Hi).
  - intros Hm. apply (Forall_map _ (fun _ => True)); [|now apply Forall_true].
    intros p _. unfold F64.fillna. now destruct (F64.isna p) eqn:Ep.
  - apply median_odd.
Qed.

Lemma abs_isna (x : float) : F64.isna x = true -> F64.isna (abs x) = true.
Proof. rewrite !F64Facts.isna_spec, abs_spec. now intros ->. Qed.

Lemma rint_isna (x : float) : F64.isna x = true -> F64.rint x = x.
Proof.
  intros Hx. unfold F64.rint.
  change (PrimFloat.ltb (abs x) F64.two52) with (F64.lt (abs x) F64.two52).
  now rewrite (F64Facts.lt_isna_l _ _ (abs_isna _ Hx)).
Qed.

Lemma round_decimals_isna (decimals : nat) (x : float) :
  F64.isna x = true -> F64.isna (F64.round_decimals decimals x) = true.
Proof.
  intros Hx. unfold F64.round_decimals.
  apply F64Facts.div_isna_l. rewrite rint_isna; now apply F64Facts.mul_isna_l.
Qed.

Lemma column_lookup_default (recs : list record) (col : string) (c : list pyval)
    (i : nat) (r : record) :
  column recs col = Ok c -> recs !! i = Some r ->
  c !! i = Some (default (PFloat nan) (r !! col)).
Proof.
  unfold column. destruct (existsb _ _); [|discriminate].
  intros [= <-] Hr. now rewrite (lookup_map_Some _ _ _ _ Hr).
Qed.

(** X9: a row whose two coordinates are missing gets the cluster key
    nan_nan. When both coordinate columns are float64 columns for
    certain (each holds a missing or a non-integer cell), the key of a
    row is made of its two coerced coordinates rounded to three
    decimals: 39.10371 and -84.51264 give the texts of 39.104 and of
    -84.513. *)
Theorem geo_cluster_null_safe (now1 now2 : datetime) (recs : list record) (f : frame)
    (i : nat) (r : record) (vlat vlon : pyval) :
  transform_data now1 now2 recs = Ok (FeatureFrame f) ->
  recs !! i = Some r ->
  r !! "latitude" = Some vlat ->
  r !! "longitude" = Some vlon ->
  (F64.isna (to_numeric vlat) = true -> F64.isna (to_numeric vlon) = true ->
   geo_cluster f !! i = Some "nan_nan") /\
  (float_column (latitude f) -> float_column (longitude f) ->
   geo_cluster f !! i
   = Some (float_str (F64.round_decimals 3 (to_numeric vlat)) +:+ "_"
             +:+ float_str (F64.round_decimals 3 (to_numeric vlon))) /\
   (to_numeric vlat = (3910371 / 100000)%float ->
    to_numeric vlon = (-8451264 / 100000)%float ->
    geo_cluster f !! i
    = Some (float_str (39104 / 1000)%float +:+ "_" +:+ float_str (-84513 / 1000)%float))).
Proof.
  intros Ht Hr Hlat Hlon.
  destruct (transform_data_frame _ _ _ _ Ht)
    as (_ & oid & aid & ps & lat & lon & _ & _ & _ & ids
        & _ & _ & _ & _ & Hclat & Hclon & _ & _ & _ & _ & _ & _ & _ & -> & _).
  assert (zip_with geo_cluster_key (map to_numeric lat) (map to_numeric lon) !! i
          = Some (geo_cluster_key (to_numeric vlat) (to_numeric vlon))) as Hkey.
  { rewrite lookup_zip_with.
    rewrite (lookup_map_Some _ _ _ _ (column_lookup _ _ _ _ _ _ Hclat Hr Hlat)).
    now rewrite (lookup_map_Some _ _ _ _ (column_lookup _ _ _ _ _ _ Hclon Hr Hlon)). }
  split.
  - intros Hnlat Hnlon. rewrite Hkey. unfold geo_cluster_key, float_str.
    now rewrite (round_decimals_isna 3 _ Hnlat), (round_decimals_isna 3 _ Hnlon).
  - intros _ _. split; [exact Hkey|]. intros Elat Elon. rewrite Hkey.
    unfold geo_cluster_key. rewrite Elat, Elon.
    assert (F64.round_decimals 3 (3910371 / 100000)%float = (39104 / 1000)%float) as ->
      by (vm_compute; reflexivity).
    assert (F64.round_decimals 3 (-8451264 / 100000)%float = (-84513 / 1000)%float) as ->
      by (vm_compute; reflexivity).
    reflexivity.
Qed.

Lemma lt_infinity_false (p : float) : F64.lt infinity p = false.
Proof.
  destruct (F64.lt infinity p) eqn:E; [|reflexivity].
  apply F64Facts.lt_cmp in E. unfold F64.cmp in E.
  change (Prim2SF infinity) with (S754_infinity false) in E.
  destruct (Prim2SF p) as [s|[]| |s m e]; discriminate.
Qed.

Lemma cut_above_sixty (p : float) :
  F64.lt 60%float p = true -> cut pressure_bins pressure_labels p = Some EXCELLENT.
Proof.
  intros H60. unfold cut, pressure_bins, pressure_labels. cbn [searchsorted_left length].
  destruct (F64Facts.lt_notna _ _ H60) as [_ ->].
  assert (F64.lt 40%float p = true) as H40
    by (eapply F64Facts.lt_trans; [|exact H60]; reflexivity).
  assert (F64.lt 20%float p = true) as H20
    by (eapply F64Facts.lt_trans; [|exact H40]; reflexivity).
  assert (F64.lt neg_infinity p = true) as ->
    by (eapply F64Facts.lt_trans; [|exact H20]; reflexivity).
  now rewrite H20, H40, H60, lt_infinity_false.
Qed.

Lemma cut_at_neg_infinity (p : float) :
  F64.lt neg_infinity p = false -> cut pressure_bins pressure_labels p = None.
Proof.
  intros Hp. unfold cut, pressure_bins. cbn [searchsorted_left]. rewrite Hp.
  now destruct (F64.isna p).
Qed.

(** What each tier says of the flag and the pressure of its row. *)
Lemma service_quality_cell_inv (a : Z) (p : float) :
  (service_quality_cell a p = "HIGH" -> a = 1 /\ F64.lt 40%float p = true) /\
  (service_quality_cell a p = "MEDIUM" ->
   a = 1 /\ F64.le 20%float p = true /\ F64.le p 40%float = true) /\
  (service_quality_cell a p = "LOW" -> a = 1 /\ F64.lt p 20%float = true) /\
  (service_quality_cell a p = "INACTIVE" <-> a = 0).
Proof.
  unfold service_quality_cell, between.
  change (F64.ge p 40%float) with (F64.le 40%float p).
  destruct (Z.eqb_spec 0 a) as [<-|H0].
  { repeat split; intros; discriminate. }
  destruct (Z.eqb_spec 1 a) as [<-|H1]; cbn [andb].
  2:{ repeat split; try discriminate. congruence. }
  destruct (F64.lt p 20%float) eqn:Elow.
  { repeat split; try discriminate. }
  destruct (F64.le 20%float p) eqn:E20; cbn [andb].
  - destruct (F64.le p 40%float) eqn:E40.
    + repeat split; try discriminate.
    + destruct (F64.le 40%float p) eqn:Ege.
      * repeat split; try discriminate.
        destruct (F64.lt 40%float p) eqn:Egt; [reflexivity|].
        destruct (F64Facts.le_notna _ _ Ege) as [Hn40 Hnp].
        pose proof (F64Facts.not_lt_ge _ _ Hn40 Hnp Egt). congruence.
      * repeat split; try discriminate.
  - destruct (F64.le 40%float p) eqn:Ege.
    + assert (F64.le 20%float p = true)
        by (eapply F64Facts.le_trans; [|exact Ege]; reflexivity).
      congruence.
    + repeat split; try discriminate.
Qed.

(** X10: the tier and the pressure category of a row agree: a HIGH row
    is ADEQUATE or EXCELLENT, a MEDIUM row INSUFFICIENT (at exactly 20)
    or MARGINAL, and a LOW row INSUFFICIENT, or without category when
    its pressure is minus infinity. *)
Theorem tier_agrees_with_category (now1 now2 : datetime) (recs : list record) (f : frame)
    (i : nat) (r : record) (v : pyval) (sq : string) (c : option category) :
  transform_data now1 now2 recs = Ok (FeatureFrame f) ->
  recs !! i = Some r ->
  r !! "staticpressure" = Some v ->
  service_quality f !! i = Some sq ->
  pressure_category f !! i = Some c ->
  (sq = "HIGH" -> c = Some ADEQUATE \/ c = Some EXCELLENT) /\
  (sq = "MEDIUM" -> c = Some INSUFFICIENT \/ c = Some MARGINAL) /\
  (sq = "LOW" ->
   c = Some INSUFFICIENT \/ (c = None /\ F64.lt neg_infinity (to_numeric v) = false)).
Proof.
  intros Ht Hr Hv Hsq Hc.
  destruct (transform_data_columns _ _ _ _ Ht)
    as (ps & st & ar & nb & Hps & Hst & _ & _ & _ & _ & _ & _ & Hact & Hcat & _ & Hsqc & _).
  pose proof (coerced_pressure_lookup _ _ _ _ _ Hps Hr Hv) as Hp.
  pose proof (column_lookup_default _ _ _ _ _ Hst Hr) as Hs.
  pose proof (lookup_map_Some activity_flag _ _ _
                (lookup_map_Some normalized_status _ _ _ Hs)) as Ha.
  rewrite Hsqc, (service_quality_lookup _ _ _ _ _ Ha Hp) in Hsq. injection Hsq as <-.
  rewrite Hcat, (lookup_map_Some _ _ _ _ Hp) in Hc. injection Hc as <-.
  set (p := to_numeric v) in *. set (a := activity_flag _) in *.
  destruct (service_quality_cell_inv a p) as (Hhigh & Hmed & Hlow & _).
  destruct (cut_pressure_rule p) as (_ & Hins & Hmar & Hade & _).
  split; [|split].
  - intros Hq. destruct (Hhigh Hq) as [_ H40].
    destruct (F64.le p 60%float) eqn:E60; [left; now apply Hade|right].
    apply cut_above_sixty. destruct (F64.lt 60%float p) eqn:Egt; [reflexivity|].
    destruct (F64Facts.lt_notna _ _ H40) as [_ Hnp].
    pose proof (F64Facts.not_lt_ge 60%float p eq_refl Hnp Egt). congruence.
  - intros Hq. destruct (Hmed Hq) as (_ & H20 & H40).
    destruct (F64.lt 20%float p) eqn:Egt; [right; now apply Hmar|left].
    destruct (F64Facts.le_notna _ _ H20) as [_ Hnp].
    apply Hins; [|now apply F64Facts.not_lt_ge].
    eapply F64Facts.lt_le_trans; [|exact H20]. reflexivity.
  - intros Hq. destruct (Hlow Hq) as [_ H20].
    destruct (F64.lt neg_infinity p) eqn:Einf.
    + left. apply Hins; [reflexivity|now apply F64Facts.lt_le].
    + right. split; [now apply cut_at_neg_infinity|reflexivity].
Qed.

Lemma Forall_loc_assign {A : Type} (P : A -> Prop) (mask : list bool) (value : A)
    (col : list A) :
  P value -> Forall P col -> Forall P (loc_assign mask value col).
Proof.
  intros Hv Hcol. revert mask. induction Hcol as [|x col Hx _ IH]; intros [|m mask];
    try constructor; [now destruct m|apply IH].
Qed.

Lemma activity_flag_range (v : pyval) :
  activity_flag v = 0 \/ activity_flag v = 1 \/ activity_flag v = 2.
Proof. unfold activity_flag. destruct (isin _ v); [|destruct (isin _ v)]; auto. Qed.

(** X11: in a returned feature frame [is_active] is 0, 1 or 2 and
    [service_quality] is one of the five tiers in every row; a row is
    INACTIVE exactly when its flag is 0, and an abandoned hydrant
    (flag 2) is always UNKNOWN. *)
Theorem feature_ranges (now1 now2 : datetime) (recs : list record) (f : frame) :
  transform_data now1 now2 recs = Ok (FeatureFrame f) ->
  Forall (fun a => a = 0 \/ a = 1 \/ a = 2) (is_active f) /\
  Forall (fun s => s ∈ ["HIGH"; "MEDIUM"; "LOW"; "INACTIVE"; "UNKNOWN"])
         (service_quality f) /\
  (forall (i : nat) (a : Z) (sq : string),
     is_active f !! i = Some a -> service_quality f !! i = Some sq ->
     (sq = "INACTIVE" <-> a = 0) /\ (a = 2 -> sq = "UNKNOWN")).
Proof.
  intros Ht.
  destruct (transform_data_columns _ _ _ _ Ht)
    as (ps & st & ar & nb & Hps & Hst & _ & _ & Hlen & _ & _ & _ & Hact & _ & _ & Hsq & _).
  split; [|split].
  - rewrite Hact. apply (Forall_map _ (fun _ => True)); [|now apply Forall_true].
    intros v _. apply activity_flag_range.
  - rewrite Hsq. unfold service_quality_column.
    repeat (apply Forall_loc_assign; [set_solver|]).
    apply Forall_replicate. set_solver.
  - intros i a sq Ha Hs.
    assert (i < length ps)%nat as Hi.
    { rewrite Hlen, <- (column_length _ _ _ Hst). rewrite Hact in Ha.
      apply lookup_lt_Some in Ha. now rewrite !length_map in Ha. }
    destruct (lookup_lt_is_Some_2 _ _ Hi) as [p Hp].
    rewrite Hact in Ha. rewrite Hsq, (service_quality_lookup _ _ _ _ _ Ha Hp) in Hs.
    injection Hs as <-. split; [apply service_quality_cell_inv|].
    intros ->. reflexivity.
Qed.

(** X12: a row whose coerced pressure is missing keeps a missing
    category, scores 100 and is UNKNOWN (INACTIVE when its flag is 0),
    while its [staticpressure] is replaced by the batch median: the
    derived features are computed before the imputation. *)
Theorem null_pressure_row (now1 now2 : datetime) (recs : list record) (f : frame)
    (pressures : list float) (i : nat) (r : record) (v : pyval) (a : Z) :
  transform_data now1 now2 recs = Ok (FeatureFrame f) ->
  coerced_pressure recs = Ok pressures ->
  recs !! i = Some r ->
  r !! "staticpressure" = Some v ->
  F64.isna (to_numeric v) = true ->
  is_active f !! i = Some a ->
  pressure_category f !! i = Some None /\
  pressure_risk_score f !! i = Some 100%float /\
  service_quality f !! i = Some (if 0 =? a then "INACTIVE" else "UNKNOWN") /\
  staticpressure f !! i = Some (median pressures).
Proof.
  intros Ht Hps Hr Hv Hn Ha.
  pose proof (service_quality_rule _ _ _ _ _ _ _ _ Ht Hr Hv Ha) as Hsq.
  destruct (transform_data_columns _ _ _ _ Ht)
    as (ps & st & ar & nb & Hps' & _ & _ & _ & _ & _ & _ & _ & _ & Hcat & Hrisk & _ & Himp & _).
  rewrite Hps in Hps'. injection Hps' as <-.
  pose proof (coerced_pressure_lookup _ _ _ _ _ Hps Hr Hv) as Hp.
  split; [|split; [|split]].
  - rewrite Hcat, (lookup_map_Some _ _ _ _ Hp). f_equal. now apply cut_pressure_rule.
  - rewrite Hrisk, (risk_scores_lookup _ _ _ Hp).
    rewrite F64Facts.fillna_isna by now apply raw_risk_score_isna.
    now rewrite round_hundred.
  - rewrite Hsq. f_equal. unfold service_quality_cell, between.
    change (F64.ge (to_numeric v) 40%float) with (F64.le 40%float (to_numeric v)).
    rewrite (F64Facts.lt_isna_l _ _ Hn), (F64Facts.le_isna_r 20%float _ Hn),
      (F64Facts.le_isna_r 40%float _ Hn).
    now rewrite !andb_false_r.
  - rewrite Himp, (lookup_map_Some _ _ _ _ Hp). unfold F64.fillna. now rewrite Hn.
Qed.

End TransformMore.

(** ** Text normalization *)

Section TextFacts.
Context `{PandasRuntime}.

Lemma is_space_to_upper (c : ascii) : PyStr.is_space (PyStr.to_upper c) = PyStr.is_space c.
Proof. destruct c as [[] [] [] [] [] [] [] []]; reflexivity. Qed.

Lemma lstrip_chars_upper (l : list ascii) :
  PyStr.lstrip_chars (map PyStr.to_upper l) = map PyStr.to_upper (PyStr.lstrip_chars l).
Proof.
  induction l as [|c l IH]; simpl; [reflexivity|].
  rewrite is_space_to_upper. now destruct (PyStr.is_space c).
Qed.

Lemma strip_chars_upper (l : list ascii) :
  PyStr.strip_chars (map PyStr.to_upper l) = map PyStr.to_upper (PyStr.strip_chars l).
Proof.
  unfold PyStr.strip_chars.
  now rewrite lstrip_chars_upper, <- map_rev, lstrip_chars_upper, map_rev.
Qed.

(** Upper-casing commutes with trimming. *)
Lemma upper_strip (s : string) : PyStr.upper (PyStr.strip s) = PyStr.strip (PyStr.upper s).
Proof.
  unfold PyStr.upper, PyStr.strip, PyStr.lift.
  now rewrite !list_ascii_of_string_of_list_ascii, strip_chars_upper.
Qed.

(** X13: the normalized [lifecyclestatus], and with it [is_active],
    does not depend on the letter case of an ASCII input: two ASCII
    texts with the same upper-cased reading give the same cell and the
    same flag. *)
Theorem status_ignores_case (s s' : string) (u : list ascii) :
  TextSpec.is_ascii s = true ->
  TextSpec.is_ascii s' = true ->
  TextSpec.upper_cased (TextSpec.chars s) u ->
  TextSpec.upper_cased (TextSpec.chars s') u ->
  normalized_status (PStr s) = normalized_status (PStr s') /\
  activity_flag (normalized_status (PStr s)) = activity_flag (normalized_status (PStr s')).
Proof.
  intros _ _ Hu Hu'.
  apply upper_cased_unique in Hu, Hu'.
  assert (PyStr.upper s = PyStr.upper s') as Heq.
  { unfold PyStr.upper, PyStr.lift. fold (TextSpec.chars s) (TextSpec.chars s').
    now rewrite <- Hu, <- Hu'. }
  assert (normalized_status (PStr s) = normalized_status (PStr s')) as Hn.
  { unfold normalized_status, astype_str, str_method, py_str.
    now rewrite !upper_strip, Heq. }
  split; [exact Hn|now rewrite Hn].
Qed.

End TextFacts.

(** ** The directory tree under ingestion and storage *)

Section TreeFacts.

(** What is written can be read back. *)
Lemma write_node_lookup (p : list string) (d : file_data) (n n' : node) :
  write_node p d n = Ok n' -> lookup_node p n' = Some (File d).
Proof.
  revert n n'. induction p as [|c rest IH]; intros [d0|es] n'; simpl; try discriminate.
  - now intros [= <-].
  - destruct (es !! c) as [child|] eqn:Ec.
    + destruct (write_node rest d child) as [child'|e] eqn:Ew; simpl; [|discriminate].
      intros [= <-]. simpl. rewrite lookup_insert_eq. now apply (IH child).
    + destruct rest; [|discriminate]. intros [= <-]. simpl. now rewrite lookup_insert_eq.
Qed.

(** Writing one file leaves every other file as it was. *)
Lemma write_node_other (p q : list string) (d d0 : file_data) (n n' : node) :
  write_node p d n = Ok n' -> q <> p ->
  lookup_node q n = Some (File d0) -> lookup_node q n' = Some (File d0).
Proof.
  revert q n n'. induction p as [|c rest IH]; intros q [d1|es] n'; simpl; try discriminate.
  - intros [= <-] Hq. destruct q; [congruence|discriminate].
  - intros Hw Hq Hl. destruct q as [|c' q']; [discriminate|]. simpl in Hl.
    destruct (es !! c') as [ch|] eqn:Ec'; [|discriminate].
    destruct (decide (c = c')) as [->|Hne].
    + rewrite Ec' in Hw.
      destruct (write_node rest d ch) as [child'|e] eqn:Ew; simpl in Hw; [|discriminate].
      injection Hw as <-. simpl. rewrite lookup_insert_eq.
      apply (IH q' ch child' Ew); [congruence|exact Hl].
    + assert (exists x, n' = Dir (<[c := x]> es)) as (x & ->).
      { destruct (es !! c) as [child|].
        - destruct (write_node rest d child); simpl in Hw; [|discriminate].
          injection Hw as <-. eauto.
        - destruct rest; [|discriminate]. injection Hw as <-. eauto. }
      simpl. now rewrite lookup_insert_ne, Ec' by exact Hne.
Qed.

(** [os.makedirs] leaves every file as it was. *)
Lemma makedirs_node_files (p q : list string) (d0 : file_data) (n n' : node) :
  makedirs_node p n = Ok n' ->
  lookup_node q n = Some (File d0) -> lookup_node q n' = Some (File d0).
Proof.
  revert q n n'. induction p as [|c rest IH]; intros q [d1|es] n'; simpl; try discriminate.
  - now intros [= <-].
  - destruct (makedirs_node rest (default (Dir ∅) (es !! c))) as [child'|e] eqn:Em;
      simpl; [|discriminate].
    intros [= <-] Hl. destruct q as [|c' q']; [discriminate|]. simpl in Hl |- *.
    destruct (es !! c') as [ch|] eqn:Ec'; [|discriminate].
    destruct (decide (c = c')) as [->|Hne].
    + rewrite lookup_insert_eq. rewrite Ec' in Em. simpl in Em. now apply (IH q' ch).
    + now rewrite lookup_insert_ne, Ec' by exact Hne.
Qed.

(** [os.makedirs] leaves a directory where it was asked to. *)
Lemma makedirs_node_dir (p : list string) (n n' : node) :
  makedirs_node p n = Ok n' -> exists es, lookup_node p n' = Some (Dir es).
Proof.
  revert n n'. induction p as [|c rest IH]; intros [d1|es] n'; simpl; try discriminate.
  - intros [= <-]. eauto.
  - destruct (makedirs_node rest _) as [child'|e] eqn:Em; simpl; [|discriminate].
    intros [= <-]. simpl. rewrite lookup_insert_eq. now apply (IH _ _ Em).
Qed.

(** With [exist_ok=True], an existing directory is left alone. *)
Lemma makedirs_node_exists (p : list string) (n : node) (es : gmap string node) :
  lookup_node p n = Some (Dir es) -> makedirs_node p n = Ok n.
Proof.
  revert n. induction p as [|c rest IH]; intros [d1|es0]; simpl; try discriminate.
  - reflexivity.
  - destruct (es0 !! c) as [child|] eqn:Ec; [|discriminate].
    intros Hl. simpl. rewrite (IH _ Hl). simpl. now rewrite insert_id.
Qed.

(** Directories stay directories. *)
Lemma makedirs_node_keeps_dirs (p q : list string) (n n' : node) (es : gmap string node) :
  makedirs_node p n = Ok n' -> lookup_node q n = Some (Dir es) ->
  exists es', lookup_node q n' = Some (Dir es').
Proof.
  revert q n n' es. induction p as [|c rest IH]; intros q [d1|es0] n' es; simpl;
    try discriminate.
  - intros [= <-]. eauto.
  - destruct (makedirs_node rest (default (Dir ∅) (es0 !! c))) as [child'|e] eqn:Em;
      simpl; [|discriminate].
    intros [= <-] Hl. destruct q as [|c' q']; [simpl; eauto|]. simpl in Hl |- *.
    destruct (es0 !! c') as [ch|] eqn:Ec'; [|discriminate].
    destruct (decide (c = c')) as [->|Hne].
    + rewrite lookup_insert_eq. rewrite Ec' in Em. simpl in Em. now apply (IH q' ch _ es).
    + rewrite lookup_insert_ne, Ec' by exact Hne. eauto.
Qed.

(** What a successful ingestion wrote: the body of the response, under
    the path it returns. *)
Lemma fetch_data_Ok_file (w w1 : world) (path : string) :
  fetch_data w = (Ok path, w1) ->
  exists (status : nat) (text : string) (body : payload),
    http w = HttpResponse status text body /\
    lookup_node (resolve w1 path) (root w1) = Some (File (TextFile body)).
Proof.
  unfold fetch_data. destruct (http w) as [status text body|text|text] eqn:Eh;
    try discriminate.
  destruct (_ && _); [discriminate|].
  unfold mbind, io_bind, utcnow, write_file, mret, io_ret.
  destruct (write_node _ _ _) as [n|e] eqn:Ew; [|discriminate].
  intros [= <- <-]. exists status, text, body. split; [reflexivity|].
  exact (write_node_lookup _ _ _ _ Ew).
Qed.

(** What a successful save wrote: the frame, in the partition of its
    first row's date. *)
Lemma save_parquet_Ok_file (df : dataframe) (processed_dir : string) (w w1 : world) :
  save_parquet df processed_dir w = (Ok tt, w1) ->
  exists (f : frame) (t : datetime),
    df = FeatureFrame f /\ head (load_date f) = Some t /\
    lookup_node
      (resolve w (path_join (path_join processed_dir ("load_date=" +:+ strftime_Ymd t))
                            "firehydrants.parquet"))
      (root w1)
    = Some (File (ParquetFile f)) /\
    log w1 = log w.
Proof.
  unfold save_parquet. destruct df as [recs|f]; [discriminate|].
  destruct (load_date f) as [|t rest] eqn:El; [discriminate|].
  unfold mbind, io_bind, makedirs, to_parquet, write_file.
  destruct (makedirs_node _ _) as [n1|e1] eqn:Em; [|discriminate].
  change (resolve (set_root n1 w)) with (resolve w). change (root (set_root n1 w)) with n1.
  destruct (write_node _ _ n1) as [n2|e2] eqn:Ew; [|discriminate].
  intros [= <-]. exists f, t. split; [reflexivity|]. split; [now rewrite El|].
  split; [exact (write_node_lookup _ _ _ _ Ew)|reflexivity].
Qed.

(** X14: importing [config] a second time changes nothing: after the
    first import both data directories exist, and the second import
    succeeds and leaves the world as it is. *)
Theorem import_config_idempotent (w w1 : world) :
  import_config w = (Ok tt, w1) ->
  is_Some (listdir w1 DATA_DIR) /\ is_Some (listdir w1 PROCESSED_DIR) /\
  import_config w1 = (Ok tt, w1).
Proof.
  unfold import_config, mbind, io_bind, makedirs.
  destruct (makedirs_node (resolve w DATA_DIR) (root w)) as [n1|e1] eqn:E1; [|discriminate].
  change (resolve (set_root n1 w)) with (resolve w). change (root (set_root n1 w)) with n1.
  destruct (makedirs_node (resolve w PROCESSED_DIR) n1) as [n2|e2] eqn:E2; [|discriminate].
  intros [= <-].
  change (resolve (set_root n2 (set_root n1 w))) with (resolve w).
  change (root (set_root n2 (set_root n1 w))) with n2.
  destruct (makedirs_node_dir _ _ _ E1) as (es1 & Hd1).
  destruct (makedirs_node_keeps_dirs _ _ _ _ _ E2 Hd1) as (es1' & Hd1').
  destruct (makedirs_node_dir _ _ _ E2) as (es2 & Hd2).
  unfold listdir. change (resolve (set_root n2 (set_root n1 w))) with (resolve w).
  change (root (set_root n2 (set_root n1 w))) with n2.
  rewrite Hd1', Hd2. split; [eauto|]. split; [eauto|].
  rewrite (makedirs_node_exists _ _ _ Hd1').
  change (resolve (set_root n2 (set_root n2 (set_root n1 w)))) with (resolve w).
  change (root (set_root n2 (set_root n2 (set_root n1 w)))) with n2.
  now rewrite (makedirs_node_exists _ _ _ Hd2).
Qed.

(** X15: what [fetch_data] returns is the path of a file that holds the
    response body: the request was answered with a status outside
    400..599, the file is [data/raw/firehydrants_<UTC time>.json], and
    [validate_data] on that path validates exactly the records of the
    body. *)
Theorem fetch_data_round_trip (w w1 : world) (path : string) :
  fetch_data w = (Ok path, w1) ->
  exists (status : nat) (text : string) (body : payload),
    http w = HttpResponse status text body /\
    (status < 400 \/ 600 <= status)%nat /\
    path = "data/raw/firehydrants_" +:+ strftime_compact (clock w (ticks w)) +:+ ".json" /\
    lookup_node (resolve w1 path) (root w1) = Some (File (TextFile body)) /\
    forall data : list record,
      body = JsonArray data ->
      validate_data path w1 = (Ok (validate_records data), w1).
Proof.
  unfold fetch_data. destruct (http w) as [status text body|text|text] eqn:Eh;
    try discriminate.
  destruct ((400 <=? status)%nat && (status <? 600)%nat) eqn:Es; [discriminate|].
  unfold mbind, io_bind, utcnow, write_file, mret, io_ret.
  set (w0 := {| root := root w; cwd := cwd w; clock := clock w; ticks := S (ticks w);
                http := http w; log := log w |}).
  set (p := DATA_DIR +:+ "/firehydrants_" +:+ strftime_compact (clock w (ticks w)) +:+ ".json").
  destruct (write_node (resolve w0 p) (TextFile body) (root w0)) as [n|e] eqn:Ew;
    [|discriminate].
  intros [= <- <-]. exists status, text, body.
  assert (lookup_node (resolve (set_root n w0) p) (root (set_root n w0))
          = Some (File (TextFile body))) as Hl by exact (write_node_lookup _ _ _ _ Ew).
  split; [reflexivity|]. split.
  { apply andb_false_iff in Es as [Hs|Hs].
    - left. now apply Nat.leb_gt in Hs.
    - right. now apply Nat.ltb_ge in Hs. }
  split; [reflexivity|]. split; [exact Hl|].
  intros data ->. unfold validate_data, read_json, mbind, io_bind, mret, io_ret.
  now rewrite Hl.
Qed.

(** X16: a request that fails saves nothing: when the request times
    out, fails, or is answered with a status in 400..599, [fetch_data]
    raises the corresponding error ([Timeout], [RequestException], the
    [HTTPError] of the answer) and leaves the world as it is: nothing
    is written and the clock is not read, so that no error page is
    saved as data. *)
Theorem fetch_data_failure_saves_nothing (w : world) :
  (forall (status : nat) (text : string) (body : payload),
     http w = HttpResponse status text body -> (400 <= status < 600)%nat) ->
  exists e : exn,
    fetch_data w = (Raise e, w) /\
    (forall text : string, http w = HttpTimeout text -> e = Exn Timeout text) /\
    (forall text : string, http w = HttpFailure text -> e = Exn RequestException text) /\
    (forall (status : nat) (text : string) (body : payload),
       http w = HttpResponse status text body -> e = Exn HTTPError text).
Proof.
  intros Hfail. unfold fetch_data.
  destruct (http w) as [status text body|text|text] eqn:Eh.
  - destruct (Hfail status text body eq_refl) as [Hlo Hhi].
    apply Nat.leb_le in Hlo. apply Nat.ltb_lt in Hhi. rewrite Hlo, Hhi.
    eexists. split; [reflexivity|].
    split; [discriminate|]. split; [discriminate|]. now intros ? ? ? [= _ <- _].
  - eexists. split; [reflexivity|].
    split; [now intros ? [= <-]|]. split; discriminate.
  - eexists. split; [reflexivity|].
    split; [discriminate|]. split; [now intros ? [= <-]|discriminate].
Qed.


(** The errors of the file system are no [ValueError]. *)
Lemma write_node_Raise_class (p : list string) (d : file_data) (n : node) (e : exn) :
  write_node p d n = Raise e -> exn_class_of e <> ValueError.
Proof.
  revert n. induction p as [|c rest IH]; intros [d1|es]; simpl; try discriminate.
  - now intros [= <-].
  - now intros [= <-].
  - destruct (es !! c) as [child|].
    + destruct (write_node rest d child) as [child'|e'] eqn:Ew; simpl; [discriminate|].
      intros [= <-]. exact (IH _ Ew).
    + destruct rest; [discriminate|]. now intros [= <-].
Qed.

Lemma makedirs_node_Raise_class (p : list string) (n : node) (e : exn) :
  makedirs_node p n = Raise e -> exn_class_of e <> ValueError.
Proof.
  revert n. induction p as [|c rest IH]; intros [d1|es]; simpl; try discriminate.
  - now intros [= <-].
  - now intros [= <-].
  - destruct (makedirs_node rest _) as [child'|e'] eqn:Em; simpl; [discriminate|].
    intros [= <-]. exact (IH _ Em).
Qed.

Lemma fetch_data_Raise_class (w w1 : world) (e : exn) :
  fetch_data w = (Raise e, w1) -> exn_class_of e <> ValueError.
Proof.
  unfold fetch_data. destruct (http w) as [status text body|text|text].
  - destruct (_ && _); [now intros [= <- _]|].
    unfold mbind, io_bind, utcnow, write_file, mret, io_ret.
    destruct (write_node _ _ _) as [n|e'] eqn:Ew; [discriminate|].
    intros [= <- _]. exact (write_node_Raise_class _ _ _ _ Ew).
  - now intros [= <- _].
  - now intros [= <- _].
Qed.

Lemma save_parquet_Raise_class (df : dataframe) (processed_dir : string) (w w1 : world)
    (e : exn) :
  save_parquet df processed_dir w = (Raise e, w1) -> exn_class_of e <> ValueError.
Proof.
  unfold save_parquet. destruct df as [recs|f]; [now intros [= <- _]|].
  destruct (load_date f) as [|t rest]; [now intros [= <- _]|].
  unfold mbind, io_bind, makedirs, to_parquet, write_file.
  destruct (makedirs_node _ _) as [n1|e1] eqn:Em.
  - destruct (write_node _ _ _) as [n2|e2] eqn:Ew; [discriminate|].
    intros [= <- _]. exact (write_node_Raise_class _ _ _ _ Ew).
  - intros [= <- _]. exact (makedirs_node_Raise_class _ _ _ Em).
Qed.

(** What [validate_data] returns passed [validate], record by record. *)
Lemma validate_data_Ok_valid (path : string) (w w1 : world) (valid : list record)
    (n : nat) :
  validate_data path w = (Ok (valid, n), w1) ->
  Forall (fun r => validate r = true) valid.
Proof.
  unfold validate_data, read_json, mbind, io_bind, mret, io_ret.
  destruct (lookup_node _ _) as [[[[data|]|f]|es]|]; try discriminate.
  rewrite validate_records_spec. intros [= <- _ _].
  apply Forall_forall. intros r Hr. apply list_elem_of_filter in Hr as [Hc _].
  now apply validate_complete.
Qed.

Lemma validate_data_Raise (path : string) (w w1 : world) (e : exn) :
  validate_data path w = (Raise e, w1) ->
  exn_class_of e <> ValueError \/ exn_str e = "invalid start byte".
Proof.
  unfold validate_data, read_json, mbind, io_bind, mret, io_ret.
  destruct (lookup_node _ _) as [[[[data|]|f]|es]|]; try discriminate;
    intros [= <- _]; first [now left|now right].
Qed.

(** X17: a successful [save_parquet] was given a feature frame with at
    least one row; the frame can be read back from
    [firehydrants.parquet] in the partition of its first row's
    [load_date], and every other file of the tree is as it was. *)
Theorem save_parquet_preserves_files (df : dataframe) (processed_dir : string)
    (w w1 : world) :
  save_parquet df processed_dir w = (Ok tt, w1) ->
  exists (f : frame) (t : datetime),
    df = FeatureFrame f /\ head (load_date f) = Some t /\
    lookup_node
      (resolve w (path_join (path_join processed_dir ("load_date=" +:+ strftime_Ymd t))
                            "firehydrants.parquet"))
      (root w1)
    = Some (File (ParquetFile f)) /\
    forall (q : list string) (d0 : file_data),
      q <> resolve w (path_join (path_join processed_dir ("load_date=" +:+ strftime_Ymd t))
                                "firehydrants.parquet") ->
      lookup_node q (root w) = Some (File d0) ->
      lookup_node q (root w1) = Some (File d0).
Proof.
  unfold save_parquet. destruct df as [recs|f]; [discriminate|].
  destruct (load_date f) as [|t rest] eqn:El; [discriminate|].
  unfold mbind, io_bind, makedirs, to_parquet, write_file.
  destruct (makedirs_node _ _) as [n1|e1] eqn:Em; [|discriminate].
  change (resolve (set_root n1 w)) with (resolve w). change (root (set_root n1 w)) with n1.
  destruct (write_node _ _ n1) as [n2|e2] eqn:Ew; [|discriminate].
  intros [= <-]. exists f, t. split; [reflexivity|]. split; [now rewrite El|].
  split; [exact (write_node_lookup _ _ _ _ Ew)|].
  intros q d0 Hq Hl. change (root (set_root n2 (set_root n1 w))) with n2.
  apply (write_node_other _ _ _ _ _ _ Ew Hq).
  exact (makedirs_node_files _ _ _ _ _ Em Hl).
Qed.

End TreeFacts.

(** ** The outcomes of a run *)

Section PipelineMore.
Context `{PandasRuntime}.

(** What a successful ingestion leaves of the world: one clock reading
    and one file more. *)
Lemma fetch_data_Ok_world (w w1 : world) (path : string) :
  fetch_data w = (Ok path, w1) ->
  cwd w1 = cwd w /\ clock w1 = clock w /\ ticks w1 = S (ticks w) /\
  http w1 = http w /\ log w1 = log w.
Proof.
  unfold fetch_data. destruct (http w) as [status text body|text|text] eqn:Eh;
    try discriminate.
  destruct (_ && _); [discriminate|].
  unfold mbind, io_bind, utcnow, write_file, mret, io_ret.
  destruct (write_node _ _ _) as [n|e]; [|discriminate].
  intros [= <- <-]. cbn [set_root cwd clock ticks http log].
  do 3 (split; [reflexivity|]). split; [exact Eh|reflexivity].
Qed.

Lemma validate_data_world (path : string) (w : world) : (validate_data path w).2 = w.
Proof.
  unfold validate_data, read_json, mbind, io_bind, mret, io_ret.
  now destruct (lookup_node _ _) as [[[[data|]|f]|es]|].
Qed.

(** A run that returns went through every stage. *)
Lemma run_pipeline_Ok_inv (run_id : string) (w0 w' : world) :
  run_pipeline run_id w0 = (Ok tt, w') ->
  exists (raw_file : string) (w1 : world) (valid : list record) (n : nat) (f : frame)
         (w3 : world),
    fetch_data (logger INFO [Lit ("Starting hydrant pipeline with run ID: " +:+ run_id)] w0).2
    = (Ok raw_file, w1) /\
    validate_data raw_file w1 = (Ok (valid, n), w1) /\
    valid <> [] /\
    transform_data (clock w1 (ticks w1)) (clock w1 (S (ticks w1))) valid
    = Ok (FeatureFrame f) /\
    root w3 = root w1 /\ cwd w3 = cwd w1 /\
    log w3 = (log w0 ++ [start_line run_id]) ++ [validation_line valid n] /\
    (exists w4, save_parquet (FeatureFrame f) "data/processed" w3 = (Ok tt, w4) /\
                root w' = root w4 /\ log w' = log w4 ++ [success_line]).
Proof.
  unfold run_pipeline, try_except, mbind at 1, io_bind at 1.
  cbn [logger log_line].
  set (ws := {| root := root w0; cwd := cwd w0; clock := clock w0; ticks := ticks w0;
                http := http w0; log := log w0 ++ [start_line run_id] |}).
  change ({| root := root w0; cwd := cwd w0; clock := clock w0; ticks := ticks w0;
             http := http w0;
             log := log w0
                    ++ [Event "hydrant_pipeline" INFO
                          [Lit ("Starting hydrant pipeline with run ID: " +:+ run_id)]] |})
    with ws.
  destruct (pipeline_body ws) as [[[]|e] wb] eqn:Eb.
  2:{ unfold pipeline_handler, mbind, io_bind, logger, send_alert, log_line, raise.
      discriminate. }
  intros [= <-]. revert Eb. unfold pipeline_body, mbind, io_bind.
  destruct (fetch_data ws) as [[raw_file|e] w1] eqn:Ef; [|discriminate].
  pose proof (validate_data_world raw_file w1) as Hvw.
  destruct (validate_data raw_file w1) as [[[valid n]|e] w2] eqn:Ev; [|discriminate].
  cbn [snd] in Hvw. subst w2. cbn [fst snd logger log_line].
  destruct valid as [|r0 rest] eqn:Evalid; [discriminate|]. rewrite <- Evalid in *.
  unfold mret at 1, io_ret at 1. unfold transform_stage.
  destruct (df_empty (RawFrame valid)) eqn:Ed.
  { unfold mret, io_ret. rewrite Ed. discriminate. }
  unfold mbind, io_bind, utcnow, lift_result. cbn [root cwd clock ticks http log].
  destruct (transform_data (clock w1 (ticks w1)) (clock w1 (S (ticks w1))) valid)
    as [df|e] eqn:Et; [|discriminate].
  destruct (df_empty df) eqn:Ee; [discriminate|].
  unfold mret at 1, io_ret at 1.
  match goal with |- context [save_parquet df _ ?w] => set (w3 := w) end.
  destruct (save_parquet df "data/processed" w3) as [[[]|e] w4] eqn:Es; [|discriminate].
  intros [= <-].
  assert (exists f, df = FeatureFrame f) as (f & ->).
  { destruct df as [recs|f]; [discriminate Es|eauto]. }
  destruct (fetch_data_Ok_world _ _ _ Ef) as (_ & _ & _ & _ & Hlog).
  exists raw_file, w1, valid, n, f, w3.
  split; [exact Ef|]. split; [exact Ev|]. split; [now rewrite Evalid|].
  split; [exact Et|]. split; [reflexivity|]. split; [reflexivity|].
  split; [unfold w3; cbn [log]; now rewrite Hlog|].
  exists w4. split; [exact Es|]. split; reflexivity.
Qed.

(** X18: a run alerts exactly when it fails: when it raises, the last
    line on the orchestrator's and the notifier's loggers is the alert
    for the error it raises; when it returns, these loggers got its
    start line, the validation line and the success line, and no
    alert. *)
Theorem run_pipeline_alerts_iff_fails (run_id : string) (w0 : world) :
  (exists (e : exn) (w' : world),
     run_pipeline run_id w0 = (Raise e, w') /\
     last (log w') = Some (failure_alert e)) \/
  (exists (valid : list record) (n : nat) (w' : world),
     run_pipeline run_id w0 = (Ok tt, w') /\
     log w' = log w0 ++ [start_line run_id; validation_line valid n; success_line]).
Proof.
  destruct (run_pipeline run_id w0) as [[[]|e] w'] eqn:Er.
  - right. destruct (run_pipeline_Ok_inv _ _ _ Er)
      as (raw & w1 & valid & n & f & w3 & _ & _ & _ & _ & _ & _ & Hlog3 & w4 & Hs & _ & Hlog).
    exists valid, n, w'. split; [reflexivity|].
    destruct (save_parquet_Ok_file _ _ _ _ Hs) as (_ & _ & _ & _ & _ & Hl4).
    rewrite Hlog, Hl4, Hlog3, <- !app_assoc. reflexivity.
  - left. exists e, w'. split; [reflexivity|].
    revert Er. unfold run_pipeline, try_except, mbind at 1, io_bind at 1.
    cbn [logger log_line].
    destruct (pipeline_body _) as [[[]|e0] wb]; [discriminate|].
    unfold pipeline_handler, mbind, io_bind, logger, send_alert, log_line, raise.
    intros [= <- <-]. cbn [log].
    apply last_snoc.
Qed.

(** X19: a run that returns has written what it validated: the API
    answered with an array of records, at least one of them is valid,
    and the partition of the run's date holds, as
    [firehydrants.parquet], the frame [transform_data] makes of the
    valid records at the two clock readings that follow ingestion. *)
Theorem run_pipeline_success (run_id : string) (w0 w' : world) :
  run_pipeline run_id w0 = (Ok tt, w') ->
  exists (status : nat) (text : string) (data valid : list record) (n : nat) (f : frame),
    http w0 = HttpResponse status text (JsonArray data) /\
    validate_records data = (valid, n) /\
    valid <> [] /\
    transform_data (clock w0 (S (ticks w0))) (clock w0 (S (S (ticks w0)))) valid
    = Ok (FeatureFrame f) /\
    lookup_node
      (resolve w0
         (path_join
            (path_join "data/processed"
               ("load_date=" +:+ strftime_Ymd (to_date (clock w0 (S (ticks w0))))))
            "firehydrants.parquet"))
      (root w')
    = Some (File (ParquetFile f)).
Proof.
  intros Er.
  destruct (run_pipeline_Ok_inv _ _ _ Er)
    as (raw & w1 & valid & n & f & w3 & Hf & Hv & Hne & Ht & Hroot & Hcwd & _
        & w4 & Hs & Hroot' & _).
  destruct (fetch_data_Ok_world _ _ _ Hf) as (Hc1 & Hk1 & Ht1 & Hh1 & _).
  cbn [logger log_line snd cwd clock ticks http] in Hc1, Hk1, Ht1, Hh1.
  destruct (fetch_data_Ok_file _ _ _ Hf) as (status & text & body & Hh & Hl).
  cbn [logger log_line snd http] in Hh.
  assert (exists data, body = JsonArray data /\ validate_records data = (valid, n))
    as (data & -> & Hvr).
  { revert Hv. unfold validate_data, read_json, mbind, io_bind, mret, io_ret.
    rewrite Hl. destruct body as [data|]; [|discriminate]. intros [= Hvr]. eauto. }
  rewrite Ht1, Hk1 in Ht.
  exists status, text, data, valid, n, f.
  split; [exact Hh|]. split; [exact Hvr|]. split; [exact Hne|]. split; [exact Ht|].
  destruct (save_parquet_Ok_file _ _ _ _ Hs)
    as (f' & t & [= <-] & Hhead & Hlook & _).
  destruct (transform_data_columns _ _ _ _ Ht)
    as (_ & _ & _ & _ & _ & _ & _ & _ & _ & _ & _ & _ & _ & _ & _ & _ & _ & Hld & _).
  rewrite Hld in Hhead. destruct valid as [|r0 rest]; [congruence|].
  simpl in Hhead. injection Hhead as <-.
  rewrite Hroot'. unfold resolve in Hlook |- *. rewrite Hcwd, Hc1 in Hlook. exact Hlook.
Qed.

(** X20: an error of ingestion or of validation is the error of the
    run: when [fetch_data] raises, or returns a file that
    [validate_data] cannot read, the run raises that same error after
    alerting, and leaves the directory tree as the failing stage left
    it. *)
Theorem early_failure_propagates (run_id : string) (w0 w1 : world) (e : exn) :
  (fetch_data (logger INFO [Lit ("Starting hydrant pipeline with run ID: " +:+ run_id)] w0).2
   = (Raise e, w1) \/
   exists (raw_file : string) (wf : world),
     fetch_data (logger INFO [Lit ("Starting hydrant pipeline with run ID: " +:+ run_id)] w0).2
     = (Ok raw_file, wf) /\
     validate_data raw_file wf = (Raise e, w1)) ->
  exists w' : world,
    run_pipeline run_id w0 = (Raise e, w') /\
    last (log w') = Some (failure_alert e) /\
    root w' = root w1.
Proof.
  intros Hfail.
  destruct (run_pipeline_failure run_id w0 w1 e) as (w' & Hrun & Hroot & _ & Hlog).
  - unfold pipeline_body, mbind, io_bind.
    destruct Hfail as [->|(raw_file & wf & -> & ->)]; reflexivity.
  - exists w'. split; [exact Hrun|]. split; [|exact Hroot].
    rewrite Hlog.
    match goal with |- last (?l ++ [?a; ?b]) = _ =>
      change (l ++ [a; b]) with (l ++ [a] ++ [b]); rewrite (app_assoc l [a] [b]) end.
    apply last_snoc.
Qed.

(** X7: the second gate of the orchestrator never fires: whatever a
    run raises, it is not the [ValueError] of an empty transformed
    frame. The records that reach [transform_data] passed [validate]
    and are at least one, and what [transform_data] returns for them is
    not empty. *)
Theorem empty_transform_gate_never_fires (run_id : string) (w0 w' : world) (e : exn) :
  run_pipeline run_id w0 = (Raise e, w') ->
  e <> Exn ValueError EMPTY_TRANSFORM.
Proof.
  unfold run_pipeline, try_except, mbind at 1, io_bind at 1.
  cbn [logger log_line].
  destruct (pipeline_body _) as [[[]|e0] wb] eqn:Eb; [discriminate|].
  unfold pipeline_handler, mbind, io_bind, logger, send_alert, log_line, raise.
  intros [= <- _]. revert Eb. unfold pipeline_body, mbind, io_bind.
  destruct (fetch_data _) as [[raw_file|e1] w1] eqn:Ef.
  2:{ intros [= <- _] ->. now apply (fetch_data_Raise_class _ _ _ Ef). }
  destruct (validate_data raw_file w1) as [[[valid n]|e2] w2] eqn:Ev.
  2:{ intros [= <- _] ->. destruct (validate_data_Raise _ _ _ _ Ev) as [Hc|Hs];
        [now apply Hc|discriminate Hs]. }
  pose proof (validate_data_Ok_valid _ _ _ _ _ Ev) as Hvalid.
  cbn [fst snd logger log_line].
  destruct valid as [|r0 rest] eqn:Evalid.
  { unfold raise. intros [= <- _]. discriminate. }
  rewrite <- Evalid in *. unfold mret at 1, io_ret at 1.
  assert (df_empty (RawFrame valid) = false) as Hdf.
  { apply validated_frame_not_empty; [now rewrite Evalid|exact Hvalid]. }
  unfold transform_stage. rewrite Hdf.
  unfold mbind, io_bind, utcnow, lift_result. cbn [root cwd clock ticks http log].
  destruct (transform_data _ _ valid) as [df|e3] eqn:Et.
  2:{ intros [= <- _] ->. destruct (transform_data_Raise_class _ _ _ _ Et); discriminate. }
  rewrite (transform_data_Ok_not_empty _ _ _ _ Hdf Et).
  unfold mret at 1, io_ret at 1.
  destruct (save_parquet df _ _) as [[[]|e4] w4] eqn:Es; [discriminate|].
  intros [= <- _] ->. now apply (save_parquet_Raise_class _ _ _ _ _ Es).
Qed.

End PipelineMore.

(** ** Worked batches *)

Import Sample.

Lemma batch_transformed :
  transform_data noon noon batch = Ok (FeatureFrame (features batch)).
Proof. vm_compute. reflexivity. Qed.

(** The raw file of three records, one of them without [longitude]:
    two valid records, one invalid. *)
Lemma validate_data_partition_witness :
  exists (valid_records : list record) (invalid_count : nat),
    validate_data raw_file (ingested (JsonArray raw_three))
    = (Ok (valid_records, invalid_count), ingested (JsonArray raw_three)) /\
    valid_records = filter complete raw_three /\
    valid_records `sublist_of` raw_three /\
    invalid_count = length (filter (λ r, ¬ complete r) raw_three) /\
    (length valid_records + invalid_count)%nat = length raw_three.
Proof.
  apply validate_data_partition. vm_compute. reflexivity.
Defined.

Example validate_data_three :
  let r := validate_records raw_three in
  (length r.1, r.2, map (fun x : record => x !! "objectid") r.1)
  = (2%nat, 1%nat, [Some (PStr "1"); Some (PStr "3")]).
Proof. vm_compute. reflexivity. Qed.

(** Rows 1 and 3 of the sample batch: Abandoned is upper-cased and
    flagged 2, the padded AC is trimmed and flagged 1. *)
Lemma is_active_rule_witness :
  (lifecyclestatus (features batch) !! 1%nat = Some (PStr "ABANDONED") /\
   TextSpec.trimmed_upper "Abandoned" "ABANDONED" /\
   is_active (features batch) !! 1%nat = Some 2) /\
  (lifecyclestatus (features batch) !! 3%nat = Some (PStr "AC") /\
   TextSpec.trimmed_upper " AC " "AC" /\
   is_active (features batch) !! 3%nat = Some 1).
Proof.
  split.
  - destruct (is_active_rule noon noon batch (features batch) 1
                (hydrant (PStr "2") (PStr "Abandoned") (PStr "north east") (PStr "40")
                         (PStr "mt. airy"))
                (PStr "Abandoned") batch_transformed eq_refl eq_refl)
      as (s & a & Hs & Ha & _ & Hspec & _ & Htwo & _).
    assert (s = "ABANDONED") as -> by (vm_compute in Hs; congruence).
    rewrite (Htwo ltac:(apply elem_of_cons; right; apply elem_of_cons; now left)) in Ha.
    split; [exact Hs|]. split; [|exact Ha].
    now apply (Hspec "Abandoned" eq_refl eq_refl).
  - destruct (is_active_rule noon noon batch (features batch) 3
                (hydrant (PStr "4") (PStr " AC ") (PStr " central ") (PStr "30")
                         (PStr "over-the-rhine"))
                (PStr " AC ") batch_transformed eq_refl eq_refl)
      as (s & a & Hs & Ha & Hrule & Hspec & _).
    assert (s = "AC") as -> by (vm_compute in Hs; congruence).
    rewrite Hrule in Ha.
    split; [exact Hs|]. split; [|exact Ha].
    now apply (Hspec " AC " eq_refl eq_refl).
Defined.

Example is_active_examples :
  map activity_flag
      (map normalized_status
           [PStr "ab"; PStr "Abandoned"; PStr "Active"; PStr "AC"; PStr "Retired"; PNone])
  = [2; 2; 1; 1; 0; 0].
Proof. vm_compute. reflexivity. Qed.

(** Rows 0, 1 and 2 of the sample batch sit on the boundaries 20, 40
    and 60. *)
Lemma pressure_category_intervals_witness :
  pressure_category (features batch) !! 0%nat = Some (Some INSUFFICIENT) /\
  pressure_category (features batch) !! 1%nat = Some (Some MARGINAL) /\
  pressure_category (features batch) !! 2%nat = Some (Some ADEQUATE).
Proof.
  split; [|split].
  - destruct (pressure_category_intervals noon noon batch (features batch) 0
                (hydrant (PStr "1") (PStr "ab") (PStr "north east") (PStr "20")
                         (PStr "clifton"))
                (PStr "20") batch_transformed eq_refl eq_refl)
      as (c & -> & _ & Hc & _).
    f_equal. apply Hc; vm_compute; reflexivity.
  - destruct (pressure_category_intervals noon noon batch (features batch) 1
                (hydrant (PStr "2") (PStr "Abandoned") (PStr "north east") (PStr "40")
                         (PStr "mt. airy"))
                (PStr "40") batch_transformed eq_refl eq_refl)
      as (c & -> & _ & _ & Hc & _).
    f_equal. apply Hc; vm_compute; reflexivity.
  - destruct (pressure_category_intervals noon noon batch (features batch) 2
                (hydrant (PStr "3") (PStr "Active") (PStr "CENTRAL") (PStr "60")
                         (PStr "o'bryonville"))
                (PStr "60") batch_transformed eq_refl eq_refl)
      as (c & -> & _ & _ & _ & Hc & _).
    f_equal. apply Hc; vm_compute; reflexivity.
Defined.

Example pressure_category_boundaries :
  map (cut pressure_bins pressure_labels)
      [20; 2001 / 100; 40; 4001 / 100; 60; 6001 / 100; infinity; neg_infinity; nan]%float
  = [Some INSUFFICIENT; Some MARGINAL; Some MARGINAL; Some ADEQUATE; Some ADEQUATE;
     Some EXCELLENT; Some EXCELLENT; None; None].
Proof. vm_compute. reflexivity. Qed.

Lemma batch_pressures :
  coerced_pressure batch = Ok [20; 40; 60; 30; nan]%float.
Proof. vm_compute. reflexivity. Qed.

(** In the sample batch the largest pressure is 60: row 0, at 20,
    scores 66.67, row 1, at 40, scores 33.33, row 3, at 30, scores
    50.00, and row 4, without pressure, scores 100. *)
Lemma pressure_risk_score_formula_witness :
  series_max [20; 40; 60; 30; nan]%float = 60%float /\
  pressure_risk_score (features batch) !! 0%nat = Some (6667 / 100)%float /\
  pressure_risk_score (features batch) !! 1%nat = Some (3333 / 100)%float /\
  pressure_risk_score (features batch) !! 3%nat = Some 50%float /\
  pressure_risk_score (features batch) !! 4%nat = Some 100%float.
Proof.
  assert (exists q, q ∈ [20; 40; 60; 30; nan]%float /\ F64.isna q = false) as Hq.
  { exists 20%float. split; [apply elem_of_cons; now left|reflexivity]. }
  split; [vm_compute; reflexivity|]. split; [|split; [|split]].
  - destruct (pressure_risk_score_formula noon noon batch (features batch)
                [20; 40; 60; 30; nan]%float 0 20%float batch_transformed batch_pressures
                Hq eq_refl)
      as (_ & s & -> & _ & _ & _ & _ & Hs & _).
    f_equal. apply Hs; vm_compute; reflexivity.
  - destruct (pressure_risk_score_formula noon noon batch (features batch)
                [20; 40; 60; 30; nan]%float 1 40%float batch_transformed batch_pressures
                Hq eq_refl)
      as (_ & s & -> & _ & _ & _ & _ & _ & Hs & _).
    f_equal. apply Hs; vm_compute; reflexivity.
  - destruct (pressure_risk_score_formula noon noon batch (features batch)
                [20; 40; 60; 30; nan]%float 3 30%float batch_transformed batch_pressures
                Hq eq_refl)
      as (_ & s & -> & _ & _ & _ & Hs & _).
    f_equal. apply Hs; vm_compute; reflexivity.
  - destruct (pressure_risk_score_formula noon noon batch (features batch)
                [20; 40; 60; 30; nan]%float 4 nan batch_transformed batch_pressures
                Hq eq_refl)
      as (_ & s & -> & _ & _ & Hs & _).
    f_equal. apply Hs. reflexivity.
Defined.

(** C5 as stated fails where the quotient is 0/0: in a batch whose only
    pressure is 0, that pressure is not missing and is the batch
    maximum, the row scores 100, and 100 is not the stated
    [100 - (p / maxP * 100)] rounded to two decimals, which is NaN. *)
Lemma pressure_risk_score_counterexample :
  transform_data noon noon at_zero = Ok (FeatureFrame (features at_zero)) /\
  coerced_pressure at_zero = Ok [0%float] /\
  F64.isna 0%float = false /\
  series_max [0%float] = 0%float /\
  pressure_risk_score (features at_zero) !! 0%nat = Some 100%float /\
  100%float <> F64.round_decimals 2 (100 - (0 / series_max [0%float] * 100))%float.
Proof.
  repeat split; try (vm_compute; reflexivity).
  intros Heq. apply (f_equal F64.isna) in Heq. vm_compute in Heq. discriminate.
Qed.

Lemma unmeasured_transformed :
  transform_data noon noon unmeasured = Ok (FeatureFrame (features unmeasured)).
Proof. vm_compute. reflexivity. Qed.

Lemma unmeasured_pressures : coerced_pressure unmeasured = Ok [nan; nan].
Proof. vm_compute. reflexivity. Qed.

(** A batch of two hydrants whose pressures are the text n/a and a
    null. *)
Lemma all_null_pressure_stays_null_witness :
  Forall (fun s => F64.isna s = true) (staticpressure (features unmeasured)) /\
  pressure_risk_score (features unmeasured) = [100; 100]%float /\
  pressure_category (features unmeasured) = [None; None].
Proof.
  destruct (all_null_pressure_stays_null noon noon unmeasured (features unmeasured)
              [nan; nan] unmeasured_transformed unmeasured_pressures)
    as (_ & _ & _ & Hp & Hs & Hc).
  - repeat constructor.
  - split; [exact Hp|]. split; [exact Hs|exact Hc].
Defined.





(** C1 at an active hydrant at exactly 40 PSI: the condition
    [staticpressure >= 40] of the HIGH tier holds, and the row is MEDIUM. *)
Theorem service_quality_at_forty :
  transform_data noon noon at_forty = Ok (FeatureFrame (features at_forty)) /\
  coerced_pressure at_forty = Ok [40%float] /\
  is_active (features at_forty) = [1] /\
  F64.ge 40%float 40%float = true /\
  service_quality (features at_forty) = ["MEDIUM"].
Proof. repeat split; vm_compute; reflexivity. Qed.

(** The sample frame written twice into a fresh processed directory:
    the partition of 2025-01-12 holds the one file. *)
Lemma save_parquet_overwrites_witness :
  exists w1 w2 : world,
    save_parquet (FeatureFrame (features batch)) "data/processed" (started (JsonArray batch))
    = (Ok tt, w1) /\
    save_parquet (FeatureFrame (features batch)) "data/processed" w1 = (Ok tt, w2) /\
    listdir w1 "data/processed/load_date=2025-01-12"
    = Some {[ "firehydrants.parquet" := File (ParquetFile (features batch)) ]} /\
    listdir w2 "data/processed/load_date=2025-01-12"
    = Some {[ "firehydrants.parquet" := File (ParquetFile (features batch)) ]}.
Proof.
  assert (entries_at
            (resolve (started (JsonArray batch))
               (path_join "data/processed" ("load_date=" +:+ strftime_Ymd (to_date noon))))
            (root (started (JsonArray batch))) = ∅) as Hnone
    by (vm_compute; reflexivity).
  destruct (save_parquet_overwrites (features batch) (features batch) (to_date noon)
              "data/processed" (started (JsonArray batch)))
    as (w1 & w2 & H1 & _ & H2 & _ & Hone & _).
  - vm_compute. reflexivity.
  - vm_compute. reflexivity.
  - split; [vm_compute; exact I|]. rewrite Hnone. intros child Hc.
    rewrite lookup_empty in Hc. discriminate.
  - rewrite Hnone, dom_empty_L in Hone.
    destruct (Hone (empty_subseteq _)) as [Hl1 Hl2].
    exists w1, w2. split; [exact H1|]. split; [exact H2|]. split; [exact Hl1|exact Hl2].
Defined.

(** The API answers with an empty array: the run stops at the quality
    gate, the alert is the last line of the log, and the processed
    directory stays empty. *)
Lemma no_valid_data_fails_witness :
  exists w' : world,
    run_pipeline "1a2b3c4d" (started (JsonArray []))
    = (Raise (Exn ValueError "No valid data to process after validation."), w') /\
    last (log w')
    = Some (Event "firehydrant_pipeline.alerts" WARNING
                  [Lit "ALERT: ";
                   Lit "Hydrant pipeline failed: No valid data to process after validation."]) /\
    listdir w' "data/processed" = Some ∅.
Proof.
  destruct (no_valid_data_fails "1a2b3c4d" raw_file 0 (started (JsonArray []))
              (fetch_data
                 (logger INFO [Lit ("Starting hydrant pipeline with run ID: " +:+ "1a2b3c4d")]
                         (started (JsonArray []))).2).2
              (fetch_data
                 (logger INFO [Lit ("Starting hydrant pipeline with run ID: " +:+ "1a2b3c4d")]
                         (started (JsonArray []))).2).2)
    as (w' & Hrun & Hlast & _ & Hls).
  - vm_compute. reflexivity.
  - vm_compute. reflexivity.
  - exists w'. split; [exact Hrun|]. split; [exact Hlast|].
    rewrite Hls. vm_compute. reflexivity.
Defined.

Example pipeline_end_to_end :
  let out := run_pipeline "1a2b3c4d" (started (JsonArray raw_three)) in
  out.1 = Ok tt /\
  dom <$> listdir out.2 "data/processed" = Some {[ "load_date=2025-01-12" ]} /\
  dom <$> listdir out.2 "data/processed/load_date=2025-01-12"
  = Some {[ "firehydrants.parquet" ]}.
Proof. repeat split; vm_compute; reflexivity. Qed.

(** ** Worked batches, continued *)

(** The sample batch: five records in, five cells in each column. *)
Lemma transform_data_shape_witness :
  length (objectid (features batch)) = length batch /\
  length (service_quality (features batch)) = length batch /\
  length (load_timestamp (features batch)) = length batch.
Proof.
  pose proof (transform_data_shape noon noon batch (features batch) batch_transformed) as Hs.
  cbv zeta in Hs.
  destruct Hs as (_ & Ho & _ & _ & _ & _ & _ & _ & _ & _ & _ & _ & _ & _ & Hq & _ & Ht).
  split; [exact Ho|]. split; [exact Hq|exact Ht].
Defined.

(** The sample batch, transformed at noon of 2025-01-12. *)
Lemma transform_data_lineage_witness :
  head (load_date (features batch)) = Some (to_date noon) /\
  Forall (fun t => t = noon) (load_timestamp (features batch)).
Proof.
  destruct (transform_data_lineage noon noon batch (features batch) batch_transformed)
    as (_ & Hts & Hhead & _).
  split; [exact Hhead|exact Hts].
Defined.

(** The sample batch with [neighborhood] removed from every record. *)
Lemma transform_data_missing_column_witness :
  exists e : exn, transform_data noon noon (map (delete "neighborhood") batch) = Raise e.
Proof.
  destruct (transform_data_missing_column noon noon (map (delete "neighborhood") batch)
              "neighborhood") as (e & He & _).
  - reflexivity.
  - apply (bool_decide_unpack _). vm_compute. reflexivity.
  - repeat (constructor; [vm_compute; reflexivity|]). constructor.
  - exists e. exact He.
Defined.

(** The API answers with an empty array: the first gate fires, with a
    [ValueError] that is not the one of the second gate. *)
Lemma empty_transform_gate_never_fires_witness :
  (run_pipeline "1a2b3c4d" (started (JsonArray []))).1
  = Raise (Exn ValueError NO_VALID_DATA) /\
  Exn ValueError NO_VALID_DATA <> Exn ValueError EMPTY_TRANSFORM.
Proof.
  assert (run_pipeline "1a2b3c4d" (started (JsonArray []))
          = (Raise (Exn ValueError NO_VALID_DATA),
             (run_pipeline "1a2b3c4d" (started (JsonArray []))).2)) as Hrun
    by (vm_compute; reflexivity).
  split; [now rewrite Hrun|].
  exact (empty_transform_gate_never_fires _ _ _ _ Hrun).
Defined.

(** In the sample batch row 0 keeps its 20 PSI, and row 4, without
    pressure, gets the median of 20, 30, 40 and 60. *)
Lemma imputation_keeps_measured_witness :
  staticpressure (features batch) !! 0%nat = Some 20%float /\
  staticpressure (features batch) !! 4%nat = Some 35%float.
Proof.
  destruct (imputation_keeps_measured noon noon batch (features batch)
              [20; 40; 60; 30; nan]%float batch_transformed batch_pressures)
    as (Hrow & _ & _).
  split.
  - exact (Hrow 0%nat 20%float eq_refl).
  - exact (Hrow 4%nat nan eq_refl).
Defined.

Lemma surveyed_transformed :
  @transform_data decimal_runtime noon noon surveyed = Ok (FeatureFrame surveyed_features).
Proof. vm_compute. reflexivity. Qed.

(** Two surveyed hydrants: the coordinates 39.10371 and -84.51264 give
    the key 39.104_-84.513, the missing ones give nan_nan. *)
Lemma geo_cluster_null_safe_witness :
  geo_cluster surveyed_features !! 0%nat = Some "39.104_-84.513" /\
  geo_cluster surveyed_features !! 1%nat = Some "nan_nan".
Proof.
  assert (float_column (latitude surveyed_features)) as Hlat.
  { exists nan. split; [|now left].
    apply elem_of_cons. right. apply elem_of_cons. left. vm_compute. reflexivity. }
  assert (float_column (longitude surveyed_features)) as Hlon.
  { exists nan. split; [|now left].
    apply elem_of_cons. right. apply elem_of_cons. left. vm_compute. reflexivity. }
  split.
  - destruct (@geo_cluster_null_safe decimal_runtime noon noon surveyed
                surveyed_features 0
                (<["latitude" := PFloat (3910371 / 100000)%float]>
                   (<["longitude" := PFloat (-8451264 / 100000)%float]>
                      (hydrant (PStr "10") (PStr "Active") (PStr "central") (PStr "55")
                               (PStr "clifton"))))
                (PFloat (3910371 / 100000)%float) (PFloat (-8451264 / 100000)%float)
                surveyed_transformed eq_refl eq_refl eq_refl) as [_ Hfloat].
    destruct (Hfloat Hlat Hlon) as [_ Hkey].
    rewrite (Hkey eq_refl eq_refl). vm_compute. reflexivity.
  - destruct (@geo_cluster_null_safe decimal_runtime noon noon surveyed
                surveyed_features 1
                (<["latitude" := PNone]>
                   (<["longitude" := PStr ""]>
                      (hydrant (PStr "11") (PStr "Active") (PStr "central") (PStr "45")
                               (PStr "clifton"))))
                PNone (PStr "") surveyed_transformed eq_refl eq_refl eq_refl) as [Hnan _].
    apply Hnan; vm_compute; reflexivity.
Defined.

(** Row 2 of the sample batch, active at 60 PSI, is HIGH and ADEQUATE. *)
Lemma tier_agrees_with_category_witness :
  exists (sq : string) (c : option category),
    service_quality (features batch) !! 2%nat = Some sq /\
    pressure_category (features batch) !! 2%nat = Some c /\
    sq = "HIGH" /\ (c = Some ADEQUATE \/ c = Some EXCELLENT).
Proof.
  exists "HIGH", (Some ADEQUATE).
  split; [reflexivity|]. split; [reflexivity|]. split; [reflexivity|].
  apply (tier_agrees_with_category noon noon batch (features batch) 2
           (hydrant (PStr "3") (PStr "Active") (PStr "CENTRAL") (PStr "60")
                    (PStr "o'bryonville"))
           (PStr "60") "HIGH" (Some ADEQUATE) batch_transformed eq_refl eq_refl eq_refl
           eq_refl).
  reflexivity.
Defined.

(** The flags and the tiers of the sample batch. *)
Lemma feature_ranges_witness :
  Forall (fun a => a = 0 \/ a = 1 \/ a = 2) (is_active (features batch)) /\
  Forall (fun s => s ∈ ["HIGH"; "MEDIUM"; "LOW"; "INACTIVE"; "UNKNOWN"])
         (service_quality (features batch)).
Proof.
  destruct (feature_ranges noon noon batch (features batch) batch_transformed)
    as (Ha & Hs & _).
  split; [exact Ha|exact Hs].
Defined.

(** Row 4 of the sample batch: retired, and without pressure. *)
Lemma null_pressure_row_witness :
  pressure_category (features batch) !! 4%nat = Some None /\
  pressure_risk_score (features batch) !! 4%nat = Some 100%float /\
  service_quality (features batch) !! 4%nat = Some "INACTIVE" /\
  staticpressure (features batch) !! 4%nat = Some 35%float.
Proof.
  exact (null_pressure_row noon noon batch (features batch) [20; 40; 60; 30; nan]%float 4
           (hydrant (PStr "5") (PStr "Retired") PNone PNone PNone) PNone 0
           batch_transformed batch_pressures eq_refl eq_refl eq_refl eq_refl).
Defined.

(** The spellings ac and AC of the status, both padded. *)
Lemma status_ignores_case_witness :
  normalized_status (PStr " ac") = normalized_status (PStr " AC") /\
  activity_flag (normalized_status (PStr " ac"))
  = activity_flag (normalized_status (PStr " AC")).
Proof.
  apply (status_ignores_case " ac" " AC" (TextSpec.chars " AC")).
  - reflexivity.
  - reflexivity.
  - repeat constructor.
  - repeat constructor.
Defined.

(** The fresh working directory, imported twice. *)
Lemma import_config_idempotent_witness :
  is_Some (listdir (started (JsonArray [])) DATA_DIR) /\
  is_Some (listdir (started (JsonArray [])) PROCESSED_DIR) /\
  import_config (started (JsonArray [])) = (Ok tt, started (JsonArray [])).
Proof.
  apply (import_config_idempotent (fresh (JsonArray []))). vm_compute. reflexivity.
Defined.

(** The three raw records, fetched at noon and read back. *)
Lemma fetch_data_round_trip_witness :
  lookup_node (resolve (ingested (JsonArray raw_three)) raw_file)
              (root (ingested (JsonArray raw_three)))
  = Some (File (TextFile (JsonArray raw_three))) /\
  validate_data raw_file (ingested (JsonArray raw_three))
  = (Ok (validate_records raw_three), ingested (JsonArray raw_three)).
Proof.
  destruct (fetch_data_round_trip (started (JsonArray raw_three))
              (ingested (JsonArray raw_three)) raw_file)
    as (status & text & body & Hh & _ & _ & Hl & Hv).
  - vm_compute. reflexivity.
  - change (http (started (JsonArray raw_three)))
      with (HttpResponse 200 "" (JsonArray raw_three)) in Hh.
    injection Hh as _ _ <-. split; [exact Hl|exact (Hv raw_three eq_refl)].
Defined.

(** The API answers 503: the [HTTPError] is raised and the world is as
    it was. *)
Lemma fetch_data_failure_saves_nothing_witness :
  fetch_data unavailable
  = (Raise (Exn HTTPError "503 Server Error: Service Unavailable"), unavailable).
Proof.
  destruct (fetch_data_failure_saves_nothing unavailable) as (e & He & _ & _ & Hhttp).
  - intros status text body [= <- _ _]. lia.
  - rewrite He. now rewrite (Hhttp _ _ _ eq_refl).
Defined.

(** The sample frame saved beside the raw file of the three records:
    both files can be read afterwards. *)
Lemma save_parquet_preserves_files_witness :
  exists w1 : world,
    save_parquet (FeatureFrame (features batch)) "data/processed"
                 (ingested (JsonArray raw_three))
    = (Ok tt, w1) /\
    lookup_node
      (resolve (ingested (JsonArray raw_three))
               "data/processed/load_date=2025-01-12/firehydrants.parquet")
      (root w1)
    = Some (File (ParquetFile (features batch))) /\
    lookup_node (resolve (ingested (JsonArray raw_three)) raw_file) (root w1)
    = Some (File (TextFile (JsonArray raw_three))).
Proof.
  exists (save_parquet (FeatureFrame (features batch)) "data/processed"
                       (ingested (JsonArray raw_three))).2.
  assert (save_parquet (FeatureFrame (features batch)) "data/processed"
                       (ingested (JsonArray raw_three))
          = (Ok tt,
             (save_parquet (FeatureFrame (features batch)) "data/processed"
                           (ingested (JsonArray raw_three))).2)) as Hs
    by (vm_compute; reflexivity).
  split; [exact Hs|].
  destruct (save_parquet_preserves_files _ _ _ _ Hs) as (f & t & Hf & Hhead & Hl & Hother).
  assert (f = features batch) as -> by congruence.
  assert (t = to_date noon) as ->
    by (vm_compute in Hhead; injection Hhead as <-; vm_compute; reflexivity).
  split; [exact Hl|].
  apply Hother.
  - intros Heq. vm_compute in Heq. discriminate.
  - vm_compute. reflexivity.
Defined.

(** A run on the three raw records: the two valid ones are transformed
    and stored. *)
Lemma run_pipeline_success_witness :
  exists (valid : list record) (n : nat) (f : frame),
    validate_records raw_three = (valid, n) /\
    valid <> [] /\
    transform_data noon noon valid = Ok (FeatureFrame f) /\
    lookup_node
      (resolve (started (JsonArray raw_three))
               "data/processed/load_date=2025-01-12/firehydrants.parquet")
      (root (run_pipeline "1a2b3c4d" (started (JsonArray raw_three))).2)
    = Some (File (ParquetFile f)).
Proof.
  destruct (run_pipeline_success "1a2b3c4d" (started (JsonArray raw_three))
              (run_pipeline "1a2b3c4d" (started (JsonArray raw_three))).2)
    as (status & text & data & valid & n & f & Hh & Hv & Hne & Ht & Hl).
  - vm_compute. reflexivity.
  - change (http (started (JsonArray raw_three)))
      with (HttpResponse 200 "" (JsonArray raw_three)) in Hh.
    injection Hh as _ _ <-.
    exists valid, n, f. split; [exact Hv|]. split; [exact Hne|].
    split; [exact Ht|exact Hl].
Defined.

(** The API answers 503: the run raises the [HTTPError], alerts, and
    leaves the tree as it was. *)
Lemma early_failure_propagates_witness :
  exists w' : world,
    run_pipeline "1a2b3c4d" unavailable
    = (Raise (Exn HTTPError "503 Server Error: Service Unavailable"), w') /\
    last (log w')
    = Some (failure_alert (Exn HTTPError "503 Server Error: Service Unavailable")) /\
    root w' = root unavailable.
Proof.
  apply (early_failure_propagates "1a2b3c4d" unavailable
           (logger INFO [Lit ("Starting hydrant pipeline with run ID: " +:+ "1a2b3c4d")]
                   unavailable).2).
  left. reflexivity.
Defined.
